(** * disco-sui: document mutation tools and link-consistency maintenance

    A shallow embedding of the TypeScript tools that mutate an Obsidian
    vault (note creation / update / deletion / move, tag management, folder
    operations) and of the agent that sequences them, together with the
    properties of the specification that concern them.

    Conventions.
    - JavaScript strings are modelled by [string]: a character of the
      model is a code unit below U+0100; texts with other characters are
      outside the model.
    - [async] code is modelled sequentially: every [await] is a plain call.
    - The file system is explicit state; a thrown exception is an [Err]
      result and leaves the state as it was when the exception was thrown. *)

From Stdlib Require Import List Bool Arith Lia Ascii String.
Import ListNotations.
Open Scope string_scope.
Open Scope bool_scope.

Set Implicit Arguments.

(* ================================================================== *)
(** * Strings *)
(* ================================================================== *)

Module Str.

(** [s.slice(n)] *)
Fixpoint drop (n : nat) (s : string) : string :=
  match n, s with
  | O, _ => s
  | S _, EmptyString => EmptyString
  | S n', String _ s' => drop n' s'
  end.

(** [s.slice(0, n)] *)
Fixpoint take (n : nat) (s : string) : string :=
  match n, s with
  | O, _ => EmptyString
  | S _, EmptyString => EmptyString
  | S n', String c s' => String c (take n' s')
  end.

Fixpoint forallb (p : ascii -> bool) (s : string) : bool :=
  match s with
  | EmptyString => true
  | String c s' => p c && forallb p s'
  end.

(** [s1.endsWith(s2)] *)
Definition suffix (s2 s1 : string) : bool :=
  String.eqb (drop (String.length s1 - String.length s2) s1) s2
  && Nat.leb (String.length s2) (String.length s1).

(** [s.split(sep)] for a one-character separator: never returns the empty
    list, [''.split('/')] is [['']]. *)
Fixpoint split (sep : ascii) (s : string) : list string :=
  match s with
  | EmptyString => [EmptyString]
  | String c s' =>
      if Ascii.eqb c sep then EmptyString :: split sep s'
      else match split sep s' with
           | [] => [String c EmptyString]
           | w :: ws => String c w :: ws
           end
  end.

(** [String.prototype.toLowerCase] on a code unit below U+0100: the
    letters [A] to [Z], and the capital letters of Latin-1 (U+00C0 to
    U+00DE without the multiplication sign U+00D7). *)
Definition lower (c : ascii) : ascii :=
  let n := nat_of_ascii c in
  if (Nat.leb 65 n && Nat.leb n 90)
     || (Nat.leb 192 n && Nat.leb n 222 && negb (Nat.eqb n 215))
  then ascii_of_nat (n + 32) else c.

Fixpoint toLowerCase (s : string) : string :=
  match s with
  | EmptyString => EmptyString
  | String c s' => String (lower c) (toLowerCase s')
  end.

(** The members of the regular-expression class [\s] below U+0100. *)
Definition isSpace (c : ascii) : bool :=
  let n := nat_of_ascii c in
  (Nat.leb 9 n && Nat.leb n 13) || Nat.eqb n 32 || Nat.eqb n 160.

End Str.

(* ================================================================== *)
(** * A backtracking matcher for the regular expressions of the tools *)
(* ================================================================== *)

Module Regex.

(** The fragment of the JavaScript pattern language the tools use: a
    character class, concatenation, alternation, the greedy quantifiers
    [?] and [*], the assertions [^] and [$] (no [m] flag: start and end
    of the input) and one capturing group (the tools never use more than
    group 1). *)
Inductive regex : Type :=
| Eps
| Cls (p : ascii -> bool)
| Bol
| Eoi
| Cat (r1 r2 : regex)
| Alt (r1 r2 : regex)
| Opt (r : regex)
| Star (r : regex)
| Grp (r : regex).

Definition chr (c : ascii) : regex := Cls (Ascii.eqb c).
Definition notChr (c : ascii) : regex := Cls (fun x => negb (Ascii.eqb x c)).

(** A sequence of pattern characters that stand for themselves. *)
Fixpoint lit (s : string) : regex :=
  match s with
  | EmptyString => Eps
  | String c s' => Cat (chr c) (lit s')
  end.

Fixpoint hasGrp (r : regex) : bool :=
  match r with
  | Eps | Cls _ | Bol | Eoi => false
  | Cat r1 r2 | Alt r1 r2 => hasGrp r1 || hasGrp r2
  | Opt r1 | Star r1 => hasGrp r1
  | Grp _ => true
  end.

(** The state of a match: the capture of group 1 ([None] is [undefined])
    and the input that is still to be read. *)
Definition mstate : Type := (option string * string)%type.
Definition cont : Type := string -> option string -> option mstate.

Definition orElse (a : option mstate) (b : option mstate) : option mstate :=
  match a with Some x => Some x | None => b end.

(** Entering a quantified atom clears the captures inside it. *)
Definition enter (r : regex) (cap : option string) : option string :=
  if hasGrp r then None else cap.

(** The loop of a greedy star whose atom is matched by [atom]: try one
    more iteration, fall back to the continuation; an iteration that
    consumes nothing fails.  At most [String.length s] iterations can
    succeed, which is the [fuel] the matcher starts the loop with. *)
Fixpoint starIter (atom : string -> option string -> cont -> option mstate)
  (k : cont) (fuel : nat) (s : string) (cap : option string)
  {struct fuel} : option mstate :=
  match fuel with
  | O => k s cap
  | S fuel' =>
      orElse
        (atom s cap
           (fun s' cap' =>
              if Nat.ltb (String.length s') (String.length s)
              then starIter atom k fuel' s' cap' else None))
        (k s cap)
  end.

(** ECMAScript backtracking semantics in continuation-passing style.
    [n0] is the length of the whole input, [s] the part of it still
    unread. *)
Fixpoint rmatch (n0 : nat) (r : regex) (s : string) (cap : option string)
  (k : cont) {struct r} : option mstate :=
  match r with
  | Eps => k s cap
  | Cls p =>
      match s with
      | EmptyString => None
      | String c s' => if p c then k s' cap else None
      end
  | Bol => if Nat.eqb (String.length s) n0 then k s cap else None
  | Eoi => match s with EmptyString => k s cap | String _ _ => None end
  | Cat r1 r2 => rmatch n0 r1 s cap (fun s' cap' => rmatch n0 r2 s' cap' k)
  | Alt r1 r2 => orElse (rmatch n0 r1 s cap k) (rmatch n0 r2 s cap k)
  | Opt r1 => orElse (rmatch n0 r1 s (enter r1 cap) k) (k s cap)
  | Star r1 =>
      starIter (fun s' cap' k' => rmatch n0 r1 s' (enter r1 cap') k')
        k (String.length s) s cap
  | Grp r1 =>
      rmatch n0 r1 s cap
        (fun s' _ =>
           k s' (Some (Str.take (String.length s - String.length s') s)))
  end.

(** One attempt to match [r] at the start of [s], the unread part of an
    input of length [n0]: the capture and the number of characters
    matched. *)
Definition matchAt (n0 : nat) (r : regex) (s : string)
  : option (option string * nat) :=
  match rmatch n0 r s None (fun s' cap => Some (cap, s')) with
  | Some (cap, s') => Some (cap, String.length s - String.length s')
  | None => None
  end.

(** [s.replace(new RegExp(r, 'g'), repl)] where [repl] receives the
    matched text and the capture.  [skip] counts the characters of the
    current match that are still to be passed over.  After an empty match
    the next character is copied and the search resumes behind it. *)
Fixpoint replaceFrom (n0 : nat) (r : regex)
  (repl : string -> option string -> string)
  (skip : nat) (s : string) {struct s} : string :=
  match s with
  | EmptyString =>
      match skip, matchAt n0 r EmptyString with
      | O, Some (cap, _) => repl EmptyString cap
      | _, _ => EmptyString
      end
  | String c s' =>
      match skip with
      | S n => replaceFrom n0 r repl n s'
      | O =>
          match matchAt n0 r s with
          | Some (cap, O) =>
              repl EmptyString cap ++ String c (replaceFrom n0 r repl 0 s')
          | Some (cap, S n) =>
              repl (Str.take (S n) s) cap ++ replaceFrom n0 r repl n s'
          | None => String c (replaceFrom n0 r repl 0 s')
          end
      end
  end.

Definition replaceAll (r : regex) (repl : string -> option string -> string)
  (s : string) : string :=
  replaceFrom (String.length s) r repl 0 s.

(** [r.test(s)] for a pattern without the [g] flag: is there a position
    of [s] at which [r] matches? *)
Fixpoint testFrom (n0 : nat) (r : regex) (s : string) : bool :=
  match matchAt n0 r s with
  | Some _ => true
  | None =>
      match s with
      | EmptyString => false
      | String _ s' => testFrom n0 r s'
      end
  end.

Definition test (r : regex) (s : string) : bool :=
  testFrom (String.length s) r s.

(** [r+] *)
Definition plus (r : regex) : regex := Cat r (Star r).

(** A pattern character under the [i] flag. *)
Definition chrI (c : ascii) : regex :=
  Cls (fun x => Ascii.eqb (Str.lower x) (Str.lower c)).

(** The characters that are syntax in a pattern. *)
Definition isSyntaxChar (c : ascii) : bool :=
  existsb (Ascii.eqb c)
    ["\"; "^"; "$"; "."; "|"; "?"; "*"; "+"; "("; ")"; "["; "]"; "{"; "}"]%char.

(** A string that, spliced into a pattern, matches exactly itself. *)
Definition literal (s : string) : bool :=
  Str.forallb (fun c => negb (isSyntaxChar c)) s.

(** A string that, spliced into a replacement template, is copied as it
    is: no ["$"], which introduces a substitution. *)
Definition plainReplacement (s : string) : bool :=
  Str.forallb (fun c => negb (Ascii.eqb c "$")) s.

End Regex.

(* ================================================================== *)
(** * Link identifiers and link rewriting *)
(* ================================================================== *)

Module Links.
Import Regex.

(** [/\.md$/i] *)
Definition mdSuffix : regex :=
  Cat (chr ".") (Cat (chrI "m") (Cat (chrI "d") Eoi)).

(** [/\s+/g] *)
Definition spaces : regex := plus (Cls Str.isSpace).

(** [pathToWikiLink], defined with the same body by
    [NoteMoveAndRenameTool] and by [FolderOperationTool]:
    [filePath.replace(/\.md$/i, '').split('/')
       .map(part => part.replace(/\s+/g, '_')).join('/')]. *)
Definition pathToWikiLink (filePath : string) : string :=
  String.concat "/"
    (map (replaceAll spaces (fun _ _ => "_"))
       (Str.split "/" (replaceAll mdSuffix (fun _ _ => "") filePath))).

(** The text of an optional capture in a replacement: [undefined] gives
    the empty string. *)
Definition capText (cap : option string) : string :=
  match cap with Some g => g | None => "" end.

(** The optional alias, group 1 of the pattern below: a bar and
    everything up to the next closing bracket. *)
Definition aliasGroup : regex := Opt (Grp (Cat (chr "|") (Star (notChr "]")))).

(** [NoteMoveAndRenameTool.updateLinksInVault], the pattern
    [new RegExp(`\[\[${oldLink}(\|[^\]]* )?\]\]`, 'g')] (written here
    with a blank after the star) for an [oldLink] without syntax
    characters. *)
Definition notePattern (oldLink : string) : regex :=
  Cat (lit "[[") (Cat (lit oldLink) (Cat aliasGroup (lit "]]"))).

(** The replacement template [[[${newLink}$1]]] for a [newLink] without
    a dollar sign: [$1] is the text of group 1. *)
Definition noteReplacement (newLink : string)
  : string -> option string -> string :=
  fun _ cap => "[[" ++ newLink ++ capText cap ++ "]]".

(** [content.replace(new RegExp(..., 'g'), `[[${newLink}$1]]`)].  The
    link identifiers are spliced into the pattern and into the
    replacement template unescaped; the model covers the identifiers
    that are read literally there and answers [None] for the others. *)
Definition noteRewrite (oldLink newLink content : string) : option string :=
  if literal oldLink && plainReplacement newLink then
    Some (replaceAll (notePattern oldLink) (noteReplacement newLink) content)
  else None.

(** [FolderOperationTool.updateLinksInVault], the pattern
    [\[\[${oldPathPattern}[^\]]*\]\]]. *)
Definition folderPattern (oldLink : string) : regex :=
  Cat (lit "[[") (Cat (lit oldLink) (Cat (Star (notChr "]")) (lit "]]"))).

(** [match.replace(oldPathPattern, newPathPattern)] with a string
    pattern: the first occurrence only. *)
Fixpoint replaceFirst (old new s : string) : string :=
  if String.prefix old s then new ++ Str.drop (String.length old) s
  else match s with
       | EmptyString => EmptyString
       | String c s' => String c (replaceFirst old new s')
       end.

(** [(match) => match.replace(oldPathPattern, newPathPattern)] *)
Definition folderReplacement (oldLink newLink : string)
  : string -> option string -> string :=
  fun m _ => replaceFirst oldLink newLink m.

(** [content.replace(new RegExp(..., 'g'),
       (match) => match.replace(oldPathPattern, newPathPattern))]. *)
Definition folderRewrite (oldLink newLink content : string) : option string :=
  if literal oldLink && plainReplacement newLink then
    Some (replaceAll (folderPattern oldLink)
            (folderReplacement oldLink newLink) content)
  else None.

End Links.

(* ================================================================== *)
(** * Paths: the POSIX flavour of Node's [path] module *)
(* ================================================================== *)

Module Path.

(** [normalizeString] of Node, on the list of the segments between
    slashes: empty segments and ["."] vanish, [".."] removes the segment
    before it when there is one that is not itself [".."], and is kept
    only where climbing above the start is allowed (relative paths).
    [res] is the result so far, last segment first. *)
Fixpoint normalizeSegs (allowAboveRoot : bool) (res segs : list string)
  : list string :=
  match segs with
  | [] => rev res
  | seg :: segs' =>
      if String.eqb seg "" || String.eqb seg "." then
        normalizeSegs allowAboveRoot res segs'
      else if String.eqb seg ".." then
        match res with
        | last :: res' =>
            if String.eqb last ".." then
              normalizeSegs allowAboveRoot
                (if allowAboveRoot then ".." :: res else res) segs'
            else normalizeSegs allowAboveRoot res' segs'
        | [] =>
            normalizeSegs allowAboveRoot
              (if allowAboveRoot then [".."] else []) segs'
        end
      else normalizeSegs allowAboveRoot (seg :: res) segs'
  end.

Definition isAbsolute (p : string) : bool := String.prefix "/" p.


(** [path.normalize] *)
Definition normalize (p : string) : string :=
  if String.eqb p "" then "."
  else
    let trailing := Str.suffix "/" p in
    let body :=
      String.concat "/"
        (normalizeSegs (negb (isAbsolute p)) [] (Str.split "/" p)) in
    if String.eqb body "" then
      if isAbsolute p then "/" else if trailing then "./" else "."
    else
      (if isAbsolute p then "/" else "") ++ body
      ++ (if trailing then "/" else "").

(** [path.join(...args)]: the non-empty arguments joined by a slash,
    then normalized. *)
Definition join (args : list string) : string :=
  match filter (fun a => negb (String.eqb a "")) args with
  | [] => "."
  | parts => normalize (String.concat "/" parts)
  end.

Fixpoint dropTrailingEmpty (l : list string) : list string :=
  match l with
  | [] => []
  | x :: l' =>
      match dropTrailingEmpty l' with
      | [] => if String.eqb x "" then [] else [x]
      | r => x :: r
      end
  end.

(** [path.dirname], for the normalized paths the tools apply it to: the
    path without its last segment. *)
Definition dirname (p : string) : string :=
  if String.eqb p "" then "."
  else
    let segs := dropTrailingEmpty (Str.split "/" p) in
    let dir := String.concat "/" (removelast segs) in
    if String.eqb dir "" then (if isAbsolute p then "/" else ".") else dir.

(** The last segment of a path: the name of the directory entry. *)
Definition basename (p : string) : string :=
  last (Str.split "/" p) "".

(** A normalized path without the slash a directory path may end in
    ([/vault/] and [./]; the root stays as it is). *)
Definition stripSlash (d : string) : string :=
  if Str.suffix "/" d && negb (String.eqb d "/")
  then Str.take (String.length d - 1) d
  else d.

(** Does the normalized path [p] lie strictly below the directory
    [dir]?  The paths below [dir] are those [path.join] makes of [dir]
    and the names on the way down; the empty path names no directory. *)
Definition under (dir p : string) : bool :=
  if String.eqb dir "" then false
  else
    let d := stripSlash (normalize dir) in
    if String.eqb d "." then
      negb (isAbsolute p) && negb (String.eqb (hd "" (Str.split "/" p)) "..")
    else if String.eqb d "/" then isAbsolute p && negb (String.eqb p "/")
    else String.prefix (d ++ "/") p.

End Path.

(* ================================================================== *)
(** * Outcomes, the file system and the world the tools run in *)
(* ================================================================== *)

(** Error codes of Node's [fs] calls. *)
Inductive errno : Type := ENOENT | EACCES | EEXIST | ENOTDIR.

(** The exceptions that travel through the tools. *)
Inductive exn : Type :=
| FsError (code : errno) (path : string)
| MatterThrew                          (* an exception out of gray-matter *)
| Failed (what : string) (cause : exn)   (* [new Error(`${what}: ${cause}`)] *)
| NoteNotFound (path : string)         (* [Note not found: ${path}] *)
| ToolNotFound (name : string)         (* [Tool ${name} not found] *)
| Message (text : string).

(** The result of running a piece of the program: a value, a thrown
    exception, or [Beyond] when the run leaves the part of JavaScript that
    is modelled (a link identifier that is not read literally inside a
    pattern or a replacement template). *)
Inductive outcome (A : Type) : Type :=
| Ok (a : A)
| Err (e : exn)
| Beyond.
Arguments Ok {A} a.
Arguments Err {A} e.
Arguments Beyond {A}.

(** A regular file: its text and whether the process may read and write
    it. *)
Record file : Type := mkFile {
  text : string;
  canRead : bool;
  canWrite : bool
}.

(** The world: the regular files by normalized path (directories are
    implicit: a directory exists where the tools look for one), the paths
    handed to a successful [fs.writeFile] (latest first), what went to the
    console, and the number of times the clock was read.  A path at which
    a file is read, checked or removed holds a regular file or nothing:
    a directory in the place of a file, and the [EISDIR] it answers
    with, are not modelled here (the folder tool has its own model,
    with the directories, below). *)
Record world : Type := mkWorld {
  files : list (string * file);
  written : list string;
  console : list exn;
  clockReads : nat
}.

(** Computations: state passing with exceptions. *)
Definition M (A : Type) : Type := world -> outcome A * world.

Definition ret {A : Type} (a : A) : M A := fun w => (Ok a, w).
Definition throw {A : Type} (e : exn) : M A := fun w => (Err e, w).
Definition beyond {A : Type} : M A := fun w => (Beyond, w).

Definition bind {A B : Type} (m : M A) (f : A -> M B) : M B :=
  fun w =>
    match m w with
    | (Ok a, w') => f a w'
    | (Err e, w') => (Err e, w')
    | (Beyond, w') => (Beyond, w')
    end.

(** [try { m } catch (error) { h error }] *)
Definition tryCatch {A : Type} (m : M A) (h : exn -> M A) : M A :=
  fun w =>
    match m w with
    | (Err e, w') => h e w'
    | r => r
    end.

Notation "x <- m ;; k" := (bind m (fun x => k))
  (at level 61, m at next level, right associativity).
Notation "m ;;; k" := (bind m (fun _ => k))
  (at level 61, right associativity).

(** [for (const x of xs) { body x }]: an exception leaves the loop. *)
Fixpoint forOf {A : Type} (body : A -> M unit) (xs : list A) : M unit :=
  match xs with
  | [] => ret tt
  | x :: xs' => body x ;;; forOf body xs'
  end.

Module Fs.

Definition lookup (p : string) (fs : list (string * file)) : option file :=
  match find (fun e => String.eqb (fst e) p) fs with
  | Some e => Some (snd e)
  | None => None
  end.

(** Replace the entry of [p], or add one at the end. *)
Fixpoint store (p : string) (f : file) (fs : list (string * file))
  : list (string * file) :=
  match fs with
  | [] => [(p, f)]
  | (q, g) :: fs' =>
      if String.eqb q p then (p, f) :: fs' else (q, g) :: store p f fs'
  end.

Definition remove (p : string) (fs : list (string * file))
  : list (string * file) :=
  filter (fun e => negb (String.eqb (fst e) p)) fs.

(** [fs.readFile(p, 'utf-8')] *)
Definition readFile (p : string) : M string :=
  fun w =>
    match lookup p (files w) with
    | None => (Err (FsError ENOENT p), w)
    | Some f =>
        if canRead f then (Ok (text f), w)
        else (Err (FsError EACCES p), w)
    end.

(** [fs.writeFile(p, data, 'utf-8')]: creates the file or replaces its
    text. *)
Definition writeFile (p data : string) : M unit :=
  fun w =>
    match lookup p (files w) with
    | None =>
        (Ok tt,
         mkWorld (store p (mkFile data true true) (files w))
           (p :: written w) (console w) (clockReads w))
    | Some f =>
        if canWrite f then
          (Ok tt,
           mkWorld (store p (mkFile data (canRead f) true) (files w))
             (p :: written w) (console w) (clockReads w))
        else (Err (FsError EACCES p), w)
    end.

(** [fs.access(p)] *)
Definition access (p : string) : M unit :=
  fun w =>
    match lookup p (files w) with
    | None => (Err (FsError ENOENT p), w)
    | Some _ => (Ok tt, w)
    end.

(** [fs.unlink(p)] *)
Definition unlink (p : string) : M unit :=
  fun w =>
    match lookup p (files w) with
    | None => (Err (FsError ENOENT p), w)
    | Some _ =>
        (Ok tt,
         mkWorld (remove p (files w)) (written w) (console w) (clockReads w))
    end.

(** The directory [p] and the directories above it. *)
Fixpoint ancestors (fuel : nat) (p : string) : list string :=
  match fuel with
  | O => [p]
  | S n =>
      let d := Path.dirname p in
      if String.eqb d p then [p] else p :: ancestors n d
  end.

(** [fs.mkdir(p, { recursive: true })]: fails where a regular file is in
    the way, and is otherwise without an effect on the regular files. *)
Definition mkdir (p : string) : M unit :=
  fun w =>
    match find (fun q => match lookup q (files w) with
                         | Some _ => true | None => false end)
            (ancestors (String.length p) p) with
    | Some q =>
        (Err (FsError (if String.eqb q p then EEXIST else ENOTDIR) q), w)
    | None => (Ok tt, w)
    end.

(** [console.error(..., e)] and [console.warn(e)] *)
Definition log (e : exn) : M unit :=
  fun w =>
    (Ok tt, mkWorld (files w) (written w) (e :: console w) (clockReads w)).

(** [getAllMarkdownFiles(dir)], the same method in every tool: the
    regular files below [dir] whose name matches [/\.md$/i], each as
    [path.join] of [dir] and the names on the way down.  [readdir] of
    the empty path fails. *)
Definition getAllMarkdownFiles (dir : string) : M (list string) :=
  fun w =>
    if String.eqb dir "" then (Err (FsError ENOENT ""), w)
    else
      (Ok (filter
             (fun p => Path.under dir p
                       && Regex.test Links.mdSuffix (Path.basename p))
             (map fst (files w))),
       w).

End Fs.

(* ================================================================== *)
(** * Frontmatter *)
(* ================================================================== *)

(** The values the tools themselves put into a frontmatter: strings
    (title, ISO timestamps), arrays of strings (tags), and [undefined],
    which an object literal can hold as the value of a key. *)
Inductive value : Type :=
| VStr (s : string)
| VArr (l : list string)
| VUndef.

(** A frontmatter object: its own keys in insertion order. *)
Definition FrontMatter : Type := list (string * value).

Module Fm.

(** [fm[k]], [undefined] for a missing key. *)
Fixpoint get (k : string) (fm : FrontMatter) : value :=
  match fm with
  | [] => VUndef
  | (k', v) :: fm' => if String.eqb k' k then v else get k fm'
  end.

(** Assignment of a key in an object literal: an existing key keeps its
    place, a new key goes to the end (keys that are array indices,
    which JavaScript lists first, are not among those of a note). *)
Fixpoint set (k : string) (v : value) (fm : FrontMatter) : FrontMatter :=
  match fm with
  | [] => [(k, v)]
  | (k', v') :: fm' =>
      if String.eqb k' k then (k, v) :: fm' else (k', v') :: set k v fm'
  end.

(** [{ ...a, ...b }] *)
Definition spread (a b : FrontMatter) : FrontMatter :=
  fold_left (fun acc kv => set (fst kv) (snd kv) acc) b a.

(** JavaScript truthiness of a value. *)
Definition truthy (v : value) : bool :=
  match v with
  | VStr s => negb (String.eqb s "")
  | VArr _ => true
  | VUndef => false
  end.

(** Truthiness of an optional string parameter. *)
Definition given (o : option string) : bool :=
  match o with
  | Some s => negb (String.eqb s "")
  | None => false
  end.

(** The elements [new Set(v || [])] is built from: an array gives its
    elements, a non-empty string its characters. *)
Definition elements (v : value) : list string :=
  match v with
  | VArr l => l
  | VStr s => map (fun c => String c EmptyString) (list_ascii_of_string s)
  | VUndef => []
  end.

End Fm.

(** A JavaScript [Set] of strings, as the list of its members in
    insertion order. *)
Module JsSet.

Definition has (x : string) (s : list string) : bool :=
  existsb (String.eqb x) s.

Definition add (x : string) (s : list string) : list string :=
  if has x s then s else s ++ [x].

Definition delete (x : string) (s : list string) : list string :=
  filter (fun y => negb (String.eqb y x)) s.

(** [new Set(iterable)] *)
Definition ofList (l : list string) : list string :=
  fold_left (fun s x => add x s) l [].

End JsSet.

(* ================================================================== *)
(** * The tools *)
(* ================================================================== *)

(** What the tools import and the embedding does not contain: the
    gray-matter package ([matter(text)] gives [{ data, content }],
    [matter.stringify(content, data)] the text of a note; [None] stands
    for an exception) and the system clock behind
    [new Date().toISOString()], as the sequence of its readings. *)
Record Deps : Type := mkDeps {
  matter : string -> option (FrontMatter * string);
  stringify : string -> FrontMatter -> option string;
  clock : nat -> string
}.

Section Imports.
Variable d : Deps.

Definition parseNote (text : string) : M (FrontMatter * string) :=
  match matter d text with
  | Some r => ret r
  | None => throw MatterThrew
  end.

Definition printNote (body : string) (fm : FrontMatter) : M string :=
  match stringify d body fm with
  | Some text => ret text
  | None => throw MatterThrew
  end.

(** [new Date().toISOString()] *)
Definition now : M string :=
  fun w =>
    (Ok (clock d (clockReads w)),
     mkWorld (files w) (written w) (console w) (S (clockReads w))).

End Imports.

(* ------------------------------------------------------------------ *)
(** ** The interfaces of [types/index.ts] *)

Module Types.

(** [Note] (the [Date] objects [created] and [modified] are built from
    the frontmatter and left out). *)
Record Note : Type := mkNote {
  path : string;
  title : value;
  content : string;
  frontmatter : FrontMatter;
  tags : value
}.

Section Any.
(** The parameters a tool is called with and what it returns ([any] in
    the source). *)
Variables (Params Res : Type).

Record Tool : Type := mkTool {
  name : string;
  description : string;
  execute : Params -> M Res
}.

Record TaskResult : Type := mkResult {
  success : bool;
  message : string;
  data : option (list Res);
  error : option exn
}.

End Any.

End Types.

(* ------------------------------------------------------------------ *)
(** ** NoteCreationTool *)

Module NoteCreationTool.

Record NoteCreationParams : Type := mkParams {
  title : string;
  content : option string;
  template : option string;
  tags : option (list string);
  folder : option string;
  frontmatter : option FrontMatter
}.

Definition isAlnum (c : ascii) : bool :=
  let n := nat_of_ascii c in
  (Nat.leb 97 n && Nat.leb n 122) || (Nat.leb 48 n && Nat.leb n 57).

(** [filename.toLowerCase().replace(/[^a-z0-9]+/g, '-')
      .replace(/(^-|-$)/g, '')] *)
Definition sanitizeFilename (filename : string) : string :=
  Regex.replaceAll
    (Regex.Grp (Regex.Alt (Regex.Cat Regex.Bol (Regex.chr "-"))
                          (Regex.Cat (Regex.chr "-") Regex.Eoi)))
    (fun _ _ => "")
    (Regex.replaceAll (Regex.plus (Regex.Cls (fun c => negb (isAlnum c))))
       (fun _ _ => "-")
       (Str.toLowerCase filename)).

Section WithVault.
Variable d : Deps.
Variable vaultPath : string.

(** The frontmatter written: [{ ...frontmatter, title, tags, created,
    modified }]. *)
Definition finalFrontmatter (params : NoteCreationParams)
  (created modified : string) : FrontMatter :=
  Fm.set "modified" (VStr modified)
    (Fm.set "created" (VStr created)
       (Fm.set "tags" (VArr (match tags params with Some l => l | None => [] end))
          (Fm.set "title" (VStr (title params))
             (match frontmatter params with Some f => f | None => [] end)))).

(** [console.warn(`Template ${template} not found, using empty
    content`)] *)
Definition templateWarning (params : NoteCreationParams) : exn :=
  Message ("Template "
           ++ match template params with Some t => t | None => "" end
           ++ " not found, using empty content").

(** Where the note goes. *)
Definition filePath (params : NoteCreationParams) : string :=
  Path.join
    [Path.join [vaultPath; match folder params with Some f => f | None => "" end];
     sanitizeFilename (title params) ++ ".md"].

Definition execute (params : NoteCreationParams) : M Types.Note :=
  tryCatch
    (let content0 := match content params with Some c => c | None => "" end in
     let folderPath :=
       Path.join [vaultPath; match folder params with Some f => f | None => "" end] in
     Fs.mkdir folderPath ;;;
     noteContent <-
       (if Fm.given (template params) then
          let templatePath :=
            Path.join [vaultPath; "_templates";
                       match template params with Some t => t | None => "" end] in
          tryCatch (Fs.readFile templatePath)
            (fun _ => Fs.log (templateWarning params) ;;; ret content0)
        else ret content0) ;;
     created <- now d ;;
     modified <- now d ;;
     let fm := finalFrontmatter params created modified in
     noteWithFrontmatter <- printNote d noteContent fm ;;
     Fs.writeFile (filePath params) noteWithFrontmatter ;;;
     ret (Types.mkNote (filePath params) (VStr (title params)) noteContent fm
            (VArr (match tags params with Some l => l | None => [] end))))
    (fun e => throw (Failed "Failed to create note" e)).

End WithVault.

End NoteCreationTool.

(* ------------------------------------------------------------------ *)
(** ** NoteUpdateTool *)

Module NoteUpdateTool.

Record NoteUpdateParams : Type := mkParams {
  notePath : string;
  title : option string;
  content : option string;
  tags : option (list string);
  frontmatter : option FrontMatter
}.

(** What the tool returns. *)
Record Updated : Type := mkUpdated {
  path : string;
  newTitle : value;
  newContent : string;
  newFrontmatter : FrontMatter
}.

(** [{ ...existingFrontmatter, ...params.frontmatter,
       title: params.title || existingFrontmatter.title,
       tags: params.tags || existingFrontmatter.tags,
       modified: new Date().toISOString() }] *)
Definition updatedFrontmatter (existingFrontmatter : FrontMatter)
  (params : NoteUpdateParams) (modified : string) : FrontMatter :=
  Fm.set "modified" (VStr modified)
    (Fm.set "tags"
       (match tags params with
        | Some l => VArr l
        | None => Fm.get "tags" existingFrontmatter
        end)
       (Fm.set "title"
          (if Fm.given (title params)
           then VStr (match title params with Some t => t | None => "" end)
           else Fm.get "title" existingFrontmatter)
          (Fm.spread existingFrontmatter
             (match frontmatter params with Some f => f | None => [] end)))).

Section WithVault.
Variable d : Deps.
Variable vaultPath : string.

Definition execute (params : NoteUpdateParams) : M Updated :=
  tryCatch
    (let fullPath := Path.join [vaultPath; notePath params] in
     raw <- Fs.readFile fullPath ;;
     parsed <- parseNote d raw ;;
     let existingFrontmatter := fst parsed in
     let existingContent := snd parsed in
     modified <- now d ;;
     let fm := updatedFrontmatter existingFrontmatter params modified in
     let updatedContent :=
       if Fm.given (content params)
       then match content params with Some c => c | None => "" end
       else existingContent in
     data <- printNote d updatedContent fm ;;
     Fs.writeFile fullPath data ;;;
     ret (mkUpdated (notePath params) (Fm.get "title" fm) updatedContent fm))
    (fun e => throw (Failed "Failed to update note" e)).

End WithVault.

End NoteUpdateTool.

(* ------------------------------------------------------------------ *)
(** ** NoteDeletionTool *)

Module NoteDeletionTool.

Section WithVault.
Variable vaultPath : string.

(** Returns [deletedPath]. *)
Definition execute (notePath : string) : M string :=
  tryCatch
    (let fullPath := Path.join [vaultPath; notePath] in
     Fs.access fullPath ;;;
     Fs.unlink fullPath ;;;
     ret notePath)
    (fun e =>
       match e with
       | FsError ENOENT _ => throw (NoteNotFound notePath)
       | _ => throw (Failed "Failed to delete note" e)
       end).

End WithVault.

End NoteDeletionTool.

(* ------------------------------------------------------------------ *)
(** ** NoteMoveAndRenameTool *)

Module NoteMoveAndRenameTool.

Record NoteMoveParams : Type := mkParams {
  sourcePath : string;
  destinationPath : string;
  newTitle : option string;
  updateLinks : option bool
}.

Definition pathToWikiLink : string -> string := Links.pathToWikiLink.

(** [{ ...frontmatter, title: newTitle || frontmatter.title,
       modified: new Date().toISOString() }] *)
Definition updatedFrontmatter (fm : FrontMatter) (newTitle : option string)
  (modified : string) : FrontMatter :=
  Fm.set "modified" (VStr modified)
    (Fm.set "title"
       (if Fm.given newTitle
        then VStr (match newTitle with Some t => t | None => "" end)
        else Fm.get "title" fm)
       fm).

Section WithVault.
Variable d : Deps.
Variable vaultPath : string.

(** The body of the loop of [updateLinksInVault]. *)
Definition updateLinksInFile (oldLink newLink : string) (file : string)
  : M unit :=
  content <- Fs.readFile file ;;
  match Links.noteRewrite oldLink newLink content with
  | None => beyond
  | Some updatedContent =>
      if String.eqb content updatedContent then ret tt
      else Fs.writeFile file updatedContent
  end.

Definition updateLinksInVault (oldPath newPath : string) : M unit :=
  tryCatch
    (files <- Fs.getAllMarkdownFiles vaultPath ;;
     let oldLink := pathToWikiLink oldPath in
     let newLink := pathToWikiLink newPath in
     forOf (updateLinksInFile oldLink newLink) files)
    (fun e => Fs.log e).

Definition execute (params : NoteMoveParams) : M Types.Note :=
  tryCatch
    (let sourceFullPath := Path.join [vaultPath; sourcePath params] in
     let destFullPath := Path.join [vaultPath; destinationPath params] in
     raw <- Fs.readFile sourceFullPath ;;
     parsed <- parseNote d raw ;;
     let noteContent := snd parsed in
     modified <- now d ;;
     let fm := updatedFrontmatter (fst parsed) (newTitle params) modified in
     Fs.mkdir (Path.dirname destFullPath) ;;;
     updatedContent <- printNote d noteContent fm ;;
     Fs.writeFile destFullPath updatedContent ;;;
     Fs.unlink sourceFullPath ;;;
     (if match updateLinks params with Some b => b | None => true end
      then updateLinksInVault (sourcePath params) (destinationPath params)
      else ret tt) ;;;
     ret (Types.mkNote destFullPath (Fm.get "title" fm) noteContent fm
            (if Fm.truthy (Fm.get "tags" fm) then Fm.get "tags" fm
             else VArr [])))
    (fun e => throw (Failed "Failed to move note" e)).

End WithVault.

End NoteMoveAndRenameTool.

(* ------------------------------------------------------------------ *)
(** ** FolderOperationTool: the link update after a folder move *)

Module FolderOperationTool.

Definition pathToWikiLink : string -> string := Links.pathToWikiLink.

Section WithVault.
Variable vaultPath : string.

(** The body of the loop of [updateLinksInVault]. *)
Definition updateLinksInFile (oldPathPattern newPathPattern : string)
  (file : string) : M unit :=
  content <- Fs.readFile file ;;
  match Links.folderRewrite oldPathPattern newPathPattern content with
  | None => beyond
  | Some updatedContent =>
      if String.eqb content updatedContent then ret tt
      else Fs.writeFile file updatedContent
  end.

Definition updateLinksInVault (oldPath newPath : string) : M unit :=
  tryCatch
    (allFiles <- Fs.getAllMarkdownFiles vaultPath ;;
     let oldPathPattern := pathToWikiLink oldPath in
     let newPathPattern := pathToWikiLink newPath in
     forOf (updateLinksInFile oldPathPattern newPathPattern) allFiles)
    (fun e => Fs.log e).

End WithVault.

End FolderOperationTool.

(* ------------------------------------------------------------------ *)
(** ** TagManagementTool *)

Module TagManagementTool.

Inductive OpType : Type := add | remove | rename.

Record TagOperation : Type := mkOp {
  type : OpType;
  tag : string;
  newTag : option string;
  notePaths : option (list string)
}.

(** [TagStats]: [{ tag, count, notes }] *)
Record TagStats : Type := mkTagStats {
  stats_tag : string;
  stats_count : nat;
  stats_notes : list string
}.

(** [new Set(frontmatter.tags || [])] *)
Definition tagsOf (fm : FrontMatter) : list string :=
  JsSet.ofList
    (Fm.elements
       (if Fm.truthy (Fm.get "tags" fm) then Fm.get "tags" fm else VArr [])).

(** [{ ...frontmatter, tags: Array.from(tags),
       modified: new Date().toISOString() }] *)
Definition updatedFrontmatter (fm : FrontMatter) (tags : list string)
  (modified : string) : FrontMatter :=
  Fm.set "modified" (VStr modified) (Fm.set "tags" (VArr tags) fm).

(** The three loops differ in the test on the tag set and in the change
    made to it: [change] answers [None] where the note is left alone. *)
Definition addChange (tag : string) (tags : list string)
  : option (list string) :=
  if negb (JsSet.has tag tags) then Some (JsSet.add tag tags) else None.

Definition removeChange (tag : string) (tags : list string)
  : option (list string) :=
  if JsSet.has tag tags then Some (JsSet.delete tag tags) else None.

Definition renameChange (oldTag newTag : string) (tags : list string)
  : option (list string) :=
  if JsSet.has oldTag tags
  then Some (JsSet.add newTag (JsSet.delete oldTag tags))
  else None.

Section WithVault.
Variable d : Deps.
Variable vaultPath : string.

(** One turn of the loop over [files]; answers whether the note was
    rewritten ([updatedNotes.push(file)]). *)
Definition processFile (change : list string -> option (list string))
  (file : string) : M bool :=
  let fullPath := Path.join [vaultPath; file] in
  raw <- Fs.readFile fullPath ;;
  parsed <- parseNote d raw ;;
  match change (tagsOf (fst parsed)) with
  | Some tags' =>
      modified <- now d ;;
      data <- printNote d (snd parsed)
                (updatedFrontmatter (fst parsed) tags' modified) ;;
      Fs.writeFile fullPath data ;;;
      ret true
  | None => ret false
  end.

(** The loop, with [updatedNotes] as its result. *)
Fixpoint processFiles (change : list string -> option (list string))
  (files : list string) : M (list string) :=
  match files with
  | [] => ret []
  | file :: files' =>
      changed <- processFile change file ;;
      rest <- processFiles change files' ;;
      ret (if changed then file :: rest else rest)
  end.

(** [notePaths || await this.getAllMarkdownFiles(this.vaultPath)] *)
Definition filesOf (notePaths : option (list string)) : M (list string) :=
  match notePaths with
  | Some l => ret l
  | None => Fs.getAllMarkdownFiles vaultPath
  end.

Definition addTag (tag : string) (notePaths : option (list string))
  : M TagStats :=
  files <- filesOf notePaths ;;
  updatedNotes <- processFiles (addChange tag) files ;;
  ret (mkTagStats tag (List.length updatedNotes) updatedNotes).

Definition removeTag (tag : string) (notePaths : option (list string))
  : M TagStats :=
  files <- filesOf notePaths ;;
  updatedNotes <- processFiles (removeChange tag) files ;;
  ret (mkTagStats tag (List.length updatedNotes) updatedNotes).

Definition renameTag (oldTag newTag : string) : M TagStats :=
  files <- Fs.getAllMarkdownFiles vaultPath ;;
  updatedNotes <- processFiles (renameChange oldTag newTag) files ;;
  ret (mkTagStats newTag (List.length updatedNotes) updatedNotes).

Definition execute (operation : TagOperation) : M TagStats :=
  tryCatch
    (match type operation with
     | add => addTag (tag operation) (notePaths operation)
     | remove => removeTag (tag operation) (notePaths operation)
     | rename =>
         if Fm.given (newTag operation) then
           renameTag (tag operation)
             (match newTag operation with Some t => t | None => "" end)
         else throw (Message "New tag name is required for rename operation")
     end)
    (fun e => throw (Failed "Failed to manage tags" e)).

End WithVault.

End TagManagementTool.

(* ------------------------------------------------------------------ *)
(** ** BaseAgent *)

Module BaseAgent.

Section Agent.
Variables (Params Res : Type).

(** The JSON object [understandTask] parses out of the answer of the
    language model; [requiredTools] may be missing. *)
Record TaskUnderstanding : Type := mkUnderstanding {
  taskType : string;
  requiredTools : option (list string);
  steps : list string
}.

(** A step of the plan [createExecutionPlan] parses out of the answer
    of the language model. *)
Record Step : Type := mkStep {
  toolName : string;
  parameters : Params
}.

(** [this.tools], and the two calls to the language model, which the
    embedding takes as given functions (an exception of the call or of
    [JSON.parse] is an [Err]). *)
Variable tools : list (Types.Tool Params Res).
Variable understandTask : string -> M TaskUnderstanding.
Variable createExecutionPlan :
  TaskUnderstanding -> list (Types.Tool Params Res) -> M (list Step).

(** [this.tools.filter(tool =>
       taskUnderstanding.requiredTools?.includes(tool.name))] *)
Definition selectTools (taskUnderstanding : TaskUnderstanding)
  : list (Types.Tool Params Res) :=
  filter
    (fun tool =>
       match requiredTools taskUnderstanding with
       | Some names => existsb (String.eqb (Types.name tool)) names
       | None => false
       end)
    tools.

Definition executeStep (step : Step) : M Res :=
  match find (fun t => String.eqb (Types.name t) (toolName step)) tools with
  | None => throw (ToolNotFound (toolName step))
  | Some tool => Types.execute tool (parameters step)
  end.

Fixpoint executePlan (plan : list Step) : M (list Res) :=
  match plan with
  | [] => ret []
  | step :: plan' =>
      result <- executeStep step ;;
      results <- executePlan plan' ;;
      ret (result :: results)
  end.

Definition execute (task : string) : M (Types.TaskResult Res) :=
  tryCatch
    (taskUnderstanding <- understandTask task ;;
     let selectedTools := selectTools taskUnderstanding in
     executionPlan <- createExecutionPlan taskUnderstanding selectedTools ;;
     result <- executePlan executionPlan ;;
     ret (Types.mkResult true "Task completed successfully" (Some result) None))
    (fun e => ret (Types.mkResult false "Task execution failed" None (Some e))).

End Agent.

End BaseAgent.

(* ================================================================== *)
(** * The Document Model of the specification *)
(* ================================================================== *)

(** The parser and the serializer of notes are not part of the sources:
    the tools take them from the gray-matter package.  This module models
    them from the specification (4.1 and 6): a header block delimited by
    a fixed marker line at its start and its end, holding the frontmatter
    as key-value text, followed immediately by the body; a text without
    header is a body with an empty frontmatter; a header that opens and
    never closes is a [MalformedFrontmatterError].  The key-value text
    is kept as simple as the values of the tools allow: a line
    [key: text] for a string, a line [key:] followed by one line
    [- item] per element for an array of strings. *)
Module DocumentModel.

(** Modelled from the spec: the fixed marker line that opens and closes
    the header (the document model itself is missing from the
    sources). *)
Definition marker : string := "---".

Definition newline : ascii := "010".

Inductive ParseError : Type := MalformedFrontmatterError.

(** [s] up to its first [c], and what follows that [c]. *)
Fixpoint cutAt (c : ascii) (s : string) : option (string * string) :=
  match s with
  | EmptyString => None
  | String x s' =>
      if Ascii.eqb x c then Some (EmptyString, s')
      else match cutAt c s' with
           | Some (a, b) => Some (String x a, b)
           | None => None
           end
  end.

(** Modelled from the spec: the key-value text of an entry of the
    frontmatter (the format is missing from the sources). *)
Definition encodeEntry (kv : string * value) : list string :=
  match snd kv with
  | VStr s => [fst kv ++ ": " ++ s]
  | VArr l => (fst kv ++ ":") :: map (fun x => "- " ++ x) l
  | VUndef => []
  end.

Definition encodeLines (f : FrontMatter) : list string :=
  flat_map encodeEntry f.

(** Every line followed by a newline. *)
Fixpoint unlines (ls : list string) : string :=
  match ls with
  | [] => ""
  | l :: ls' => l ++ String newline (unlines ls')
  end.

(** Modelled from the spec: [serialize(frontmatter, body)], missing from
    the sources, re-emits the header followed by the body, the keys in
    their order. *)
Definition serialize (f : FrontMatter) (b : string) : string :=
  unlines (marker :: encodeLines f ++ [marker]) ++ b.

(** What a line of the header is. *)
Inductive Line : Type :=
| Item (x : string)
| ArrayKey (k : string)
| StringKey (k s : string)
| Bad.

Definition classify (l : string) : Line :=
  if String.prefix "- " l then Item (Str.drop 2 l)
  else match cutAt ":" l with
       | None => Bad
       | Some (k, rest) =>
           if String.eqb rest "" then ArrayKey k
           else if String.prefix " " rest then StringKey k (Str.drop 1 rest)
           else Bad
       end.

(** Modelled from the spec: reading the key-value text back (missing
    from the sources).  The header lines are read from the last to the
    first: the entries read so far and the items that wait for the key of
    their array. *)
Fixpoint decodeLines (ls : list string) : option (FrontMatter * list string) :=
  match ls with
  | [] => Some ([], [])
  | l :: ls' =>
      match decodeLines ls' with
      | None => None
      | Some (f, pending) =>
          match classify l with
          | Item x => Some (f, x :: pending)
          | ArrayKey k => Some ((k, VArr pending) :: f, [])
          | StringKey k s =>
              match pending with
              | [] => Some ((k, VStr s) :: f, [])
              | _ :: _ => None
              end
          | Bad => None
          end
      end
  end.

(** The lines before the first marker line and the lines after it. *)
Fixpoint breakAtMarker (ls : list string) : option (list string * list string) :=
  match ls with
  | [] => None
  | l :: ls' =>
      if String.eqb l marker then Some ([], ls')
      else match breakAtMarker ls' with
           | Some (a, b) => Some (l :: a, b)
           | None => None
           end
  end.

(** Modelled from the spec: [parse(raw)], missing from the sources,
    splits a leading delimited header block from the body; a header that
    opens and never closes is a [MalformedFrontmatterError]; a text
    without header is its own body under an empty frontmatter. *)
Definition parse (raw : string) : FrontMatter * string + ParseError :=
  match Str.split newline raw with
  | first :: rest =>
      if String.eqb first marker then
        match breakAtMarker rest with
        | None => inr MalformedFrontmatterError
        | Some (header, body) =>
            match decodeLines header with
            | Some (f, []) => inl (f, String.concat (String newline "") body)
            | _ => inr MalformedFrontmatterError
            end
        end
      else inl ([], raw)
  | [] => inl ([], raw)
  end.

(** Well-formed frontmatter: keys without colon and newline that do not
    look like an item, strings and items without newline, no
    [undefined]. *)
Definition oneLine (s : string) : bool :=
  Str.forallb (fun c => negb (Ascii.eqb c newline)) s.

Definition keyOk (k : string) : bool :=
  Str.forallb (fun c => negb (Ascii.eqb c ":") && negb (Ascii.eqb c newline)) k
  && negb (String.prefix "- " k).

Definition entryOk (kv : string * value) : bool :=
  keyOk (fst kv)
  && match snd kv with
     | VStr s => oneLine s
     | VArr l => forallb oneLine l
     | VUndef => false
     end.

Definition wellFormed (f : FrontMatter) : bool := forallb entryOk f.

(** The model as the package the tools import: [matter.stringify] throws
    on a frontmatter it cannot write, [matter] on a malformed header. *)
Definition deps (clock : nat -> string) : Deps :=
  mkDeps
    (fun raw => match parse raw with inl r => Some r | inr _ => None end)
    (fun body f => if wellFormed f then Some (serialize f body) else None)
    clock.

End DocumentModel.

(* ================================================================== *)
(** * Vocabulary of the statements *)
(* ================================================================== *)

(** A note text seen as the specification sees it: stretches of plain
    text and link references [[[target]]] or [[[target|alias]]]. *)
Module Doc.

Inductive segment : Type :=
| Text (t : string)
| Link (target : string) (alias : option string).

Definition renderSegment (g : segment) : string :=
  match g with
  | Text t => t
  | Link target None => "[[" ++ target ++ "]]"
  | Link target (Some alias) => "[[" ++ target ++ "|" ++ alias ++ "]]"
  end.

Fixpoint render (gs : list segment) : string :=
  match gs with
  | [] => ""
  | g :: gs' => renderSegment g ++ render gs'
  end.

Definition isOpen (c : ascii) : bool := Ascii.eqb c "[".
Definition isClose (c : ascii) : bool := Ascii.eqb c "]".
Definition isBar (c : ascii) : bool := Ascii.eqb c "|".

(** What group 1 of the note pattern holds after a reference with the
    alias [al]. *)
Definition capOf (al : option string) : option string :=
  match al with Some a => Some ("|" ++ a) | None => None end.

(** Plain text opens no link: a ["["] in it is followed, inside the
    text, by a character other than ["["]. *)
Fixpoint plainText (t : string) : bool :=
  match t with
  | EmptyString => true
  | String c t' =>
      if isOpen c then
        match t' with
        | EmptyString => false
        | String c' _ => negb (isOpen c') && plainText t'
        end
      else plainText t'
  end.

(** A target holds no bracket and no bar, an alias no bracket. *)
Definition targetOk (t : string) : bool :=
  Str.forallb (fun c => negb (isOpen c) && negb (isClose c) && negb (isBar c)) t.

Definition aliasOk (a : string) : bool :=
  Str.forallb (fun c => negb (isOpen c) && negb (isClose c)) a.

Definition segmentOk (g : segment) : bool :=
  match g with
  | Text t => plainText t
  | Link target None => targetOk target
  | Link target (Some alias) => targetOk target && aliasOk alias
  end.

Definition wellFormed (gs : list segment) : bool := forallb segmentOk gs.

(** Pointing a reference at a new identifier: the target changes when it
    is exactly [oldId], the alias stays. *)
Definition retarget (oldId newId : string) (g : segment) : segment :=
  match g with
  | Text t => Text t
  | Link target alias =>
      if String.eqb target oldId then Link newId alias else Link target alias
  end.

(** Moving what lies in a folder: the target changes when it is the
    folder [oldId] or lies below it, and keeps what follows the folder. *)
Definition retargetBelow (oldId newId : string) (g : segment) : segment :=
  match g with
  | Text t => Text t
  | Link target alias =>
      if String.eqb target oldId || String.prefix (oldId ++ "/") target
      then Link (newId ++ Str.drop (String.length oldId) target) alias
      else Link target alias
  end.

(** What the folder pattern does: the target changes whenever it begins
    with [oldId]. *)
Definition retargetPrefix (oldId newId : string) (g : segment) : segment :=
  match g with
  | Text t => Text t
  | Link target alias =>
      if String.prefix oldId target
      then Link (newId ++ Str.drop (String.length oldId) target) alias
      else Link target alias
  end.

(** A reference without its first bracket. *)
Definition linkTail (tg : string) (al : option string) : string :=
  match al with
  | Some a => "[" ++ tg ++ "|" ++ a ++ "]]"
  | None => "[" ++ tg ++ "]]"
  end.

(** No target merely begins with [oldId]: one that has [oldId] as a
    prefix is [oldId] itself or goes on with a slash. *)
Definition noLookalike (oldId : string) (g : segment) : bool :=
  match g with
  | Text _ => true
  | Link target _ =>
      negb (String.prefix oldId target)
      || String.eqb target oldId || String.prefix (oldId ++ "/") target
  end.

End Doc.

(** What the statements say about a world. *)
Module World.

(** The text of the note at [p], if there is one. *)
Definition textAt (p : string) (w : world) : option string :=
  match Fs.lookup p (files w) with
  | Some f => Some (text f)
  | None => None
  end.


(** One entry per path. *)
Definition wellFormed (w : world) : Prop := NoDup (map fst (files w)).

(** The notes of the vault, as [getAllMarkdownFiles] lists them. *)
Definition notesOf (vaultPath : string) (w : world) : list string :=
  filter
    (fun p => Path.under vaultPath p
              && Regex.test Links.mdSuffix (Path.basename p))
    (map fst (files w)).




(** The content a creation gives the note: the text of the template when
    one is asked for and can be read, the [content] parameter otherwise. *)
Definition createdContent (vaultPath : string)
  (params : NoteCreationTool.NoteCreationParams) (w : world) : string :=
  let content0 :=
    match NoteCreationTool.content params with Some c => c | None => "" end in
  if Fm.given (NoteCreationTool.template params) then
    match Fs.readFile
            (Path.join [vaultPath; "_templates";
                        match NoteCreationTool.template params with
                        | Some t => t | None => "" end]) w with
    | (Ok c, _) => c
    | _ => content0
    end
  else content0.

(** The package reads back what it wrote. *)
Definition RoundTrip (d : Deps) : Prop :=
  forall body fm data,
    stringify d body fm = Some data -> matter d data = Some (fm, body).

(** The frontmatter and the body of the note at [p]. *)
Definition parsedAt (d : Deps) (p : string) (w : world)
  : option (FrontMatter * string) :=
  match textAt p w with
  | Some t => matter d t
  | None => None
  end.

(** The tag set of the note at [p]. *)
Definition tagsAt (d : Deps) (p : string) (w : world) : option (list string) :=
  match parsedAt d p w with
  | Some (fm, _) => Some (TagManagementTool.tagsOf fm)
  | None => None
  end.

(** A rename in place, as the specification words it: the new tag where
    the old one was, without a second entry. *)
Definition renameInPlace (oldTag newTag : string) (tags : list string)
  : list string :=
  JsSet.ofList
    (map (fun t => if String.eqb t oldTag then newTag else t) tags).

(** The change a tag operation makes to a tag set. *)
Definition changeFor (operation : TagManagementTool.TagOperation)
  : list string -> option (list string) :=
  match TagManagementTool.type operation with
  | TagManagementTool.add =>
      TagManagementTool.addChange (TagManagementTool.tag operation)
  | TagManagementTool.remove =>
      TagManagementTool.removeChange (TagManagementTool.tag operation)
  | TagManagementTool.rename =>
      TagManagementTool.renameChange (TagManagementTool.tag operation)
        (match TagManagementTool.newTag operation with
         | Some t => t | None => "" end)
  end.

(** The notes a tag operation goes through: the paths it is given, or
    the notes of the vault when it is given none; always the notes of the
    vault for a rename. *)
Definition listedFor (vaultPath : string)
  (operation : TagManagementTool.TagOperation) (w : world) : list string :=
  match TagManagementTool.type operation, TagManagementTool.notePaths operation with
  | TagManagementTool.rename, _ => notesOf vaultPath w
  | _, Some l => l
  | _, None => notesOf vaultPath w
  end.




(** A check for [wellFormed]. *)
Fixpoint distinct (ps : list string) : bool :=
  match ps with
  | [] => true
  | p :: ps' => negb (existsb (String.eqb p) ps') && distinct ps'
  end.




End World.

(** Worlds the examples run in. *)
Module Examples.

Definition note (t : string) : file := mkFile t true true.

Definition emptyWorld (fs : list (string * file)) : world :=
  mkWorld fs [] [] 0.

(** A vault with one note that refers to [foo] and to [foobar]. *)
Definition fooVault : world :=
  emptyWorld [("/vault/index.md", note "[[foo]] and [[foobar]]")].

(** A vault with one note that refers to the folder [foo] and to a note
    in it. *)
Definition belowVault : world :=
  emptyWorld [("/vault/index.md", note "[[foo]] and [[foo/bar]]")].




(** A vault and, next to it, a file that is not part of it. *)
Definition vaultAndSecret : world :=
  emptyWorld
    [("/vault/a.md", note "a note");
     ("/secret.md", note "not a note of the vault")].

(** A vault in which the note [a/b.md] is about to move: another note
    refers to it by its name and by its path. *)
Definition movedVault : world :=
  emptyWorld
    [("/vault/a/b.md",
      note "---
title: B
tags:
- draft
---
the moved note");
     ("/vault/other.md", note "see [[b]] and [[b|custom alias]]");
     ("/vault/index.md", note "[[a/b]], [[a/b|custom alias]] and [[a/bc]]")].

(** The clock of the examples. *)
Definition fixedClock : nat -> string := fun _ => "2024-01-01T00:00:00.000Z".

Definition model : Deps := DocumentModel.deps fixedClock.

(** A vault at the working directory, the place from which the tag tool
    lists the notes by the paths it reads them at: two notes with the tag
    [old], one of them also with [new], and a note without tags. *)
Definition taggedVault : world :=
  emptyWorld
    [("first.md",
      note (DocumentModel.serialize
              [("title", VStr "First"); ("tags", VArr ["old"; "x"])]
              "one"));
     ("sub/second.md",
      note (DocumentModel.serialize
              [("title", VStr "Second"); ("tags", VArr ["new"; "old"; "y"])]
              "two"));
     ("third.md", note "no header at all")].


(** The tagged vault with a note at the end that cannot be read. *)
Definition lateFailure : world :=
  emptyWorld
    (files taggedVault ++ [("zz.md", mkFile "cannot be read" false true)]).

(** A vault that already holds the note [ideas.md]. *)
Definition ideasVault : world :=
  emptyWorld
    [("/vault/ideas.md",
      note (DocumentModel.serialize
              [("title", VStr "Ideas"); ("tags", VArr ["draft"; "kept"]);
               ("author", VStr "someone")]
              "months of work"))].

Definition ideasAgain : NoteCreationTool.NoteCreationParams :=
  NoteCreationTool.mkParams "Ideas!" (Some "fresh") None (Some ["new"]) None None.

(** A clock that moves on after three readings. *)
Definition twoDays : nat -> string :=
  fun i => if Nat.ltb i 3 then "2024-01-01T00:00:00.000Z"
           else "2024-01-02T00:00:00.000Z".

(** An agent with one tool, asked for a tool it does not have. *)
Definition oneTool : list (Types.Tool unit string) :=
  [Types.mkTool "note_creation" "Creates new notes in the Obsidian vault"
     (fun _ => ret "created")].

Definition asksForGhost : string -> M BaseAgent.TaskUnderstanding :=
  fun _ => ret (BaseAgent.mkUnderstanding "create" (Some ["ghost_tool"]) []).

Definition planWith (plan : list (BaseAgent.Step unit))
  : BaseAgent.TaskUnderstanding -> list (Types.Tool unit string)
    -> M (list (BaseAgent.Step unit)) :=
  fun _ _ => ret plan.

End Examples.

(* ================================================================== *)
(** * More of the code, and the vocabulary of the further properties *)
(* ================================================================== *)

(** Plain recursive functions that say what the patterns of the tools do
    to a string. *)
Module Plain.

(** Every maximal run of characters of the class [p] replaced by [r];
    [inRun] tells that the character before belongs to a run. *)
Fixpoint squeeze (p : ascii -> bool) (r : string) (inRun : bool) (s : string)
  : string :=
  match s with
  | EmptyString => EmptyString
  | String c s' =>
      if p c then (if inRun then squeeze p r true s' else r ++ squeeze p r true s')
      else String c (squeeze p r false s')
  end.

(** The length of the run of characters of the class [p] that [s] begins
    with. *)
Fixpoint runLength (p : ascii -> bool) (s : string) : nat :=
  match s with
  | EmptyString => 0
  | String c s' => if p c then S (runLength p s') else 0
  end.

(** [s] without a dash that is its last character. *)
Fixpoint dropLastDash (s : string) : string :=
  match s with
  | EmptyString => EmptyString
  | String c s' =>
      match s' with
      | EmptyString => if Ascii.eqb c "-" then EmptyString else String c EmptyString
      | String _ _ => String c (dropLastDash s')
      end
  end.

(** [s] without a dash that is its first character and without a dash
    that is its last. *)
Definition trimDash (s : string) : string :=
  match s with
  | String c s' => if Ascii.eqb c "-" then dropLastDash s' else dropLastDash s
  | EmptyString => EmptyString
  end.

(** Is [s] a dot, an [m] and a [d] in either case, and nothing more? *)
Definition isMdSuffix (s : string) : bool :=
  match s with
  | String c1 (String c2 (String c3 EmptyString)) =>
      Ascii.eqb c1 "." && Ascii.eqb (Str.lower c2) "m"
      && Ascii.eqb (Str.lower c3) "d"
  | _ => false
  end.

(** [s] without the extension [.md] (in either case) at its end. *)
Fixpoint stripMd (s : string) : string :=
  match s with
  | EmptyString => EmptyString
  | String c s' => if isMdSuffix s then EmptyString else String c (stripMd s')
  end.

(** A file name as [sanitizeFilename] leaves it when it is not empty:
    lower-case letters and digits, in groups separated by single dashes. *)
Fixpoint slug (t : string) : bool :=
  match t with
  | EmptyString => false
  | String c t' =>
      NoteCreationTool.isAlnum c
      && match t' with
         | EmptyString => true
         | String c' t'' => if Ascii.eqb c' "-" then slug t'' else slug t'
         end
  end.

(** No dash of [t] is followed by a dash. *)
Fixpoint singleDashes (t : string) : bool :=
  match t with
  | EmptyString => true
  | String c t' =>
      match t' with
      | EmptyString => true
      | String c' _ =>
          negb (Ascii.eqb c "-" && Ascii.eqb c' "-") && singleDashes t'
      end
  end.

(** A letter of either case or a digit. *)
Definition isLetterOrDigit (c : ascii) : bool :=
  NoteCreationTool.isAlnum (Str.lower c).

(** Does some character of [s] belong to the class [p]? *)
Fixpoint existsb (p : ascii -> bool) (s : string) : bool :=
  match s with
  | EmptyString => false
  | String c s' => p c || existsb p s'
  end.

End Plain.

(** More of the vocabulary of the statements. *)
Module Refs.

(** Is [g] a reference whose target is exactly [id]? *)
Definition refersTo (id : string) (g : Doc.segment) : bool :=
  match g with
  | Doc.Text _ => false
  | Doc.Link target _ => String.eqb target id
  end.

(** The body of the loop of a link update, for a rewrite [rw] that
    answers [None] outside the modelled fragment. *)
Definition linkFile (rw : string -> option string) (file : string) : M unit :=
  content <- Fs.readFile file ;;
  match rw content with
  | None => beyond
  | Some updatedContent =>
      if String.eqb content updatedContent then ret tt
      else Fs.writeFile file updatedContent
  end.

(** [w'] has the paths of [w], and the files of [w] outside [ps]. *)
Definition sameOutside (ps : list string) (w w' : world) : Prop :=
  map fst (files w') = map fst (files w)
  /\ (forall q, ~ In q ps -> Fs.lookup q (files w') = Fs.lookup q (files w)).

End Refs.

Module Notes.

(** Can the file at [p] be read? *)
Definition readable (p : string) (w : world) : bool :=
  match Fs.lookup p (files w) with
  | Some f => canRead f
  | None => false
  end.

(** The path of the template a creation asks for. *)
Definition templatePath (vaultPath : string)
  (params : NoteCreationTool.NoteCreationParams) : string :=
  Path.join [vaultPath; "_templates";
             match NoteCreationTool.template params with
             | Some t => t | None => "" end].

(** The keys a creation sets itself. *)
Definition createdKey (k : string) : bool :=
  existsb (String.eqb k) ["title"; "tags"; "created"; "modified"].

(** The keys an update sets itself. *)
Definition updatedKey (k : string) : bool :=
  existsb (String.eqb k) ["title"; "tags"; "modified"].

(** The parameters of an update without the [frontmatter] among them. *)
Definition withoutFrontmatter (params : NoteUpdateTool.NoteUpdateParams)
  : NoteUpdateTool.NoteUpdateParams :=
  NoteUpdateTool.mkParams (NoteUpdateTool.notePath params)
    (NoteUpdateTool.title params) (NoteUpdateTool.content params)
    (NoteUpdateTool.tags params) None.

End Notes.

Module Tags.

(** The characters of a string, each as a string: what a [Set] built
    from the string holds. *)
Definition chars (s : string) : list string :=
  map (fun c => String c EmptyString) (list_ascii_of_string s).

(** Does the change apply to the tag set of the note at [p]? *)
Definition touched (d : Deps) (change : list string -> option (list string))
  (w : world) (p : string) : bool :=
  match World.tagsAt d p w with
  | Some T => match change T with Some _ => true | None => false end
  | None => false
  end.

(** Where a tag loop reads and writes the note it lists as [file]:
    [const fullPath = path.join(this.vaultPath, file)]. *)
Definition fullPath (vaultPath file : string) : string :=
  Path.join [vaultPath; file].

(** The notes an addition or a removal goes through. *)
Definition listed (vaultPath : string) (notePaths : option (list string))
  (w : world) : list string :=
  match notePaths with
  | Some l => l
  | None => World.notesOf vaultPath w
  end.

End Tags.

(** More worlds for the examples. *)
Module Cases.

(** A note whose [tags] are a plain string. *)
Definition scalarTags : world :=
  Examples.emptyWorld
    [("note.md",
      Examples.note
        (DocumentModel.serialize
           [("title", VStr "N"); ("tags", VStr "project")] "body"))].


(** The tagged vault at [/vault]: the same notes, below the vault. *)
Definition housedVault : world :=
  Examples.emptyWorld
    (map (fun e => ("/vault/" ++ fst e, snd e)) (files Examples.taggedVault)).

(** The note with the plain string of tags, in the vault [/vault]. *)
Definition housedScalar : world :=
  Examples.emptyWorld
    (map (fun e => ("/vault/" ++ fst e, snd e)) (files scalarTags)).

End Cases.

(** Tools over the vault of the examples, for the agents. *)
Module Desk.

(** What a tool of the examples is called with and what it answers. *)
Inductive Call : Type :=
| Create (params : NoteCreationTool.NoteCreationParams)
| Delete (notePath : string).

Inductive Answer : Type :=
| Created (note : Types.Note)
| Deleted (deletedPath : string).

Definition creation (d : Deps) (vaultPath : string) : Types.Tool Call Answer :=
  Types.mkTool "note_creation" "Creates new notes in the Obsidian vault"
    (fun call =>
       match call with
       | Create params =>
           note <- NoteCreationTool.execute d vaultPath params ;;
           ret (Created note)
       | Delete _ => throw (Message "TypeError")
       end).

Definition deletion (vaultPath : string) : Types.Tool Call Answer :=
  Types.mkTool "note_deletion" "Deletes notes from the vault"
    (fun call =>
       match call with
       | Delete notePath =>
           deletedPath <- NoteDeletionTool.execute vaultPath notePath ;;
           ret (Deleted deletedPath)
       | Create _ => throw (Message "TypeError")
       end).

Definition tools : list (Types.Tool Call Answer) :=
  [creation Examples.model "/vault"; deletion "/vault"].

(** A task that is understood without a call to the outside, and its
    plan: create the note [Plans], then delete a note that is not
    there. *)
Definition understood : string -> M BaseAgent.TaskUnderstanding :=
  fun _ =>
    ret (BaseAgent.mkUnderstanding "create"
           (Some ["note_creation"; "note_deletion"]) []).

Definition plan : list (BaseAgent.Step Call) :=
  [BaseAgent.mkStep "note_creation"
     (Create (NoteCreationTool.mkParams "Plans" (Some "to do") None None None None));
   BaseAgent.mkStep "note_deletion" (Delete "missing.md");
   BaseAgent.mkStep "note_deletion" (Delete "ideas.md")].

Definition planned : BaseAgent.TaskUnderstanding ->
                     list (Types.Tool Call Answer) ->
                     M (list (BaseAgent.Step Call)) :=
  fun _ _ => ret plan.

End Desk.

(* ------------------------------------------------------------------ *)
(** ** NoteManagementAgent *)

Module NoteManagementAgent.

(** [s.replace(r, repl)] for a pattern without the [g] flag and a
    replacement without substitutions: the first match only. *)
Fixpoint replaceOnceFrom (n0 : nat) (r : Regex.regex) (repl : string)
  (s : string) : string :=
  match Regex.matchAt n0 r s with
  | Some (_, n) => repl ++ Str.drop n s
  | None =>
      match s with
      | EmptyString => EmptyString
      | String c s' => String c (replaceOnceFrom n0 r repl s')
      end
  end.

Definition replaceOnce (r : Regex.regex) (repl : string) (s : string) : string :=
  replaceOnceFrom (String.length s) r repl s.

(** The pattern of a file extension: a dot, then one or more characters
    that are neither a slash nor a dot, up to the end of the input. *)
Definition extension : Regex.regex :=
  Regex.Cat (Regex.chr ".")
    (Regex.Cat
       (Regex.plus
          (Regex.Cls (fun c => negb (Ascii.eqb c "/") && negb (Ascii.eqb c "."))))
       Regex.Eoi).

(** [options.uploadedFile] *)
Record UploadedFile : Type := mkUpload {
  path : string;
  name : string;
  type : string
}.

(** The parameters of the note that records an uploaded file:
    [{ title: fileName.replace(extension, ''),
       content: `File uploaded: ${fileName}\nType: ${fileType}\nPath: ${filePath}`,
       tags: ['uploaded-file'],
       frontmatter: { originalFile, fileType, uploadPath, uploadDate } }] *)
Definition uploadNote (file : UploadedFile) (uploadDate : string)
  : NoteCreationTool.NoteCreationParams :=
  NoteCreationTool.mkParams
    (replaceOnce extension "" (name file))
    (Some ("File uploaded: " ++ name file ++ String "010" "Type: "
           ++ type file ++ String "010" "Path: " ++ path file))
    None
    (Some ["uploaded-file"])
    None
    (Some [("originalFile", VStr (name file)); ("fileType", VStr (type file));
           ("uploadPath", VStr (path file)); ("uploadDate", VStr uploadDate)]).

Section Agent.
(** The parameters a tool is called with and what it returns ([any] in
    the source). *)
Variables (Params Res : Type).

(** The [data] of a result: what one tool returned, or the results of
    the steps of a plan. *)
Inductive Data : Type :=
| One (r : Res)
| Many (rs : list Res).

(** [TaskResult] *)
Record TaskResult : Type := mkResult {
  success : bool;
  message : string;
  data : option Data;
  error : option exn
}.

(** The clock, [this.tools], the object a creation is called with as a
    value of [any], and the two calls to the language model: the JSON
    [understandTask] parses holds the [parameters] beside what
    [BaseAgent] reads of it. *)
Variable d : Deps.
Variable tools : list (Types.Tool Params Res).
Variable ofCreation : NoteCreationTool.NoteCreationParams -> Params.
Variable understandTask : string -> M (BaseAgent.TaskUnderstanding * Params).
Variable createExecutionPlan :
  BaseAgent.TaskUnderstanding -> list (Types.Tool Params Res)
  -> M (list (BaseAgent.Step Params)).

(** The six methods [createNote], [updateNote], [deleteNote],
    [moveNote], [manageTag] and [manageFolder] have one body, up to the
    name of the tool and the three messages:
    [try { const tool = this.tools.find(tool => tool.name === toolName);
           if (!tool) throw new Error(notFound);
           const result = await tool.execute(params);
           return { success: true, message: done, data: result }; }
     catch (error) { return { success: false, message: failed, error }; }] *)
Definition useTool (toolName notFound done failed : string) (params : Params)
  : M TaskResult :=
  tryCatch
    (match find (fun tool => String.eqb (Types.name tool) toolName) tools with
     | None => throw (Message notFound)
     | Some tool =>
         result <- Types.execute tool params ;;
         ret (mkResult true done (Some (One result)) None)
     end)
    (fun e => ret (mkResult false failed None (Some e))).

Definition createNote : Params -> M TaskResult :=
  useTool "note_creation" "Note creation tool not found"
    "Note created successfully" "Failed to create note".

Definition updateNote : Params -> M TaskResult :=
  useTool "note_update" "Note update tool not found"
    "Note updated successfully" "Failed to update note".

Definition deleteNote : Params -> M TaskResult :=
  useTool "note_deletion" "Note deletion tool not found"
    "Note deleted successfully" "Failed to delete note".

Definition moveNote : Params -> M TaskResult :=
  useTool "note_move" "Note move tool not found"
    "Note moved successfully" "Failed to move note".

Definition manageTag : Params -> M TaskResult :=
  useTool "tag_management" "Tag management tool not found"
    "Tag operation completed successfully" "Failed to manage tag".

Definition manageFolder : Params -> M TaskResult :=
  useTool "folder_operation" "Folder operation tool not found"
    "Folder operation completed successfully" "Failed to manage folder".

(** [super.execute(task)] *)
Definition superExecute (task : string) : M TaskResult :=
  r <- BaseAgent.execute tools
         (fun t => analysis <- understandTask t ;; ret (fst analysis))
         createExecutionPlan task ;;
  ret (mkResult (Types.success r) (Types.message r)
         (option_map Many (Types.data r)) (Types.error r)).

(** [throw new Error(`Failed to create note for uploaded file:
    ${createNoteResult.error?.message}`)] *)
Definition uploadError (createNoteResult : TaskResult) : exn :=
  match error createNoteResult with
  | Some e => Failed "Failed to create note for uploaded file" e
  | None => Message "Failed to create note for uploaded file: undefined"
  end.

Definition execute (task : string) (uploadedFile : option UploadedFile)
  : M TaskResult :=
  tryCatch
    ((match uploadedFile with
      | Some file =>
          uploadDate <- now d ;;
          createNoteResult <- createNote (ofCreation (uploadNote file uploadDate)) ;;
          if negb (success createNoteResult)
          then throw (uploadError createNoteResult)
          else ret tt
      | None => ret tt
      end) ;;;
     taskAnalysis <- understandTask task ;;
     let parameters := snd taskAnalysis in
     let taskType := BaseAgent.taskType (fst taskAnalysis) in
     if String.eqb taskType "create" then createNote parameters
     else if String.eqb taskType "update" then updateNote parameters
     else if String.eqb taskType "delete" then deleteNote parameters
     else if String.eqb taskType "move" then moveNote parameters
     else if String.eqb taskType "tag" then manageTag parameters
     else if String.eqb taskType "folder" then manageFolder parameters
     else superExecute task)
    (fun e => ret (mkResult false "Failed to execute task" None (Some e))).

End Agent.

End NoteManagementAgent.

(** A vault in which the note of an upload cannot be written. *)
Module Uploads.

Definition blocked : world :=
  Examples.emptyWorld
    [("/vault/report-final.md", mkFile "kept" true false)].

Definition report : NoteManagementAgent.UploadedFile :=
  NoteManagementAgent.mkUpload "/tmp/upload-1" "Report.final.pdf"
    "application/pdf".

Definition understood
  : string -> M (BaseAgent.TaskUnderstanding * Desk.Call) :=
  fun _ =>
    ret (BaseAgent.mkUnderstanding "delete" (Some ["note_deletion"]) [],
         Desk.Delete "report-final.md").

End Uploads.

(* ------------------------------------------------------------------ *)
(** ** Folders: a file system with directories *)

(** The operations on folders depend on which directories exist, also
    the empty ones, so they run on a directory tree.  Paths are resolved
    from the root of the tree (the process runs with the root as its
    working directory), and every directory can be read and written. *)
Module Disk.

(** A directory entry: a regular file, a directory with its entries, or
    something that is neither (a socket, a device), for which [isFile()]
    and [isDirectory()] are both false. *)
#[warnings="-register-all"]
Inductive node : Type :=
| File (f : file)
| Folder (entries : list (string * node))
| Other.

(** The tree, and what went to [console.warn]: the folder path of the
    message and the error. *)
Record disk : Type := mkDisk {
  root : node;
  warned : list (string * exn)
}.

Definition DM (A : Type) : Type := disk -> outcome A * disk.

Definition ret {A : Type} (a : A) : DM A := fun s => (Ok a, s).
Definition throw {A : Type} (e : exn) : DM A := fun s => (Err e, s).
Definition beyond {A : Type} : DM A := fun s => (Beyond, s).

Definition bind {A B : Type} (m : DM A) (f : A -> DM B) : DM B :=
  fun s =>
    match m s with
    | (Ok a, s') => f a s'
    | (Err e, s') => (Err e, s')
    | (Beyond, s') => (Beyond, s')
    end.

(** [try { m } catch (error) { h error }] *)
Definition tryCatch {A : Type} (m : DM A) (h : exn -> DM A) : DM A :=
  fun s =>
    match m s with
    | (Err e, s') => h e s'
    | r => r
    end.

(** The segments a path is resolved by: no empty segment, no ["."], and
    [".."] steps back (and stays at the root). *)
Definition segments (p : string) : list string :=
  Path.normalizeSegs false [] (Str.split "/" p).

(** The entry of a directory by its name. *)
Fixpoint child (name : string) (entries : list (string * node)) : option node :=
  match entries with
  | [] => None
  | (n, c) :: entries' => if String.eqb n name then Some c else child name entries'
  end.

(** The node at the end of a list of segments. *)
Fixpoint get (segs : list string) (n : node) : option node :=
  match segs with
  | [] => Some n
  | s :: segs' =>
      match n with
      | Folder entries =>
          match child s entries with
          | Some c => get segs' c
          | None => None
          end
      | _ => None
      end
  end.

(** Does the way along [segs] go through something that is not a
    directory? *)
Fixpoint blocked (segs : list string) (n : node) : bool :=
  match segs with
  | [] => false
  | s :: segs' =>
      match n with
      | Folder entries =>
          match child s entries with
          | Some c => blocked segs' c
          | None => false
          end
      | _ => true
      end
  end.

(** [fs.readdir(p, { withFileTypes: true })] *)
Definition readdir (p : string) : DM (list (string * node)) :=
  fun s =>
    match get (segments p) (root s) with
    | Some (Folder entries) => (Ok entries, s)
    | Some _ => (Err (FsError ENOTDIR p), s)
    | None =>
        (Err (FsError (if blocked (segments p) (root s) then ENOTDIR else ENOENT)
                p), s)
    end.

(** The entries with the entry [name] replaced by [c]. *)
Fixpoint replace (name : string) (c : node) (entries : list (string * node))
  : list (string * node) :=
  match entries with
  | [] => []
  | (n, c0) :: entries' =>
      if String.eqb n name then (n, c) :: entries'
      else (n, c0) :: replace name c entries'
  end.

(** The entries without the entry [name]. *)
Definition without (name : string) (entries : list (string * node))
  : list (string * node) :=
  filter (fun e => negb (String.eqb (fst e) name)) entries.

(** Empty directories, one in the other, along [segs]. *)
Fixpoint chain (segs : list string) : node :=
  match segs with
  | [] => Folder []
  | s :: segs' => Folder [(s, chain segs')]
  end.

(** The tree after [mkdir -p]: the directories that are missing along
    [segs] are made; an entry on the way that is not a directory is an
    error, [EEXIST] at the end of the path and [ENOTDIR] before it. *)
Fixpoint mkdirp (segs : list string) (n : node) : node + errno :=
  match segs with
  | [] =>
      match n with
      | Folder _ => inl n
      | _ => inr EEXIST
      end
  | s :: segs' =>
      match n with
      | Folder entries =>
          match child s entries with
          | Some c =>
              match mkdirp segs' c with
              | inl c' => inl (Folder (replace s c' entries))
              | inr e => inr e
              end
          | None => inl (Folder (entries ++ [(s, chain segs')]))
          end
      | _ => inr ENOTDIR
      end
  end.

(** [fs.mkdir(p, { recursive: true })] *)
Definition mkdir (p : string) : DM unit :=
  fun s =>
    match mkdirp (segments p) (root s) with
    | inl r => (Ok tt, mkDisk r (warned s))
    | inr e => (Err (FsError e p), s)
    end.

(** The tree without what is at the end of [segs] (a path of at least
    one segment); nothing changes when there is nothing there. *)
Fixpoint prune (s : string) (segs : list string) (n : node) : node :=
  match n with
  | Folder entries =>
      match segs with
      | [] => Folder (without s entries)
      | s' :: segs' =>
          match child s entries with
          | Some c => Folder (replace s (prune s' segs' c) entries)
          | None => n
          end
      end
  | _ => n
  end.

(** [fs.rm(p, { recursive: true, force: true })]: what is at [p] is
    removed with all it holds, and it is no error when there is nothing
    at [p]; a way to [p] through something that is not a directory is
    one.  Removing the root is outside the model. *)
Definition rm (p : string) : DM unit :=
  fun s =>
    match segments p with
    | [] => (Beyond, s)
    | seg :: segs =>
        if blocked (seg :: segs) (root s) then (Err (FsError ENOTDIR p), s)
        else (Ok tt, mkDisk (prune seg segs (root s)) (warned s))
    end.

(** [console.warn(`Could not get stats for folder ${folderPath}:`, error)] *)
Definition warn (folderPath : string) (e : exn) : DM unit :=
  fun s => (Ok tt, mkDisk (root s) ((folderPath, e) :: warned s)).

End Disk.

(* ------------------------------------------------------------------ *)
(** ** FolderOperationTool: the operations on folders *)

(** The methods of [FolderOperationTool] other than its link update,
    which is modelled above over the texts of the notes. *)
Module FolderOps.
Import Disk.

Local Notation "x <~ m ;; k" := (Disk.bind m (fun x => k))
  (at level 61, m at next level, right associativity).
Local Notation "m ~;; k" := (Disk.bind m (fun _ => k))
  (at level 61, right associativity).

Inductive OpType : Type := create | delete | rename | move.

(** [FolderOperation] *)
Record FolderOperation : Type := mkOp {
  type : OpType;
  sourcePath : string;
  destinationPath : option string
}.

(** [FolderStats] *)
Record FolderStats : Type := mkStats {
  path : string;
  noteCount : nat;
  subfolderCount : nat
}.

Section WithVault.
Variable vaultPath : string.

(** [fs.rename] and the link update of the tool (which works on the
    texts of the notes and is modelled above, over the files) are taken
    as given. *)
Variable fsRename : string -> string -> DM unit.
Variable updateLinksInVault : string -> string -> DM unit.

(** The loop of [getFolderStats] over the entries of a directory, with
    the two counters; [stats] is the method itself, for the
    directories among the entries. *)
Fixpoint countEntries (stats : string -> DM FolderStats) (folderPath : string)
  (entries : list (string * node)) (noteCount subfolderCount : nat)
  : DM (nat * nat) :=
  match entries with
  | [] => Disk.ret (noteCount, subfolderCount)
  | (name, entry) :: entries' =>
      match entry with
      | Folder _ =>
          subStats <~ stats (Path.join [folderPath; name]) ;;
          countEntries stats folderPath entries'
            (noteCount + FolderOps.noteCount subStats)
            (S subfolderCount + FolderOps.subfolderCount subStats)
      | File _ =>
          if Regex.test Links.mdSuffix name
          then countEntries stats folderPath entries' (S noteCount) subfolderCount
          else countEntries stats folderPath entries' noteCount subfolderCount
      | Other => countEntries stats folderPath entries' noteCount subfolderCount
      end
  end.

(** [getFolderStats]; [fuel] bounds the depth of the recursion, and a
    run that needs more is outside the model. *)
Fixpoint getFolderStats (fuel : nat) (folderPath : string) : DM FolderStats :=
  match fuel with
  | O => Disk.beyond
  | S fuel' =>
      let fullPath := Path.join [vaultPath; folderPath] in
      counts <~ Disk.tryCatch
                  (entries <~ readdir fullPath ;;
                   countEntries (getFolderStats fuel') folderPath entries 0 0)
                  (fun e => warn folderPath e ~;; Disk.ret (0, 0)) ;;
      Disk.ret (mkStats folderPath (fst counts) (snd counts))
  end.

Definition createFolder (fuel : nat) (folderPath : string) : DM FolderStats :=
  let fullPath := Path.join [vaultPath; folderPath] in
  mkdir fullPath ~;;
  getFolderStats fuel folderPath.

Definition deleteFolder (fuel : nat) (folderPath : string) : DM FolderStats :=
  let fullPath := Path.join [vaultPath; folderPath] in
  stats <~ getFolderStats fuel folderPath ;;
  rm fullPath ~;;
  Disk.ret stats.

Definition moveFolder (fuel : nat) (sourcePath destinationPath : string)
  : DM FolderStats :=
  let sourceFullPath := Path.join [vaultPath; sourcePath] in
  let destFullPath := Path.join [vaultPath; destinationPath] in
  mkdir (Path.dirname destFullPath) ~;;
  fsRename sourceFullPath destFullPath ~;;
  updateLinksInVault sourcePath destinationPath ~;;
  getFolderStats fuel destinationPath.

(** Returns [stats] ([success] is always [true]); the [default] case of
    the switch is not reached by a [FolderOperation]. *)
Definition execute (fuel : nat) (operation : FolderOperation) : DM FolderStats :=
  Disk.tryCatch
    (match type operation with
     | create => createFolder fuel (sourcePath operation)
     | delete => deleteFolder fuel (sourcePath operation)
     | rename | move =>
         if Fm.given (destinationPath operation) then
           moveFolder fuel (sourcePath operation)
             (match destinationPath operation with Some p => p | None => "" end)
         else
           Disk.throw
             (Message "Destination path is required for rename/move operation")
     end)
    (fun e => Disk.throw (Failed "Failed to perform folder operation" e)).

End WithVault.

End FolderOps.

(** The counts of a directory tree. *)
Module Census.
Import Disk.

(** The notes below a directory: the regular files, at any depth, whose
    name ends in [.md] in either case. *)
Fixpoint notes (n : node) : nat :=
  match n with
  | Folder entries =>
      (fix go (es : list (string * node)) : nat :=
         match es with
         | [] => 0
         | (name, c) :: es' =>
             match c with
             | File _ => if Regex.test Links.mdSuffix name then 1 else 0
             | Folder _ => notes c
             | Other => 0
             end + go es'
         end) entries
  | _ => 0
  end.

(** The directories below a directory, at any depth. *)
Fixpoint folders (n : node) : nat :=
  match n with
  | Folder entries =>
      (fix go (es : list (string * node)) : nat :=
         match es with
         | [] => 0
         | (_, c) :: es' =>
             match c with
             | Folder _ => S (folders c)
             | _ => 0
             end + go es'
         end) entries
  | _ => 0
  end.

(** The number of directories on the longest way down, the directory
    itself included. *)
Fixpoint depth (n : node) : nat :=
  match n with
  | Folder entries =>
      S ((fix go (es : list (string * node)) : nat :=
            match es with
            | [] => 0
            | (_, c) :: es' => Nat.max (depth c) (go es')
            end) entries)
  | _ => 0
  end.

(** A name a directory entry can have: not empty, not ["."] or [".."],
    and without a slash. *)
Definition entryName (name : string) : bool :=
  negb (String.eqb name "") && negb (String.eqb name ".")
  && negb (String.eqb name "..")
  && Str.forallb (fun c => negb (Ascii.eqb c "/")) name.

(** A tree as a file system has it: the entries of a directory have
    names, each its own. *)
Fixpoint sound (n : node) : bool :=
  match n with
  | Folder entries =>
      (fix go (es : list (string * node)) : bool :=
         match es with
         | [] => true
         | (name, c) :: es' =>
             entryName name
             && negb (existsb (fun e => String.eqb (fst e) name) es')
             && sound c && go es'
         end) entries
  | _ => true
  end.

(** No segment of the path is [".."]. *)
Definition noDotDot (p : string) : bool :=
  forallb (fun s => negb (String.eqb s "..")) (Str.split "/" p).

End Census.

(** A vault on a disk: two notes (one below a folder, with its suffix
    in capitals), two folders, a text file and a socket. *)
Module Shelf.
Import Disk.

Definition vault : list (string * node) :=
  [("a.md", File (Examples.note "first"));
   ("Projects",
    Folder
      [("plan.MD", File (Examples.note "second"));
       ("todo.txt", File (Examples.note "no note"));
       ("Old", Folder [])]);
   ("pipe", Other)].

Definition tree : node := Folder [("vault", Folder vault)].

Definition shelf : disk := mkDisk tree [].

(** [fs.rename] of a source that is missing. *)
Definition noSource (src dest : string) : DM unit :=
  Disk.throw (FsError ENOENT src).

(** A link update that does nothing. *)
Definition noLinks (oldPath newPath : string) : DM unit := Disk.ret tt.

End Shelf.

Unset Implicit Arguments.

(* ================================================================== *)
(** * Facts about strings *)
(* ================================================================== *)

Module StrFacts.
Import Str.

Lemma append_nil_r (s : string) : s ++ "" = s.
Proof. induction s as [|c s IH]; simpl; [reflexivity | now rewrite IH]. Qed.

Lemma append_assoc (a b c : string) : (a ++ b) ++ c = a ++ (b ++ c).
Proof. induction a as [|x a IH]; simpl; [reflexivity | now rewrite IH]. Qed.

Lemma length_append (a b : string) :
  String.length (a ++ b) = String.length a + String.length b.
Proof. induction a as [|x a IH]; simpl; [reflexivity | now rewrite IH]. Qed.

Lemma drop_append (a b : string) : drop (String.length a) (a ++ b) = b.
Proof. induction a as [|x a IH]; simpl; [now destruct b | exact IH]. Qed.

Lemma take_append (a b : string) : take (String.length a) (a ++ b) = a.
Proof. induction a as [|x a IH]; simpl; [now destruct b | now rewrite IH]. Qed.

Lemma prefix_append (a b : string) : String.prefix a (a ++ b) = true.
Proof.
  induction a as [|x a IH]; simpl; [now destruct b |].
  destruct (ascii_dec x x) as [_|n]; [exact IH | now elim n].
Qed.

Lemma prefix_split (a s : string) :
  String.prefix a s = true -> s = a ++ drop (String.length a) s.
Proof.
  revert s; induction a as [|x a IH]; intros s H; simpl.
  - now destruct s.
  - destruct s as [|y s]; simpl in H; [discriminate |].
    destruct (ascii_dec x y) as [->|]; [|discriminate].
    simpl. f_equal. now apply IH.
Qed.

Lemma prefix_nil (s : string) : String.prefix "" s = true.
Proof. now destruct s. Qed.

Lemma prefix_cons (c x : ascii) (a s : string) :
  String.prefix (String c a) (String x s)
  = (Ascii.eqb c x && String.prefix a s).
Proof.
  simpl. destruct (ascii_dec c x) as [->|n].
  - now rewrite Ascii.eqb_refl.
  - apply Ascii.eqb_neq in n. now rewrite n.
Qed.

Lemma forallb_append (p : ascii -> bool) (a b : string) :
  forallb p (a ++ b) = forallb p a && forallb p b.
Proof.
  induction a as [|x a IH]; simpl; [reflexivity |].
  now rewrite IH, andb_assoc.
Qed.

Lemma prefix_app (a b s : string) :
  String.prefix (a ++ b) s
  = (String.prefix a s && String.prefix b (drop (String.length a) s)).
Proof.
  revert s; induction a as [|x a IH]; intros s.
  - rewrite prefix_nil. reflexivity.
  - destruct s as [|y s]; [reflexivity |].
    cbn [append]. rewrite !prefix_cons, IH. cbn [String.length drop].
    now rewrite andb_assoc.
Qed.

Lemma drop_drop (n m : nat) (s : string) : drop m (drop n s) = drop (n + m) s.
Proof.
  revert s; induction n as [|n IH]; intros s; [reflexivity |].
  destruct s as [|c s]; [now destruct m | apply IH].
Qed.

Lemma prefix_exists (a s : string) :
  String.prefix a s = true -> exists x, s = a ++ x.
Proof. intros H. eexists. now apply prefix_split. Qed.

Lemma prefix_false_head (a : string) (c x : ascii) (r s : string) :
  a = String c r -> c <> x -> String.prefix a (String x s) = false.
Proof.
  intros -> H. rewrite prefix_cons.
  apply Ascii.eqb_neq in H. now rewrite H.
Qed.

End StrFacts.

(* ================================================================== *)
(** * Facts about the matcher *)
(* ================================================================== *)

Module RegexFacts.
Import Regex StrFacts.

(** A literal matches exactly where it is a prefix of the input. *)
Lemma rmatch_lit (n0 : nat) (a s : string) (cap : option string) (k : cont) :
  rmatch n0 (lit a) s cap k
  = if String.prefix a s then k (Str.drop (String.length a) s) cap else None.
Proof.
  revert s; induction a as [|c a IH]; intros s.
  - rewrite prefix_nil. reflexivity.
  - destruct s as [|x s].
    + reflexivity.
    + rewrite prefix_cons. cbn [lit rmatch chr].
      destruct (Ascii.eqb c x); [apply IH | reflexivity].
Qed.

(** The greedy loop of [[^ch]*] in front of a continuation that needs
    [ch] next: it reads up to the first [ch] and never has to give a
    character back. *)
Lemma starIter_notChr (n0 : nat) (ch : ascii) (k : cont) :
  (forall c s' cap', c <> ch -> k (String c s') cap' = None) ->
  forall (a rest : string) (cap : option string) (fuel : nat),
    String.length (a ++ rest) <= fuel ->
    Str.forallb (fun x => negb (Ascii.eqb x ch)) a = true ->
    (rest = "" \/ exists r, rest = String ch r) ->
    starIter (fun s' cap' k' => rmatch n0 (notChr ch) s' (enter (notChr ch) cap') k')
      k fuel (a ++ rest) cap
    = k rest cap.
Proof.
  intros Hk a; induction a as [|x a IH]; intros rest cap fuel Hfuel Ha Hrest.
  - cbn [append]. destruct fuel as [|fuel]; [reflexivity |].
    cbn [starIter rmatch notChr enter hasGrp].
    destruct Hrest as [-> | [r ->]].
    + reflexivity.
    + rewrite Ascii.eqb_refl. reflexivity.
  - cbn [append] in *. destruct fuel as [|fuel]; [cbn in Hfuel; lia |].
    cbn [Str.forallb] in Ha. apply andb_true_iff in Ha as [Hx Ha].
    cbn [starIter rmatch notChr enter hasGrp].
    rewrite Hx.
    replace (Nat.ltb (String.length (a ++ rest)) (String.length (String x (a ++ rest))))
      with true by (symmetry; apply Nat.ltb_lt; cbn; lia).
    rewrite IH by (try assumption; cbn in Hfuel; lia).
    destruct (k rest cap) as [m|] eqn:E; [reflexivity |].
    cbn [orElse]. apply Hk.
    intros ->. rewrite Ascii.eqb_refl in Hx. discriminate.
Qed.

(** Passing over the rest of a match. *)
Lemma replaceFrom_skip (n0 : nat) (r : regex)
  (repl : string -> option string -> string) (a rest : string) :
  replaceFrom n0 r repl (String.length a) (a ++ rest)
  = replaceFrom n0 r repl 0 rest.
Proof.
  induction a as [|x a IH]; [reflexivity | exact IH].
Qed.

(** A pattern that begins with ["[["] copies plain text. *)
Lemma replaceFrom_plainText (n0 : nat) (r : regex)
  (repl : string -> option string -> string) :
  (forall s, String.prefix "[[" s = false -> matchAt n0 r s = None) ->
  forall t rest,
    Doc.plainText t = true ->
    replaceFrom n0 r repl 0 (t ++ rest)
    = t ++ replaceFrom n0 r repl 0 rest.
Proof.
  intros Hr t; induction t as [|c t IH]; intros rest Ht; [reflexivity |].
  cbn [append replaceFrom].
  assert (Hnone : matchAt n0 r (String c (t ++ rest)) = None).
  { apply Hr. cbn [Doc.plainText] in Ht.
    rewrite prefix_cons.
    destruct (Ascii.eqb "[" c) eqn:Ec; [|reflexivity].
    apply Ascii.eqb_eq in Ec; subst c. cbn in Ht.
    destruct t as [|c' t]; [discriminate |].
    apply andb_true_iff in Ht as [Hc' _].
    cbn [append]. rewrite prefix_cons, prefix_nil, andb_true_r.
    unfold Doc.isOpen in Hc'. rewrite Ascii.eqb_sym.
    now apply negb_true_iff in Hc'. }
  rewrite Hnone. f_equal. apply IH.
  cbn [Doc.plainText] in Ht.
  destruct (Doc.isOpen c); [|assumption].
  destruct t as [|c' t]; [discriminate |].
  now apply andb_true_iff in Ht as [_ Ht].
Qed.

(** Text without ["["] is plain. *)
Lemma plainText_noOpen (t : string) :
  Str.forallb (fun c => negb (Doc.isOpen c)) t = true -> Doc.plainText t = true.
Proof.
  induction t as [|c t IH]; [reflexivity |].
  cbn [Str.forallb Doc.plainText]. intros H.
  apply andb_true_iff in H as [Hc Ht].
  apply negb_true_iff in Hc. rewrite Hc. now apply IH.
Qed.

End RegexFacts.

(* ================================================================== *)
(** * Facts about link rewriting *)
(* ================================================================== *)

Module LinkFacts.
Import Regex StrFacts RegexFacts Links Doc.

Lemma notePattern_unfold (n0 : nat) (old s : string) (cap : option string)
  (k : cont) :
  rmatch n0 (notePattern old) s cap k
  = if String.prefix ("[[" ++ old) s
    then rmatch n0 (Cat aliasGroup (lit "]]"))
           (Str.drop (2 + String.length old) s) cap k
    else None.
Proof.
  unfold notePattern. cbn [rmatch].
  rewrite rmatch_lit, prefix_app.
  destruct (String.prefix "[[" s); [|reflexivity].
  rewrite rmatch_lit. cbn [andb].
  change (String.length "[[") with 2.
  destruct (String.prefix old (Str.drop 2 s)); [|reflexivity].
  rewrite drop_drop. reflexivity.
Qed.

(** No alias: the group is skipped. *)
Lemma tail_plain (n0 : nat) (rest : string) (cap : option string) (k : cont) :
  rmatch n0 (Cat aliasGroup (lit "]]")) ("]]" ++ rest) cap k = k rest cap.
Proof. reflexivity. Qed.

(** An alias: the group takes the bar and everything up to the closing
    brackets. *)
Lemma tail_alias (n0 : nat) (al rest : string) (cap : option string)
  (k : cont) :
  Str.forallb (fun x => negb (Ascii.eqb x "]")) al = true ->
  rmatch n0 (Cat aliasGroup (lit "]]")) ("|" ++ al ++ "]]" ++ rest) cap k
  = k rest (Some ("|" ++ al)).
Proof.
  intros Hal. unfold aliasGroup.
  remember ("]]" ++ rest) as tl eqn:Etl.
  change ("|" ++ al ++ tl) with (String "|" (al ++ tl)).
  cbn [rmatch chr enter hasGrp].
  rewrite Ascii.eqb_refl.
  rewrite starIter_notChr; try assumption.
  - rewrite rmatch_lit.
    replace (String.length (String "|" (al ++ tl)) - String.length tl)
      with (String.length (String "|" al)).
    2:{ cbn [String.length]. rewrite length_append. lia. }
    change (String "|" (al ++ tl)) with (String "|" al ++ tl).
    rewrite take_append. subst tl. rewrite prefix_append, drop_append.
    change ("|" ++ al) with (String "|" al).
    destruct (k rest (Some (String "|" al))); [reflexivity |].
    cbn [orElse]. rewrite rmatch_lit. reflexivity.
  - intros c s' cap' Hc. rewrite rmatch_lit.
    erewrite prefix_false_head; [reflexivity | reflexivity |].
    intros E. apply Hc. now symmetry.
  - lia.
  - right. subst tl. now exists ("]" ++ rest).
Qed.

(** Anything else after the identifier: no match. *)
Lemma tail_other (n0 : nat) (c : ascii) (r : string) (cap : option string)
  (k : cont) :
  c <> "|"%char -> c <> "]"%char ->
  rmatch n0 (Cat aliasGroup (lit "]]")) (String c r) cap k = None.
Proof.
  intros Hbar Hclose. unfold aliasGroup.
  cbn [rmatch chr enter hasGrp].
  assert (E1 : Ascii.eqb "|" c = false) by (apply Ascii.eqb_neq; congruence).
  rewrite E1. cbn [orElse]. rewrite rmatch_lit.
  erewrite prefix_false_head; [reflexivity | reflexivity | congruence].
Qed.

Lemma note_needs_open (n0 : nat) (old s : string) :
  String.prefix "[[" s = false -> matchAt n0 (notePattern old) s = None.
Proof.
  intros H. unfold matchAt. rewrite notePattern_unfold, prefix_app, H.
  reflexivity.
Qed.

Lemma syntaxChar_brackets (c : ascii) :
  isSyntaxChar c = false ->
  c <> "["%char /\ c <> "]"%char /\ c <> "|"%char.
Proof.
  intros H. repeat split; intros ->; discriminate H.
Qed.

Lemma aliasOk_noClose (a : string) :
  aliasOk a = true -> Str.forallb (fun x => negb (Ascii.eqb x "]")) a = true.
Proof.
  unfold aliasOk. induction a as [|c a IH]; [reflexivity |].
  cbn [Str.forallb]. intros H. apply andb_true_iff in H as [Hc Ha].
  apply andb_true_iff in Hc as [_ Hc]. unfold isClose in Hc.
  rewrite Hc. now apply IH.
Qed.

(** A reference to the old identifier is matched as a whole, with its
    alias in group 1. *)
Lemma note_match (n0 : nat) (old : string) (al : option string)
  (rest : string) :
  segmentOk (Link old al) = true ->
  matchAt n0 (notePattern old) (renderSegment (Link old al) ++ rest)
  = Some (capOf al, String.length (renderSegment (Link old al))).
Proof.
  intros Hok. unfold matchAt. rewrite notePattern_unfold.
  destruct al as [a|]; cbn [renderSegment capOf].
  - replace (("[[" ++ old ++ "|" ++ a ++ "]]") ++ rest)
      with (("[[" ++ old) ++ "|" ++ a ++ "]]" ++ rest)
      by (now rewrite !append_assoc).
    rewrite prefix_append.
    replace (2 + String.length old) with (String.length ("[[" ++ old))
      by (rewrite length_append; reflexivity).
    rewrite drop_append, tail_alias.
    + f_equal. f_equal. rewrite !length_append. cbn [String.length]. lia.
    + apply aliasOk_noClose. cbn [segmentOk] in Hok.
      now apply andb_true_iff in Hok as [_ Hok].
  - replace (("[[" ++ old ++ "]]") ++ rest) with (("[[" ++ old) ++ "]]" ++ rest)
      by (now rewrite !append_assoc).
    rewrite prefix_append.
    replace (2 + String.length old) with (String.length ("[[" ++ old))
      by (rewrite length_append; reflexivity).
    rewrite drop_append, tail_plain.
    f_equal. f_equal. rewrite !length_append. cbn [String.length]. lia.
Qed.

(** Reading the old identifier off a reference to another target leaves
    the reader inside that target. *)
Lemma prefix_other_target (old : string) :
  Str.forallb (fun c => negb (isSyntaxChar c)) old = true ->
  forall tg x X,
    targetOk tg = true -> tg <> old ->
    (x = "|"%char \/ x = "]"%char) ->
    String.prefix old (tg ++ String x X) = true ->
    exists c r,
      Str.drop (String.length old) (tg ++ String x X) = String c r
      /\ c <> "|"%char /\ c <> "]"%char.
Proof.
  induction old as [|o old IH]; intros Hold tg x X Htg Hne Hx Hpre.
  - destruct tg as [|t tg]; [congruence |].
    exists t, (tg ++ String x X). split; [reflexivity |].
    cbn [targetOk Str.forallb] in Htg.
    apply andb_true_iff in Htg as [Ht _].
    apply andb_true_iff in Ht as [Ht Hbar].
    apply andb_true_iff in Ht as [_ Hclose].
    unfold isBar in Hbar. unfold isClose in Hclose.
    apply negb_true_iff in Hbar, Hclose.
    split; intros ->; discriminate.
  - cbn [Str.forallb] in Hold. apply andb_true_iff in Hold as [Ho Hold].
    apply negb_true_iff, syntaxChar_brackets in Ho as (_ & Hc & Hb).
    destruct tg as [|t tg].
    + cbn [append] in Hpre. rewrite prefix_cons in Hpre.
      apply andb_true_iff in Hpre as [E _]. apply Ascii.eqb_eq in E.
      destruct Hx; congruence.
    + cbn [append] in Hpre |- *. rewrite prefix_cons in Hpre.
      apply andb_true_iff in Hpre as [E Hpre]. apply Ascii.eqb_eq in E.
      subst t. cbn [String.length Str.drop].
      apply IH; try assumption.
      * cbn [targetOk Str.forallb] in Htg.
        now apply andb_true_iff in Htg as [_ Htg].
      * congruence.
Qed.

(** A reference to another target is not matched. *)
Lemma note_other (n0 : nat) (old tg : string) (al : option string)
  (rest : string) :
  literal old = true -> segmentOk (Link tg al) = true -> tg <> old ->
  matchAt n0 (notePattern old) (renderSegment (Link tg al) ++ rest) = None.
Proof.
  intros Hold Hok Hne. unfold matchAt. rewrite notePattern_unfold.
  assert (Htg : targetOk tg = true).
  { destruct al; cbn [segmentOk] in Hok; [|assumption].
    now apply andb_true_iff in Hok as [Hok _]. }
  assert (Hshape : exists x X, (x = "|"%char \/ x = "]"%char)
            /\ renderSegment (Link tg al) ++ rest = "[[" ++ tg ++ String x X).
  { destruct al as [a|]; cbn [renderSegment].
    - exists "|"%char, (a ++ "]]" ++ rest). split; [now left |].
      now rewrite !append_assoc.
    - exists "]"%char, ("]" ++ rest). split; [now right |].
      now rewrite !append_assoc. }
  destruct Hshape as (x & X & Hx & ->).
  rewrite prefix_app, prefix_append, drop_append.
  cbn [andb].
  destruct (String.prefix old (tg ++ String x X)) eqn:Hpre; [|reflexivity].
  destruct (@prefix_other_target old Hold tg x X Htg Hne Hx Hpre) as (c & r & E & Hbar & Hclose).
  change (Str.drop (2 + String.length old) ("[[" ++ tg ++ String x X))
    with (Str.drop (String.length old) (tg ++ String x X)).
  rewrite E, tail_other; [reflexivity | assumption | assumption].
Qed.

Lemma renderSegment_linkTail (tg : string) (al : option string) :
  renderSegment (Link tg al) = String "[" (linkTail tg al).
Proof. now destruct al. Qed.

Lemma targetOk_noOpen (t : string) :
  targetOk t = true -> Str.forallb (fun c => negb (isOpen c)) t = true.
Proof.
  unfold targetOk. induction t as [|c t IH]; [reflexivity |].
  cbn [Str.forallb]. intros H. apply andb_true_iff in H as [Hc Ht].
  apply andb_true_iff in Hc as [Hc _]. apply andb_true_iff in Hc as [Hc _].
  rewrite Hc. now apply IH.
Qed.

Lemma aliasOk_noOpen (t : string) :
  aliasOk t = true -> Str.forallb (fun c => negb (isOpen c)) t = true.
Proof.
  unfold aliasOk. induction t as [|c t IH]; [reflexivity |].
  cbn [Str.forallb]. intros H. apply andb_true_iff in H as [Hc Ht].
  apply andb_true_iff in Hc as [Hc _].
  rewrite Hc. now apply IH.
Qed.

Lemma plainText_open (t : string) :
  Str.forallb (fun c => negb (isOpen c)) t = true -> t <> "" ->
  plainText (String "[" t) = true.
Proof.
  intros H Hne. destruct t as [|c t]; [congruence |].
  pose proof (plainText_noOpen _ H) as Hp.
  cbn [Str.forallb] in H. apply andb_true_iff in H as [Hc _].
  change (plainText (String "[" (String c t)))
    with (negb (isOpen c) && plainText (String c t)).
  now rewrite Hc, Hp.
Qed.

Lemma linkTail_plain (tg : string) (al : option string) :
  segmentOk (Link tg al) = true -> plainText (linkTail tg al) = true.
Proof.
  intros Hok. destruct al as [a|]; cbn [segmentOk linkTail] in *.
  - apply andb_true_iff in Hok as [Htg Ha].
    apply plainText_open.
    + rewrite !forallb_append, (targetOk_noOpen _ Htg), (aliasOk_noOpen _ Ha).
      reflexivity.
    + destruct tg; discriminate.
  - apply plainText_open.
    + rewrite forallb_append, (targetOk_noOpen _ Hok). reflexivity.
    + destruct tg; discriminate.
Qed.

Lemma noteReplacement_render (new m : string) (al : option string) :
  noteReplacement new m (capOf al) = renderSegment (Link new al).
Proof. now destruct al. Qed.

(** The note rewrite, reference by reference: over a well-formed text it
    retargets the references to [old] and copies everything else. *)
Lemma note_replace_render (n0 : nat) (old new : string) (gs : list segment) :
  literal old = true -> wellFormed gs = true ->
  replaceFrom n0 (notePattern old) (noteReplacement new) 0 (render gs)
  = render (map (retarget old new) gs).
Proof.
  intros Hold. induction gs as [|g gs IH]; intros Hwf.
  - cbn [render map replaceFrom].
    now rewrite note_needs_open.
  - cbn [wellFormed forallb] in Hwf. apply andb_true_iff in Hwf as [Hg Hgs].
    specialize (IH Hgs). cbn [render map].
    destruct g as [t | tg al].
    + cbn [renderSegment retarget].
      rewrite replaceFrom_plainText; [now rewrite IH | | exact Hg].
      intros s. apply note_needs_open.
    + cbn [retarget]. destruct (String.eqb tg old) eqn:E.
      * apply String.eqb_eq in E; subst tg.
        pose proof (@note_match n0 old al (render gs) Hg) as Hm.
        rewrite renderSegment_linkTail in Hm |- *.
        cbn [append replaceFrom String.length] in Hm |- *.
        rewrite Hm, replaceFrom_skip, IH, noteReplacement_render.
        reflexivity.
      * apply String.eqb_neq in E.
        pose proof (@note_other n0 old tg al (render gs) Hold Hg E) as Hm.
        rewrite renderSegment_linkTail in Hm |- *.
        cbn [append replaceFrom] in Hm |- *.
        rewrite Hm.
        rewrite replaceFrom_plainText;
          [now rewrite IH | | now apply linkTail_plain].
        intros s. apply note_needs_open.
Qed.

(** [noteRewrite] on a well-formed text. *)
Lemma noteRewrite_render (old new : string) (gs : list segment) :
  literal old = true -> plainReplacement new = true ->
  wellFormed gs = true ->
  noteRewrite old new (render gs) = Some (render (map (retarget old new) gs)).
Proof.
  intros Hold Hnew Hwf. unfold noteRewrite, replaceAll.
  rewrite Hold, Hnew. cbn [andb]. f_equal.
  now apply note_replace_render.
Qed.

(* ---------------------------------------------------------------- *)
(** ** The folder pattern *)

Lemma folderPattern_unfold (n0 : nat) (old s : string) (cap : option string)
  (k : cont) :
  rmatch n0 (folderPattern old) s cap k
  = if String.prefix ("[[" ++ old) s
    then rmatch n0 (Cat (Star (notChr "]")) (lit "]]"))
           (Str.drop (2 + String.length old) s) cap k
    else None.
Proof.
  unfold folderPattern. cbn [rmatch].
  rewrite rmatch_lit, prefix_app.
  destruct (String.prefix "[[" s); [|reflexivity].
  rewrite rmatch_lit. cbn [andb].
  change (String.length "[[") with 2.
  destruct (String.prefix old (Str.drop 2 s)); [|reflexivity].
  rewrite drop_drop. reflexivity.
Qed.

Lemma folder_needs_open (n0 : nat) (old s : string) :
  String.prefix "[[" s = false -> matchAt n0 (folderPattern old) s = None.
Proof.
  intros H. unfold matchAt. rewrite folderPattern_unfold, prefix_app, H.
  reflexivity.
Qed.

(** Everything up to the closing brackets belongs to the match. *)
Lemma folder_tail (n0 : nat) (a rest : string) (cap : option string)
  (k : cont) :
  Str.forallb (fun x => negb (Ascii.eqb x "]")) a = true ->
  rmatch n0 (Cat (Star (notChr "]")) (lit "]]")) (a ++ "]]" ++ rest) cap k
  = k rest cap.
Proof.
  intros Ha. remember ("]]" ++ rest) as tl eqn:Etl.
  cbn [rmatch].
  rewrite starIter_notChr; try assumption.
  - subst tl. now rewrite rmatch_lit, prefix_append, drop_append.
  - intros c s' cap' Hc. rewrite rmatch_lit.
    erewrite prefix_false_head; [reflexivity | reflexivity |].
    intros E. apply Hc. now symmetry.
  - lia.
  - right. subst tl. now exists ("]" ++ rest).
Qed.

Lemma targetOk_noClose (t : string) :
  targetOk t = true -> Str.forallb (fun x => negb (Ascii.eqb x "]")) t = true.
Proof.
  unfold targetOk. induction t as [|c t IH]; [reflexivity |].
  cbn [Str.forallb]. intros H. apply andb_true_iff in H as [Hc Ht].
  apply andb_true_iff in Hc as [Hc _]. apply andb_true_iff in Hc as [_ Hc].
  unfold isClose in Hc. rewrite Hc. now apply IH.
Qed.

(** A reference whose target begins with the old identifier is matched
    as a whole. *)
Lemma folder_match (n0 : nat) (old tg : string) (al : option string)
  (rest : string) :
  segmentOk (Link tg al) = true -> String.prefix old tg = true ->
  matchAt n0 (folderPattern old) (renderSegment (Link tg al) ++ rest)
  = Some (None, String.length (renderSegment (Link tg al))).
Proof.
  intros Hok Hpre. unfold matchAt. rewrite folderPattern_unfold.
  destruct (prefix_exists _ _ Hpre) as [x ->]. clear Hpre.
  assert (Htg : targetOk (old ++ x) = true).
  { destruct al; cbn [segmentOk] in Hok; [|assumption].
    now apply andb_true_iff in Hok as [Hok _]. }
  assert (Hx : Str.forallb (fun c => negb (Ascii.eqb c "]")) x = true).
  { apply targetOk_noClose in Htg. rewrite forallb_append in Htg.
    now apply andb_true_iff in Htg as [_ Htg]. }
  destruct al as [a|]; cbn [renderSegment].
  - assert (Ha : Str.forallb (fun c => negb (Ascii.eqb c "]")) a = true).
    { apply aliasOk_noClose. cbn [segmentOk] in Hok.
      now apply andb_true_iff in Hok as [_ Hok]. }
    replace (("[[" ++ (old ++ x) ++ "|" ++ a ++ "]]") ++ rest)
      with (("[[" ++ old) ++ (x ++ "|" ++ a) ++ "]]" ++ rest)
      by (now rewrite !append_assoc).
    rewrite prefix_append.
    replace (2 + String.length old) with (String.length ("[[" ++ old))
      by (rewrite length_append; reflexivity).
    rewrite drop_append, folder_tail.
    + f_equal. f_equal.
      rewrite !length_append. cbn [String.length]. lia.
    + rewrite forallb_append, Hx. exact Ha.
  - replace (("[[" ++ (old ++ x) ++ "]]") ++ rest)
      with (("[[" ++ old) ++ x ++ "]]" ++ rest)
      by (now rewrite !append_assoc).
    rewrite prefix_append.
    replace (2 + String.length old) with (String.length ("[[" ++ old))
      by (rewrite length_append; reflexivity).
    rewrite drop_append, folder_tail by assumption.
    f_equal. f_equal.
    rewrite !length_append. cbn [String.length]. lia.
Qed.

(** The old identifier is not read across the end of a target. *)
Lemma prefix_stops_at_target (old : string) :
  literal old = true ->
  forall tg x X,
    (x = "|"%char \/ x = "]"%char) ->
    String.prefix old tg = false ->
    String.prefix old (tg ++ String x X) = false.
Proof.
  unfold literal.
  induction old as [|o old IH]; intros Hold tg x X Hx Hpre.
  - now rewrite prefix_nil in Hpre.
  - cbn [Str.forallb] in Hold. apply andb_true_iff in Hold as [Ho Hold].
    apply negb_true_iff, syntaxChar_brackets in Ho as (_ & Hc & Hb).
    destruct tg as [|t tg]; cbn [append]; rewrite prefix_cons.
    + apply andb_false_iff. left. apply Ascii.eqb_neq.
      destruct Hx; congruence.
    + rewrite prefix_cons in Hpre.
      apply andb_false_iff in Hpre as [E | Hpre].
      * now rewrite E.
      * rewrite (IH Hold tg x X Hx Hpre). apply andb_false_r.
Qed.

(** A reference whose target does not begin with the old identifier is
    not matched. *)
Lemma folder_other (n0 : nat) (old tg : string) (al : option string)
  (rest : string) :
  literal old = true -> String.prefix old tg = false ->
  matchAt n0 (folderPattern old) (renderSegment (Link tg al) ++ rest) = None.
Proof.
  intros Hold Hpre. unfold matchAt. rewrite folderPattern_unfold.
  assert (Hshape : exists x X, (x = "|"%char \/ x = "]"%char)
            /\ renderSegment (Link tg al) ++ rest = "[[" ++ tg ++ String x X).
  { destruct al as [a|]; cbn [renderSegment].
    - exists "|"%char, (a ++ "]]" ++ rest). split; [now left |].
      now rewrite !append_assoc.
    - exists "]"%char, ("]" ++ rest). split; [now right |].
      now rewrite !append_assoc. }
  destruct Hshape as (x & X & Hx & ->).
  rewrite prefix_app, prefix_append, drop_append.
  now rewrite (prefix_stops_at_target old Hold tg x X Hx Hpre).
Qed.

(** The first occurrence of the old identifier in a matched reference is
    the one behind the opening brackets. *)
Lemma replaceFirst_link (old new x : string) (al : option string) :
  literal old = true -> old <> "" ->
  replaceFirst old new (renderSegment (Link (old ++ x) al))
  = renderSegment (Link (new ++ x) al).
Proof.
  intros Hold Hne.
  destruct old as [|o old]; [congruence |].
  unfold literal in Hold. cbn [Str.forallb] in Hold.
  apply andb_true_iff in Hold as [Ho _].
  apply negb_true_iff, syntaxChar_brackets in Ho as (Hopen & _ & _).
  assert (E : forall Y, replaceFirst (String o old) new ("[[" ++ String o old ++ Y)
                        = "[[" ++ new ++ Y).
  { intros Y.
    change ("[[" ++ String o old ++ Y)
      with (String "[" (String "[" (String o old ++ Y))).
    cbn [replaceFirst].
    rewrite !prefix_cons.
    replace (Ascii.eqb o "[") with false
      by (symmetry; now apply Ascii.eqb_neq).
    cbn [andb].
    change (String o old ++ Y) with (String o (old ++ Y)).
    cbn [replaceFirst]. rewrite prefix_cons, Ascii.eqb_refl.
    change (String o (old ++ Y)) with (String o old ++ Y).
    rewrite (prefix_append old Y). cbn [andb].
    now rewrite drop_append. }
  destruct al as [a|]; cbn [renderSegment].
  - rewrite !append_assoc. apply E.
  - rewrite !append_assoc. apply E.
Qed.

(** The folder rewrite, reference by reference: over a well-formed text
    it retargets every reference whose target begins with [old]. *)
Lemma folder_replace_render (n0 : nat) (old new : string)
  (gs : list segment) :
  literal old = true -> old <> "" -> wellFormed gs = true ->
  replaceFrom n0 (folderPattern old) (folderReplacement old new) 0 (render gs)
  = render (map (retargetPrefix old new) gs).
Proof.
  intros Hold Hne. induction gs as [|g gs IH]; intros Hwf.
  - cbn [render map replaceFrom].
    now rewrite folder_needs_open.
  - cbn [wellFormed forallb] in Hwf. apply andb_true_iff in Hwf as [Hg Hgs].
    specialize (IH Hgs). cbn [render map].
    destruct g as [t | tg al].
    + cbn [renderSegment retargetPrefix].
      rewrite replaceFrom_plainText; [now rewrite IH | | exact Hg].
      intros s. apply folder_needs_open.
    + cbn [retargetPrefix]. destruct (String.prefix old tg) eqn:E.
      * pose proof (@folder_match n0 old tg al (render gs) Hg E) as Hm.
        destruct (prefix_exists _ _ E) as [x ->].
        rewrite drop_append.
        rewrite <- (replaceFirst_link old new x al Hold Hne).
        rewrite renderSegment_linkTail in Hm |- *.
        cbn [append replaceFrom String.length] in Hm |- *.
        rewrite Hm, replaceFrom_skip, IH.
        unfold folderReplacement.
        cbn [Str.take]. now rewrite take_append.
      * pose proof (@folder_other n0 old tg al (render gs) Hold E) as Hm.
        rewrite renderSegment_linkTail in Hm |- *.
        cbn [append replaceFrom] in Hm |- *.
        rewrite Hm.
        rewrite replaceFrom_plainText;
          [now rewrite IH | | now apply linkTail_plain].
        intros s. apply folder_needs_open.
Qed.

(** Where no target merely begins with the old identifier, the folder
    rewrite moves exactly the references to the folder and below it. *)
Lemma retargetPrefix_below (old new : string) (gs : list segment) :
  forallb (noLookalike old) gs = true ->
  map (retargetPrefix old new) gs = map (retargetBelow old new) gs.
Proof.
  induction gs as [|g gs IH]; [reflexivity |].
  cbn [forallb map]. intros H. apply andb_true_iff in H as [Hg Hgs].
  rewrite (IH Hgs). f_equal.
  destruct g as [t | tg al]; [reflexivity |].
  cbn [retargetPrefix retargetBelow noLookalike] in *.
  destruct (String.prefix old tg) eqn:E; cbn [negb orb] in Hg.
  - now rewrite Hg.
  - destruct (String.eqb tg old) eqn:E1.
    + apply String.eqb_eq in E1; subst tg.
      rewrite <- (append_nil_r old) in E at 2.
      now rewrite prefix_append in E.
    + destruct (String.prefix (old ++ "/") tg) eqn:E2; [|reflexivity].
      rewrite prefix_app, E in E2. discriminate.
Qed.

(** [folderRewrite] on a well-formed text. *)
Lemma folderRewrite_render (old new : string) (gs : list segment) :
  literal old = true -> old <> "" -> plainReplacement new = true ->
  wellFormed gs = true ->
  folderRewrite old new (render gs)
  = Some (render (map (retargetPrefix old new) gs)).
Proof.
  intros Hold Hne Hnew Hwf. unfold folderRewrite, replaceAll.
  rewrite Hold, Hnew. cbn [andb]. f_equal.
  now apply folder_replace_render.
Qed.

End LinkFacts.

(* ================================================================== *)
(** * Facts about the file system and the loops over it *)
(* ================================================================== *)

Module FsFacts.
Import World.

Lemma lookup_store_same (p : string) (f : file) (fs : list (string * file)) :
  Fs.lookup p (Fs.store p f fs) = Some f.
Proof.
  unfold Fs.lookup. induction fs as [|[q g] fs IH]; cbn [Fs.store find fst snd].
  - now rewrite String.eqb_refl.
  - destruct (String.eqb q p) eqn:E; cbn [find fst snd].
    + now rewrite String.eqb_refl.
    + now rewrite E.
Qed.

Lemma lookup_store_other (p q : string) (f : file) (fs : list (string * file)) :
  q <> p -> Fs.lookup q (Fs.store p f fs) = Fs.lookup q fs.
Proof.
  intros Hne. unfold Fs.lookup.
  induction fs as [|[r g] fs IH]; cbn [Fs.store find fst snd].
  - apply String.eqb_neq in Hne. rewrite String.eqb_sym, Hne. reflexivity.
  - destruct (String.eqb r p) eqn:E; cbn [find fst snd].
    + apply String.eqb_eq in E; subst r.
      apply String.eqb_neq in Hne. rewrite String.eqb_sym, Hne. reflexivity.
    + destruct (String.eqb r q); [reflexivity | exact IH].
Qed.



Lemma lookup_remove_other (p q : string) (fs : list (string * file)) :
  q <> p -> Fs.lookup q (Fs.remove p fs) = Fs.lookup q fs.
Proof.
  intros Hne. unfold Fs.lookup, Fs.remove.
  induction fs as [|[r g] fs IH]; [reflexivity |].
  cbn [filter find fst snd].
  destruct (String.eqb r p) eqn:E; cbn [negb find fst snd].
  - apply String.eqb_eq in E; subst r.
    apply String.eqb_neq in Hne. rewrite String.eqb_sym, Hne. exact IH.
  - destruct (String.eqb r q); [reflexivity | exact IH].
Qed.

Lemma lookup_remove_same (p : string) (fs : list (string * file)) :
  Fs.lookup p (Fs.remove p fs) = None.
Proof.
  unfold Fs.lookup, Fs.remove.
  induction fs as [|[r g] fs IH]; [reflexivity |].
  cbn [filter find fst snd].
  destruct (String.eqb r p) eqn:E; cbn [negb find fst snd]; [exact IH |].
  now rewrite E.
Qed.

Lemma lookup_In (q : string) (fs : list (string * file)) :
  In q (map fst fs) <-> exists f, Fs.lookup q fs = Some f.
Proof.
  unfold Fs.lookup. induction fs as [|[r g] fs IH]; cbn [map find fst snd In].
  - split; [intros [] | intros [f Hf]; discriminate].
  - destruct (String.eqb r q) eqn:E.
    + apply String.eqb_eq in E. split; [now exists g | now left].
    + apply String.eqb_neq in E. rewrite <- IH. tauto.
Qed.

Lemma keys_store (p : string) (f : file) (fs : list (string * file)) :
  map fst (Fs.store p f fs)
  = if existsb (String.eqb p) (map fst fs) then map fst fs
    else (map fst fs ++ [p])%list.
Proof.
  induction fs as [|[r g] fs IH]; [reflexivity |].
  cbn [Fs.store map fst existsb].
  rewrite (String.eqb_sym p r).
  destruct (String.eqb r p) eqn:E; cbn [orb map fst].
  - apply String.eqb_eq in E. now subst.
  - rewrite IH. now destruct (existsb (String.eqb p) (map fst fs)).
Qed.


Lemma existsb_eqb_In (q : string) (ps : list string) :
  existsb (String.eqb q) ps = true <-> In q ps.
Proof.
  rewrite existsb_exists. split.
  - intros (x & Hx & E). apply String.eqb_eq in E. now subst.
  - intros H. exists q. split; [assumption | apply String.eqb_refl].
Qed.

Lemma textAt_lookup (q : string) (w w' : world) :
  Fs.lookup q (files w') = Fs.lookup q (files w) -> textAt q w' = textAt q w.
Proof. unfold textAt. now intros ->. Qed.





Lemma distinct_NoDup (ps : list string) : distinct ps = true -> NoDup ps.
Proof.
  induction ps as [|p ps IH]; [constructor |].
  cbn [distinct]. intros H. apply andb_true_iff in H as [Hp Hps].
  constructor; [| now apply IH].
  intros Hin. apply existsb_eqb_In in Hin. rewrite Hin in Hp. discriminate.
Qed.






(** Results of the steps of a tool. *)
Lemma bind_ok {A B : Type} (m : M A) (f : A -> M B) (w w' : world) (b : B) :
  bind m f w = (Ok b, w') ->
  exists a w1, m w = (Ok a, w1) /\ f a w1 = (Ok b, w').
Proof.
  unfold bind. destruct (m w) as [[a|e|] w1]; try discriminate.
  intros H. now exists a, w1.
Qed.

Lemma tryCatch_rethrow_ok {A : Type} (m : M A) (g : exn -> exn)
  (w w' : world) (a : A) :
  tryCatch m (fun e => throw (g e)) w = (Ok a, w') -> m w = (Ok a, w').
Proof.
  unfold tryCatch, throw. destruct (m w) as [[x|e|] w1]; try discriminate.
  auto.
Qed.

Lemma readFile_ok (p : string) (w w1 : world) (raw : string) :
  Fs.readFile p w = (Ok raw, w1) -> w1 = w /\ textAt p w = Some raw.
Proof.
  unfold Fs.readFile, textAt.
  destruct (Fs.lookup p (files w)) as [f|]; [|discriminate].
  destruct (canRead f); [|discriminate].
  intros H. injection H as <- <-. now split.
Qed.

Lemma parseNote_ok (d : Deps) (raw : string) (w w1 : world)
  (r : FrontMatter * string) :
  parseNote d raw w = (Ok r, w1) -> w1 = w /\ matter d raw = Some r.
Proof.
  unfold parseNote. destruct (matter d raw); [|discriminate].
  unfold ret. intros H. injection H as <- <-. now split.
Qed.

Lemma printNote_ok (d : Deps) (body : string) (fm : FrontMatter)
  (w w1 : world) (t : string) :
  printNote d body fm w = (Ok t, w1) ->
  w1 = w /\ stringify d body fm = Some t.
Proof.
  unfold printNote. destruct (stringify d body fm); [|discriminate].
  unfold ret. intros H. injection H as <- <-. now split.
Qed.

Lemma mkdir_ok (p : string) (w w1 : world) (u : unit) :
  Fs.mkdir p w = (Ok u, w1) -> w1 = w.
Proof.
  unfold Fs.mkdir. destruct (find _ _); [discriminate |].
  intros H. now injection H as _ <-.
Qed.

Lemma writeFile_ok (p data : string) (w w1 : world) (u : unit) :
  Fs.writeFile p data w = (Ok u, w1) ->
  exists r,
    w1 = mkWorld (Fs.store p (mkFile data r true) (files w))
           (p :: written w) (console w) (clockReads w)
    /\ r = match Fs.lookup p (files w) with
           | Some f => canRead f
           | None => true
           end.
Proof.
  unfold Fs.writeFile. destruct (Fs.lookup p (files w)) as [f|].
  - destruct (canWrite f); [|discriminate].
    intros H. injection H as _ <-. now exists (canRead f).
  - intros H. injection H as _ <-. now exists true.
Qed.

Lemma unlink_ok (p : string) (w w1 : world) (u : unit) :
  Fs.unlink p w = (Ok u, w1) ->
  w1 = mkWorld (Fs.remove p (files w)) (written w) (console w) (clockReads w).
Proof.
  unfold Fs.unlink. destruct (Fs.lookup p (files w)); [|discriminate].
  intros H. now injection H as _ <-.
Qed.


(** The listing of the notes: the notes of the vault, and an error for
    the empty path. *)
Lemma getAllMarkdownFiles_run (vault : string) (w : world) :
  vault <> "" -> Fs.getAllMarkdownFiles vault w = (Ok (notesOf vault w), w).
Proof.
  intros H. unfold Fs.getAllMarkdownFiles.
  apply String.eqb_neq in H. now rewrite H.
Qed.

Lemma getAllMarkdownFiles_ok (vault : string) (w w1 : world) (ps : list string) :
  Fs.getAllMarkdownFiles vault w = (Ok ps, w1) ->
  vault <> "" /\ ps = notesOf vault w /\ w1 = w.
Proof.
  unfold Fs.getAllMarkdownFiles. destruct (String.eqb vault "") eqn:E;
    [discriminate |].
  intros H. injection H as <- <-. apply String.eqb_neq in E. now repeat split.
Qed.






End FsFacts.

(* ================================================================== *)
(** * Facts about tag sets and the tag loops *)
(* ================================================================== *)

Module TagFacts.
Import World.

Lemma has_In (x : string) (s : list string) :
  JsSet.has x s = true <-> In x s.
Proof. apply FsFacts.existsb_eqb_In. Qed.

Lemma has_false (x : string) (s : list string) :
  JsSet.has x s = false <-> ~ In x s.
Proof.
  rewrite <- has_In. destruct (JsSet.has x s); split; congruence.
Qed.

Lemma add_NoDup (x : string) (s : list string) :
  NoDup s -> NoDup (JsSet.add x s).
Proof.
  intros H. unfold JsSet.add. destruct (JsSet.has x s) eqn:E; [assumption |].
  apply has_false in E.
  apply NoDup_app; [assumption | repeat constructor; intros [] |].
  intros y Hy [<- | []]. contradiction.
Qed.

Lemma delete_NoDup (x : string) (s : list string) :
  NoDup s -> NoDup (JsSet.delete x s).
Proof. intros H. now apply NoDup_filter. Qed.

Lemma ofList_NoDup (l : list string) : NoDup (JsSet.ofList l).
Proof.
  unfold JsSet.ofList.
  assert (H : forall acc, NoDup acc ->
                          NoDup (fold_left (fun s x => JsSet.add x s) l acc)).
  { induction l as [|x l IH]; intros acc Hacc; [assumption |].
    cbn [fold_left]. apply IH. now apply add_NoDup. }
  apply H. constructor.
Qed.

(** A list without repetition is the set built from it. *)
Lemma ofList_id (l : list string) : NoDup l -> JsSet.ofList l = l.
Proof.
  unfold JsSet.ofList.
  assert (H : forall acc, NoDup (acc ++ l) ->
                          fold_left (fun s x => JsSet.add x s) l acc
                          = (acc ++ l)%list).
  { induction l as [|x l IH]; intros acc Hnd.
    - now rewrite app_nil_r.
    - cbn [fold_left]. unfold JsSet.add at 2.
      destruct (JsSet.has x acc) eqn:E.
      + apply has_In in E. apply NoDup_remove_2 in Hnd.
        elim Hnd. apply in_or_app. now left.
      + rewrite IH; rewrite <- app_assoc; [reflexivity | exact Hnd]. }
  intros Hl. now apply (H []).
Qed.

Lemma In_delete (x y : string) (s : list string) :
  In y (JsSet.delete x s) <-> In y s /\ y <> x.
Proof.
  unfold JsSet.delete. rewrite filter_In, negb_true_iff, String.eqb_neq.
  reflexivity.
Qed.

Lemma In_add (x y : string) (s : list string) :
  In y (JsSet.add x s) <-> In y s \/ y = x.
Proof.
  unfold JsSet.add. destruct (JsSet.has x s) eqn:E.
  - apply has_In in E. split; [now left | intros [H | ->]; assumption].
  - rewrite in_app_iff. cbn [In]. split; intros [H | H]; auto.
    + destruct H as [<- | []]. now right.
Qed.

(** The tag set of a frontmatter has no repetition. *)
Lemma tagsOf_NoDup (fm : FrontMatter) : NoDup (TagManagementTool.tagsOf fm).
Proof. apply ofList_NoDup. Qed.

Lemma get_set_same (k : string) (v : value) (fm : FrontMatter) :
  Fm.get k (Fm.set k v fm) = v.
Proof.
  induction fm as [|[k' v'] fm IH]; cbn [Fm.set Fm.get].
  - now rewrite String.eqb_refl.
  - destruct (String.eqb k' k) eqn:E; cbn [Fm.get].
    + now rewrite String.eqb_refl.
    + now rewrite E.
Qed.

Lemma get_set_other (k k0 : string) (v : value) (fm : FrontMatter) :
  k0 <> k -> Fm.get k0 (Fm.set k v fm) = Fm.get k0 fm.
Proof.
  intros Hne. induction fm as [|[k' v'] fm IH]; cbn [Fm.set Fm.get].
  - apply String.eqb_neq in Hne. now rewrite String.eqb_sym, Hne.
  - destruct (String.eqb k' k) eqn:E; cbn [Fm.get].
    + apply String.eqb_eq in E; subst k'.
      apply String.eqb_neq in Hne. now rewrite String.eqb_sym, Hne.
    + destruct (String.eqb k' k0); [reflexivity | exact IH].
Qed.

(** The frontmatter a tag operation writes holds the new tag set and the
    reading of the clock. *)
Lemma updatedFrontmatter_tags (fm : FrontMatter) (tags : list string)
  (t : string) :
  Fm.get "tags" (TagManagementTool.updatedFrontmatter fm tags t) = VArr tags
  /\ Fm.get "modified" (TagManagementTool.updatedFrontmatter fm tags t) = VStr t.
Proof.
  unfold TagManagementTool.updatedFrontmatter. split.
  - rewrite get_set_other by discriminate. apply get_set_same.
  - apply get_set_same.
Qed.

Lemma tagsOf_updated (fm : FrontMatter) (tags : list string) (t : string) :
  NoDup tags ->
  TagManagementTool.tagsOf (TagManagementTool.updatedFrontmatter fm tags t) = tags.
Proof.
  intros H. unfold TagManagementTool.tagsOf.
  rewrite (proj1 (updatedFrontmatter_tags fm tags t)).
  cbn [Fm.truthy Fm.elements]. now apply ofList_id.
Qed.

(** The three changes keep a tag set free of repetition. *)
Lemma change_NoDup (change : list string -> option (list string))
  (tags tags' : list string) :
  (exists tag, change = TagManagementTool.addChange tag)
  \/ (exists tag, change = TagManagementTool.removeChange tag)
  \/ (exists old new, change = TagManagementTool.renameChange old new) ->
  NoDup tags -> change tags = Some tags' -> NoDup tags'.
Proof.
  intros [[tag ->] | [[tag ->] | (old & new & ->)]] Hnd H.
  - unfold TagManagementTool.addChange in H.
    destruct (negb (JsSet.has tag tags)); [| discriminate].
    injection H as <-. now apply add_NoDup.
  - unfold TagManagementTool.removeChange in H.
    destruct (JsSet.has tag tags); [| discriminate].
    injection H as <-. now apply delete_NoDup.
  - unfold TagManagementTool.renameChange in H.
    destruct (JsSet.has old tags); [| discriminate].
    injection H as <-. now apply add_NoDup, delete_NoDup.
Qed.

(** One turn of a tag loop that ends normally. *)
Lemma processFile_ok (d : Deps) (vault : string)
  (change : list string -> option (list string)) (file : string)
  (w w1 : world) (b : bool) :
  TagManagementTool.processFile d vault change file w = (Ok b, w1) ->
  exists raw fm body,
    textAt (Path.join [vault; file]) w = Some raw
    /\ matter d raw = Some (fm, body)
    /\ match change (TagManagementTool.tagsOf fm) with
       | Some tags' =>
           exists data r,
             stringify d body
               (TagManagementTool.updatedFrontmatter fm tags'
                  (clock d (clockReads w))) = Some data
             /\ w1 = mkWorld
                       (Fs.store (Path.join [vault; file])
                          (mkFile data r true) (files w))
                       (Path.join [vault; file] :: written w)
                       (console w) (S (clockReads w))
             /\ b = true
       | None => w1 = w /\ b = false
       end.
Proof.
  unfold TagManagementTool.processFile. intros H.
  apply FsFacts.bind_ok in H as (raw & w0 & Hread & H).
  apply FsFacts.readFile_ok in Hread as [-> Hraw].
  apply FsFacts.bind_ok in H as ([fm body] & w0 & Hparse & H).
  apply FsFacts.parseNote_ok in Hparse as [-> Hparse].
  exists raw, fm, body. split; [exact Hraw |]. split; [exact Hparse |].
  cbn [fst snd] in H.
  destruct (change (TagManagementTool.tagsOf fm)) as [tags'|].
  - apply FsFacts.bind_ok in H as (modified & w0 & Hnow & H).
    unfold now in Hnow. injection Hnow as <- <-.
    apply FsFacts.bind_ok in H as (data & w0 & Hprint & H).
    apply FsFacts.printNote_ok in Hprint as [-> Hprint].
    apply FsFacts.bind_ok in H as (u & w0 & Hwrite & H).
    apply FsFacts.writeFile_ok in Hwrite as (r & -> & _).
    unfold ret in H. injection H as <- <-.
    exists data, r. cbn [files written console clockReads].
    repeat split; assumption || reflexivity.
  - unfold ret in H. injection H as <- <-. now split.
Qed.

(** A tag loop that ends normally, over notes that are listed by the
    path they are read at: a note outside the list is untouched, a note of
    the list holds what the change makes of its tag set. *)
Lemma processFiles_ok (d : Deps) (vault : string)
  (change : list string -> option (list string)) (ps : list string) :
  RoundTrip d -> NoDup ps ->
  (forall p, In p ps -> Path.join [vault; p] = p) ->
  forall w notes w',
    TagManagementTool.processFiles d vault change ps w = (Ok notes, w') ->
    (forall q, ~ In q ps -> Fs.lookup q (files w') = Fs.lookup q (files w))
    /\ (forall p, In p ps ->
          exists fm body,
            parsedAt d p w = Some (fm, body)
            /\ match change (TagManagementTool.tagsOf fm) with
               | Some tags' =>
                   exists t,
                     parsedAt d p w'
                     = Some (TagManagementTool.updatedFrontmatter fm tags' t, body)
               | None => parsedAt d p w' = Some (fm, body)
               end).
Proof.
  intros Hrt Hnd. induction Hnd as [|p ps Hnotin Hnd IH]; intros Hjoin w notes w' H.
  - cbn in H. injection H as _ <-. split; [reflexivity | intros p []].
  - cbn [TagManagementTool.processFiles] in H.
    apply FsFacts.bind_ok in H as (b & w1 & Hstep & H).
    apply FsFacts.bind_ok in H as (rest & w2 & Hrest & H).
    unfold ret in H. injection H as _ <-.
    destruct (IH (fun q Hq => Hjoin q (or_intror Hq)) w1 rest w2 Hrest)
      as [IHout IHin].
    apply processFile_ok in Hstep as (raw & fm & body & Hraw & Hparse & Hch).
    rewrite (Hjoin p (or_introl eq_refl)) in Hraw, Hch.
    assert (Hother : forall q, q <> p ->
                               Fs.lookup q (files w1) = Fs.lookup q (files w)).
    { intros q Hq. destruct (change (TagManagementTool.tagsOf fm)).
      - destruct Hch as (data & r & _ & -> & _). cbn [files].
        now apply FsFacts.lookup_store_other.
      - now destruct Hch as [-> _]. }
    split.
    + intros q Hq. rewrite IHout by (intros Hin; apply Hq; now right).
      apply Hother. intros ->. apply Hq. now left.
    + intros q [<- | Hq].
      * exists fm, body. unfold parsedAt at 1. rewrite Hraw.
        split; [exact Hparse |].
        assert (Hsame : parsedAt d p w2 = parsedAt d p w1).
        { unfold parsedAt. now rewrite (FsFacts.textAt_lookup p w1 w2 (IHout p Hnotin)). }
        rewrite Hsame.
        destruct (change (TagManagementTool.tagsOf fm)) as [tags'|].
        { destruct Hch as (data & r & Hprint & -> & _).
          exists (clock d (clockReads w)).
          unfold parsedAt, textAt. cbn [files].
          rewrite FsFacts.lookup_store_same. cbn [text].
          now apply Hrt. }
        { destruct Hch as [-> _]. unfold parsedAt. now rewrite Hraw. }
      * destruct (IHin q Hq) as (fm' & body' & Hp1 & Hp2).
        exists fm', body'. split; [| exact Hp2].
        rewrite <- Hp1. unfold parsedAt.
        rewrite (FsFacts.textAt_lookup q w w1); [reflexivity |].
        apply Hother. intros ->. contradiction.
Qed.

Lemma delete_add_same (x : string) (s : list string) :
  JsSet.delete x (JsSet.add x s) = JsSet.delete x s.
Proof.
  unfold JsSet.add. destruct (JsSet.has x s); [reflexivity |].
  unfold JsSet.delete. rewrite filter_app. cbn [filter].
  rewrite String.eqb_refl. cbn [negb]. apply app_nil_r.
Qed.

Lemma delete_delete (x : string) (s : list string) :
  JsSet.delete x (JsSet.delete x s) = JsSet.delete x s.
Proof.
  unfold JsSet.delete. induction s as [|y s IH]; [reflexivity |].
  cbn [filter]. destruct (negb (String.eqb y x)) eqn:E; cbn [filter].
  - now rewrite E, IH.
  - exact IH.
Qed.

Lemma delete_comm (x y : string) (s : list string) :
  JsSet.delete x (JsSet.delete y s) = JsSet.delete y (JsSet.delete x s).
Proof.
  unfold JsSet.delete. induction s as [|z s IH]; [reflexivity |].
  cbn [filter].
  destruct (negb (String.eqb z y)) eqn:Ey, (negb (String.eqb z x)) eqn:Ex;
    cbn [filter]; rewrite ?Ey, ?Ex, IH; reflexivity.
Qed.

(** What a rename makes of a tag set that holds the old tag. *)
Lemma renamed_tags (old new : string) (T : list string) :
  old <> new -> NoDup T ->
  let T' := JsSet.add new (JsSet.delete old T) in
  JsSet.has old T' = false
  /\ count_occ string_dec T' new = 1
  /\ JsSet.delete new (JsSet.delete old T') = JsSet.delete new (JsSet.delete old T).
Proof.
  intros Hne Hnd T'. split; [| split].
  - apply has_false. unfold T'. rewrite In_add, In_delete. intuition congruence.
  - apply NoDup_count_occ'.
    + now apply add_NoDup, delete_NoDup.
    + unfold T'. apply In_add. now right.
  - unfold T'. now rewrite delete_comm, delete_add_same, delete_comm, delete_delete.
Qed.


Lemma update_modified (existing : FrontMatter)
  (params : NoteUpdateTool.NoteUpdateParams) (t : string) :
  Fm.get "modified" (NoteUpdateTool.updatedFrontmatter existing params t) = VStr t.
Proof. apply get_set_same. Qed.



End TagFacts.

(* ================================================================== *)
(** * Facts about paths *)
(* ================================================================== *)

Module PathFacts.
Import Path.


End PathFacts.

(* ================================================================== *)
(** * Facts about the Document Model *)
(* ================================================================== *)

Module DocFacts.
Import DocumentModel StrFacts.

Lemma split_nonempty (sep : ascii) (s : string) : Str.split sep s <> [].
Proof.
  destruct s as [|c s]; cbn [Str.split]; [discriminate |].
  destruct (Ascii.eqb c sep); [discriminate |].
  destruct (Str.split sep s); discriminate.
Qed.

(** Splitting reads a first line off a text. *)
Lemma split_line (l s : string) :
  oneLine l = true ->
  Str.split newline (l ++ String newline s) = l :: Str.split newline s.
Proof.
  unfold oneLine. induction l as [|c l IH]; intros H.
  - cbn [append Str.split]. now rewrite Ascii.eqb_refl.
  - cbn [Str.forallb] in H. apply andb_true_iff in H as [Hc Hl].
    apply negb_true_iff in Hc.
    cbn [append Str.split]. now rewrite Hc, (IH Hl).
Qed.

Lemma split_unlines (ls : list string) (b : string) :
  forallb oneLine ls = true ->
  Str.split newline (unlines ls ++ b) = (ls ++ Str.split newline b)%list.
Proof.
  induction ls as [|l ls IH]; intros H; [reflexivity |].
  cbn [forallb] in H. apply andb_true_iff in H as [Hl Hls].
  cbn [unlines]. rewrite append_assoc.
  change (String newline (unlines ls) ++ b) with (String newline (unlines ls ++ b)).
  now rewrite (split_line _ _ Hl), (IH Hls).
Qed.

Lemma concat_cons_char (sep : string) (c : ascii) (w : string)
  (ws : list string) :
  String.concat sep (String c w :: ws) = String c (String.concat sep (w :: ws)).
Proof. destruct ws; reflexivity. Qed.

(** Joining the lines of a text gives the text back. *)
Lemma concat_split (b : string) :
  String.concat (String newline "") (Str.split newline b) = b.
Proof.
  induction b as [|c b IH]; [reflexivity |].
  cbn [Str.split]. destruct (Ascii.eqb c newline) eqn:E.
  - apply Ascii.eqb_eq in E; subst c.
    pose proof (split_nonempty newline b) as Hne.
    destruct (Str.split newline b) as [|w ws] eqn:Es; [congruence |].
    change (String.concat (String newline "") ("" :: w :: ws))
      with (String newline (String.concat (String newline "") (w :: ws))).
    now rewrite IH.
  - pose proof (split_nonempty newline b) as Hne.
    destruct (Str.split newline b) as [|w ws] eqn:Es; [congruence |].
    now rewrite concat_cons_char, IH.
Qed.

Lemma breakAtMarker_app (header after : list string) :
  forallb (fun l => negb (String.eqb l marker)) header = true ->
  breakAtMarker (header ++ marker :: after)%list = Some (header, after).
Proof.
  induction header as [|l header IH]; intros H; [reflexivity |].
  cbn [forallb] in H. apply andb_true_iff in H as [Hl Hh].
  apply negb_true_iff in Hl.
  cbn [app breakAtMarker]. now rewrite Hl, (IH Hh).
Qed.

Lemma cutAt_key (k r : string) :
  Str.forallb (fun c => negb (Ascii.eqb c ":") && negb (Ascii.eqb c newline)) k
  = true ->
  cutAt ":" (k ++ String ":" r) = Some (k, r).
Proof.
  induction k as [|c k IH]; intros H; [reflexivity |].
  cbn [Str.forallb] in H. apply andb_true_iff in H as [Hc Hk].
  apply andb_true_iff in Hc as [Hc _]. apply negb_true_iff in Hc.
  cbn [append cutAt]. now rewrite Hc, (IH Hk).
Qed.

Lemma prefix_item_key (k r : string) :
  String.prefix "- " (k ++ String ":" r) = String.prefix "- " k.
Proof.
  destruct k as [|c1 [|c2 k]]; cbn [append].
  - reflexivity.
  - rewrite !prefix_cons. cbn. now rewrite andb_false_r.
  - rewrite !prefix_cons, !prefix_nil. reflexivity.
Qed.

Lemma classify_item (x : string) : classify ("- " ++ x) = Item x.
Proof.
  unfold classify. change ("- " ++ x) with (String "-" (String " " x)).
  now rewrite !prefix_cons, prefix_nil.
Qed.

Lemma classify_arrayKey (k : string) :
  keyOk k = true -> classify (k ++ ":") = ArrayKey k.
Proof.
  unfold keyOk, classify. intros H. apply andb_true_iff in H as [Hk Hp].
  apply negb_true_iff in Hp.
  now rewrite prefix_item_key, Hp, (cutAt_key _ _ Hk).
Qed.

Lemma classify_stringKey (k s : string) :
  keyOk k = true -> classify (k ++ ": " ++ s) = StringKey k s.
Proof.
  unfold keyOk, classify. intros H. apply andb_true_iff in H as [Hk Hp].
  apply negb_true_iff in Hp.
  change (k ++ ": " ++ s) with (k ++ String ":" (String " " s)).
  rewrite prefix_item_key, Hp, (cutAt_key _ _ Hk).
  now rewrite prefix_cons, prefix_nil.
Qed.

Lemma decodeLines_items (l : list string) (rest : list string)
  (f : FrontMatter) :
  decodeLines rest = Some (f, []) ->
  decodeLines (map (fun x => ("- " ++ x)%string) l ++ rest)%list = Some (f, l).
Proof.
  intros H. induction l as [|x l IH]; [exact H |].
  cbn [map app decodeLines]. now rewrite IH, classify_item.
Qed.

(** Reading back the lines of a well-formed frontmatter. *)
Lemma decodeLines_encodeLines (f : FrontMatter) :
  wellFormed f = true -> decodeLines (encodeLines f) = Some (f, []).
Proof.
  induction f as [|[k v] f IH]; intros H; [reflexivity |].
  cbn [wellFormed forallb] in H. apply andb_true_iff in H as [Hkv Hf].
  unfold entryOk in Hkv. cbn [fst snd] in Hkv.
  apply andb_true_iff in Hkv as [Hk Hv].
  specialize (IH Hf).
  unfold encodeLines. cbn [flat_map]. fold (encodeLines f).
  unfold encodeEntry. cbn [fst snd].
  destruct v as [s | l |]; [| | discriminate].
  - cbn [app decodeLines]. now rewrite IH, (classify_stringKey _ _ Hk).
  - cbn [app decodeLines].
    now rewrite (decodeLines_items l _ _ IH), (classify_arrayKey _ Hk).
Qed.

Lemma oneLine_append (a b : string) :
  oneLine (a ++ b) = oneLine a && oneLine b.
Proof. apply forallb_append. Qed.

Lemma keyOk_oneLine (k : string) : keyOk k = true -> oneLine k = true.
Proof.
  unfold keyOk, oneLine. intros H. apply andb_true_iff in H as [H _].
  induction k as [|c k IH]; [reflexivity |].
  cbn [Str.forallb] in *. apply andb_true_iff in H as [Hc Hk].
  apply andb_true_iff in Hc as [_ Hc]. now rewrite Hc, (IH Hk).
Qed.

(** The lines of a well-formed frontmatter hold no newline and none of
    them is the marker. *)
Lemma encodeLines_lines (f : FrontMatter) :
  wellFormed f = true ->
  forallb oneLine (encodeLines f) = true
  /\ forallb (fun l => negb (String.eqb l marker)) (encodeLines f) = true.
Proof.
  induction f as [|[k v] f IH]; intros H; [split; reflexivity |].
  cbn [wellFormed forallb] in H. apply andb_true_iff in H as [Hkv Hf].
  unfold entryOk in Hkv. cbn [fst snd] in Hkv.
  apply andb_true_iff in Hkv as [Hk Hv].
  destruct (IH Hf) as [IH1 IH2].
  unfold encodeLines. cbn [flat_map]. fold (encodeLines f).
  unfold encodeEntry. cbn [fst snd].
  assert (Hmark : forall r, String.eqb (k ++ String ":" r) marker = false).
  { intros r. apply String.eqb_neq. intros E.
    assert (Hcut : cutAt ":" (k ++ String ":" r) = cutAt ":" marker)
      by now rewrite E.
    unfold keyOk in Hk. apply andb_true_iff in Hk as [Hk _].
    rewrite (cutAt_key _ _ Hk) in Hcut. discriminate. }
  destruct v as [s | l |]; [| | discriminate].
  - rewrite !forallb_app. cbn [forallb].
    rewrite IH1, IH2, !andb_true_r.
    change (k ++ ": " ++ s) with (k ++ String ":" (String " " s)).
    rewrite Hmark. split; [| reflexivity].
    change (k ++ String ":" (String " " s)) with (k ++ ": " ++ s).
    rewrite !oneLine_append, (keyOk_oneLine _ Hk), Hv. reflexivity.
  - rewrite !forallb_app. cbn [forallb].
    rewrite IH1, IH2, !andb_true_r.
    change (k ++ ":") with (k ++ String ":" "").
    rewrite Hmark. cbn [negb andb].
    rewrite oneLine_append, (keyOk_oneLine _ Hk). cbn [andb].
    split.
    + rewrite andb_true_l. rewrite forallb_forall in *.
      intros x Hx. apply in_map_iff in Hx as (y & <- & Hy).
      rewrite oneLine_append. now rewrite (Hv y Hy).
    + rewrite forallb_forall. intros x Hx.
      apply in_map_iff in Hx as (y & <- & Hy). reflexivity.
Qed.

(** Parsing what was serialized. *)
Lemma parse_serialize (f : FrontMatter) (b : string) :
  wellFormed f = true -> parse (serialize f b) = inl (f, b).
Proof.
  intros Hf. destruct (encodeLines_lines f Hf) as [Hone Hmark].
  unfold parse, serialize.
  rewrite split_unlines.
  2:{ cbn [forallb]. rewrite forallb_app, Hone. reflexivity. }
  cbn [app]. rewrite String.eqb_refl.
  rewrite <- app_assoc. cbn [app].
  rewrite (breakAtMarker_app _ _ Hmark).
  now rewrite (decodeLines_encodeLines f Hf), concat_split.
Qed.

(** The model reads back what it wrote. *)
Lemma deps_roundTrip (clock : nat -> string) :
  World.RoundTrip (DocumentModel.deps clock).
Proof.
  intros body fm data. cbn [DocumentModel.deps stringify matter].
  destruct (wellFormed fm) eqn:E; [| discriminate].
  intros H. injection H as <-. now rewrite (parse_serialize fm body E).
Qed.

End DocFacts.

(* ================================================================== *)
(** * Facts about the runs of the tools *)
(* ================================================================== *)

Module ShapeFacts.
Import Regex StrFacts Plain.

Lemma starIter_class (p : ascii -> bool) (fuel : nat) :
  forall (s : string) (cap : option string),
    String.length s <= fuel ->
    starIter
      (fun s' cap' k' =>
         match s' with
         | EmptyString => None
         | String c s'' => if p c then k' s'' (enter (Cls p) cap') else None
         end)
      (fun s' cap' => Some (cap', s')) fuel s cap
    = Some (cap, Str.drop (runLength p s) s).
Proof.
  induction fuel as [|fuel IH]; intros s cap Hlen.
  - destruct s; [reflexivity | simpl in Hlen; lia].
  - cbn [starIter]. destruct s as [|c s'].
    + reflexivity.
    + cbn [enter hasGrp runLength]. destruct (p c) eqn:Ep.
      * assert (Hlt : Nat.ltb (String.length s') (String.length (String c s')) = true)
          by (apply Nat.ltb_lt; simpl; lia).
        rewrite Hlt. rewrite IH by (simpl in Hlen; lia). reflexivity.
      * reflexivity.
Qed.

Lemma length_drop_le (n : nat) (s : string) :
  String.length (Str.drop n s) <= String.length s.
Proof.
  revert n. induction s as [|c s IH]; intros [|n]; simpl; auto.
Qed.

Lemma length_drop_runLength (p : ascii -> bool) (s : string) :
  String.length s - String.length (Str.drop (runLength p s) s) = runLength p s.
Proof.
  induction s as [|c s IH]; [reflexivity |].
  cbn [runLength]. destruct (p c).
  - cbn [Str.drop String.length].
    pose proof (length_drop_le (runLength p s) s). lia.
  - cbn [Str.drop]. lia.
Qed.

Lemma matchAt_plus (n0 : nat) (p : ascii -> bool) (s : string) :
  matchAt n0 (plus (Cls p)) s
  = match runLength p s with
    | O => None
    | S k => Some (None, S k)
    end.
Proof.
  unfold matchAt, plus. cbn [rmatch].
  destruct s as [|c s']; [reflexivity |].
  cbn [runLength]. destruct (p c) eqn:Ep; [| reflexivity].
  rewrite starIter_class by lia.
  cbn [String.length].
  pose proof (length_drop_runLength p s') as H.
  pose proof (length_drop_le (runLength p s') s').
  f_equal. f_equal. lia.
Qed.

(** A global replacement of [p+] by a fixed text squeezes the runs. *)
Lemma replaceFrom_plus (n0 : nat) (p : ascii -> bool) (r : string) (s : string) :
  replaceFrom n0 (plus (Cls p)) (fun _ _ => r) 0 s = squeeze p r false s
  /\ replaceFrom n0 (plus (Cls p)) (fun _ _ => r) (runLength p s) s
     = squeeze p r true s.
Proof.
  induction s as [|c s [IH0 IH1]].
  - split; reflexivity.
  - cbn [replaceFrom runLength squeeze]. rewrite matchAt_plus.
    cbn [runLength]. destruct (p c) eqn:Ep.
    + split; [now rewrite IH1 | exact IH1].
    + split; now rewrite IH0.
Qed.

Lemma replaceAll_plus (p : ascii -> bool) (r s : string) :
  replaceAll (plus (Cls p)) (fun _ _ => r) s = squeeze p r false s.
Proof. apply replaceFrom_plus. Qed.

(** The pattern [(^-|-$)] of [sanitizeFilename]. *)
Lemma matchAt_ends (n0 : nat) (s : string) :
  matchAt n0
    (Grp (Alt (Cat Bol (chr "-")) (Cat (chr "-") Eoi))) s
  = match s with
    | EmptyString => None
    | String c s' =>
        if Ascii.eqb c "-"
           && (Nat.eqb (String.length s) n0 || String.eqb s' "")
        then Some (Some "-", 1)
        else None
    end.
Proof.
  unfold matchAt. destruct s as [|c s'].
  - cbn. destruct n0; reflexivity.
  - cbn [rmatch chr orElse].
    destruct (Nat.eqb (String.length (String c s')) n0) eqn:En.
    + destruct (Ascii.eqb "-" c) eqn:Ec.
      * apply Ascii.eqb_eq in Ec. subst c.
        cbn [Ascii.eqb Bool.eqb andb orb orElse String.length].
        replace (S (String.length s') - String.length s') with 1 by lia.
        reflexivity.
      * rewrite Ascii.eqb_sym, Ec. reflexivity.
    + destruct (Ascii.eqb "-" c) eqn:Ec.
      * apply Ascii.eqb_eq in Ec. subst c.
        cbn [Ascii.eqb Bool.eqb andb orb orElse].
        destruct s' as [|c' s'']; reflexivity.
      * rewrite Ascii.eqb_sym, Ec. reflexivity.
Qed.

Lemma replace_ends_inner (n0 : nat) (s : string) :
  String.length s < n0 ->
  replaceFrom n0 (Grp (Alt (Cat Bol (chr "-")) (Cat (chr "-") Eoi)))
    (fun _ _ => "") 0 s
  = dropLastDash s.
Proof.
  induction s as [|c s' IH]; intros Hlen.
  - cbn [replaceFrom]. rewrite matchAt_ends. reflexivity.
  - cbn [replaceFrom]. rewrite matchAt_ends.
    assert (En : Nat.eqb (String.length (String c s')) n0 = false)
      by (apply Nat.eqb_neq; lia).
    rewrite En. cbn [orb dropLastDash].
    destruct (Ascii.eqb c "-") eqn:Ec; cbn [andb]; rewrite ?Ec.
    + destruct s' as [|c' s'']; cbn [String.eqb].
      * cbn [replaceFrom]. rewrite matchAt_ends. reflexivity.
      * cbn [append]. rewrite IH by (simpl in *; lia). reflexivity.
    + destruct s' as [|c' s''].
      * cbn [replaceFrom]. rewrite matchAt_ends. reflexivity.
      * rewrite IH by (simpl in *; lia). reflexivity.
Qed.

(** A global replacement of [(^-|-$)] by nothing removes a dash at the
    start and a dash at the end. *)
Lemma replaceAll_ends (s : string) :
  replaceAll (Grp (Alt (Cat Bol (chr "-")) (Cat (chr "-") Eoi)))
    (fun _ _ => "") s
  = trimDash s.
Proof.
  unfold replaceAll. destruct s as [|c s'].
  - cbn [replaceFrom]. rewrite matchAt_ends. reflexivity.
  - cbn [replaceFrom trimDash]. rewrite matchAt_ends, Nat.eqb_refl.
    cbn [orb]. rewrite andb_true_r.
    destruct (Ascii.eqb c "-") eqn:Ec.
    + cbn [append]. apply replace_ends_inner. simpl. lia.
    + cbn [dropLastDash]. destruct s' as [|c' s''].
      * cbn [replaceFrom]. rewrite matchAt_ends, Ec. reflexivity.
      * rewrite replace_ends_inner by (simpl; lia). reflexivity.
Qed.

(** The pattern [\.md$] under the [i] flag. *)
Lemma matchAt_mdSuffix (n0 : nat) (s : string) :
  matchAt n0 Links.mdSuffix s = if isMdSuffix s then Some (None, 3) else None.
Proof.
  unfold matchAt, Links.mdSuffix, chrI, chr.
  change (Str.lower "m") with "m"%char. change (Str.lower "d") with "d"%char.
  destruct s as [|c1 [|c2 [|c3 s3]]]; cbn [rmatch isMdSuffix]; try reflexivity.
  - destruct (Ascii.eqb "." c1); reflexivity.
  - destruct (Ascii.eqb "." c1); [| reflexivity].
    destruct (Ascii.eqb (Str.lower c2) "m"); reflexivity.
  - rewrite (Ascii.eqb_sym c1 ".").
    destruct (Ascii.eqb "." c1); [| now destruct s3].
    destruct (Ascii.eqb (Str.lower c2) "m"); [| now destruct s3].
    destruct (Ascii.eqb (Str.lower c3) "d"); [| now destruct s3].
    destruct s3; [| reflexivity]. cbn [andb String.length]. reflexivity.
Qed.

Lemma replaceFrom_mdSuffix (n0 : nat) (s : string) :
  replaceFrom n0 Links.mdSuffix (fun _ _ => "") 0 s = stripMd s.
Proof.
  induction s as [|c s' IH].
  - cbn [replaceFrom]. rewrite matchAt_mdSuffix. reflexivity.
  - cbn [replaceFrom stripMd]. rewrite matchAt_mdSuffix.
    destruct (isMdSuffix (String c s')) eqn:E.
    + destruct s' as [|c2 [|c3 [|c4 s4]]]; try discriminate E.
      cbn [replaceFrom append]. rewrite matchAt_mdSuffix. reflexivity.
    + now rewrite IH.
Qed.

Lemma sanitizeFilename_plain (s : string) :
  NoteCreationTool.sanitizeFilename s
  = trimDash
      (squeeze (fun c => negb (NoteCreationTool.isAlnum c)) "-" false
         (Str.toLowerCase s)).
Proof.
  unfold NoteCreationTool.sanitizeFilename.
  now rewrite replaceAll_ends, replaceAll_plus.
Qed.

Lemma pathToWikiLink_plain (p : string) :
  Links.pathToWikiLink p
  = String.concat "/"
      (map (squeeze Str.isSpace "_" false) (Str.split "/" (stripMd p))).
Proof.
  unfold Links.pathToWikiLink, Links.spaces, replaceAll at 2.
  rewrite replaceFrom_mdSuffix. f_equal.
  apply map_ext. intros part. apply replaceAll_plus.
Qed.

Lemma string_len_ind (P : string -> Prop) :
  (forall s, (forall t, String.length t < String.length s -> P t) -> P s) ->
  forall s, P s.
Proof.
  intros H s. remember (String.length s) as n eqn:En.
  revert s En. induction n as [n IH] using lt_wf_ind.
  intros s ->. apply H. intros t Ht. now apply (IH (String.length t)).
Qed.

Lemma isAlnum_not_dash (c : ascii) :
  NoteCreationTool.isAlnum c = true -> Ascii.eqb c "-" = false.
Proof.
  destruct c as [[] [] [] [] [] [] [] []]; vm_compute; congruence.
Qed.

Lemma lower_alnum (c : ascii) :
  NoteCreationTool.isAlnum c = true -> Str.lower c = c.
Proof.
  destruct c as [[] [] [] [] [] [] [] []]; vm_compute; congruence.
Qed.

Lemma lower_lower (c : ascii) : Str.lower (Str.lower c) = Str.lower c.
Proof. destruct c as [[] [] [] [] [] [] [] []]; reflexivity. Qed.

Lemma toLowerCase_idem (s : string) :
  Str.toLowerCase (Str.toLowerCase s) = Str.toLowerCase s.
Proof.
  induction s as [|c s IH]; [reflexivity |].
  cbn [Str.toLowerCase]. now rewrite lower_lower, IH.
Qed.

(** What a squeeze with dashes leaves: letters, digits and single
    dashes, and no dash at the start after a run. *)
Lemma squeeze_dashes (u : string) :
  forall b,
    let q := squeeze (fun c => negb (NoteCreationTool.isAlnum c)) "-" b u in
    Str.forallb (fun c => NoteCreationTool.isAlnum c || Ascii.eqb c "-") q = true
    /\ singleDashes q = true
    /\ (b = true -> String.prefix "-" q = false).
Proof.
  induction u as [|c u IH]; intros b q; subst q.
  - cbn. repeat split; intros; reflexivity.
  - cbn [squeeze]. destruct (NoteCreationTool.isAlnum c) eqn:Ec; cbn [negb].
    + destruct (IH false) as (Ha & Hs & _).
      pose proof (isAlnum_not_dash c Ec) as Hd.
      cbn [Str.forallb singleDashes]. rewrite Ec, Ha, Hd. cbn [orb andb negb].
      repeat split.
      * destruct (squeeze _ "-" false u); [reflexivity | exact Hs].
      * intros _. cbn [String.prefix].
        destruct (ascii_dec "-" c) as [<- | ?]; [discriminate Hd | reflexivity].
    + destruct b.
      * apply IH.
      * destruct (IH true) as (Ha & Hs & Hp). specialize (Hp eq_refl).
        cbn [append Str.forallb singleDashes]. rewrite Ha.
        repeat split; [| discriminate].
        destruct (squeeze _ "-" true u) as [|c' q'] eqn:Eq; [reflexivity |].
        rewrite Hs. cbn [String.prefix] in Hp.
        destruct (ascii_dec "-" c') as [<- | Hn].
        -- now destruct q'.
        -- destruct (Ascii.eqb c' "-") eqn:E'; [| reflexivity].
           apply Ascii.eqb_eq in E'. now subst c'.
Qed.

Lemma dropLastDash_nil (c : ascii) (t : string) :
  dropLastDash (String c t) = "" -> c = "-"%char /\ t = "".
Proof.
  cbn [dropLastDash]. destruct t; [| discriminate].
  destruct (Ascii.eqb c "-") eqn:E; [| discriminate].
  apply Ascii.eqb_eq in E. now split.
Qed.

Lemma slug_cons (c : ascii) (x : string) :
  NoteCreationTool.isAlnum c = true -> slug x = true -> slug (String c x) = true.
Proof.
  intros Hc Hx. cbn [slug]. rewrite Hc. cbn [andb].
  destruct x as [|c' x']; [reflexivity |].
  destruct (Ascii.eqb c' "-") eqn:E; [| exact Hx].
  apply Ascii.eqb_eq in E. subst c'. cbn [slug] in Hx. discriminate Hx.
Qed.

Lemma singleDashes_tail (c : ascii) (t : string) :
  singleDashes (String c t) = true -> singleDashes t = true.
Proof.
  cbn [singleDashes]. destruct t; [reflexivity |].
  intros H. now apply andb_true_iff in H.
Qed.

(** Without the dash at its end, a text of letters, digits and single
    dashes that begins with a letter or a digit is a slug. *)
Lemma dropLastDash_slug :
  forall q,
    Str.forallb (fun c => NoteCreationTool.isAlnum c || Ascii.eqb c "-") q = true ->
    singleDashes q = true -> String.prefix "-" q = false -> q <> "" ->
    slug (dropLastDash q) = true.
Proof.
  induction q as [q IH] using string_len_ind. intros Ha Hs Hp Hne.
  destruct q as [|c t]; [congruence |].
  cbn [Str.forallb] in Ha. apply andb_true_iff in Ha as [Hc Ha].
  assert (Hd : Ascii.eqb c "-" = false).
  { cbn [String.prefix] in Hp. destruct (ascii_dec "-" c) as [<- | Hn].
    - now destruct t.
    - destruct (Ascii.eqb c "-") eqn:E; [| reflexivity].
      apply Ascii.eqb_eq in E. now subst c. }
  rewrite Hd, orb_false_r in Hc.
  destruct t as [|c2 t2].
  - cbn [dropLastDash]. rewrite Hd. cbn [slug]. now rewrite Hc.
  - change (dropLastDash (String c (String c2 t2)))
      with (String c (dropLastDash (String c2 t2))).
    apply singleDashes_tail in Hs.
    destruct (Ascii.eqb c2 "-") eqn:E2.
    + apply Ascii.eqb_eq in E2. subst c2.
      destruct t2 as [|c3 t3].
      * cbn [dropLastDash Ascii.eqb Bool.eqb slug]. now rewrite Hc.
      * change (dropLastDash (String "-" (String c3 t3)))
          with (String "-" (dropLastDash (String c3 t3))).
        cbn [slug Ascii.eqb Bool.eqb]. rewrite Hc. cbn [andb].
        pose proof (singleDashes_tail _ _ Hs) as Hs3.
        cbn [singleDashes] in Hs. apply andb_true_iff in Hs as [H3 _].
        cbn [Ascii.eqb Bool.eqb andb] in H3. apply negb_true_iff in H3.
        cbn [Str.forallb] in Ha. apply andb_true_iff in Ha as [_ Ha].
        apply IH; [simpl; lia | exact Ha | exact Hs3 | | discriminate].
        cbn [String.prefix]. destruct (ascii_dec "-" c3) as [<- | ?];
          [discriminate H3 | reflexivity].
    + apply slug_cons; [exact Hc |].
      apply IH; [simpl; lia | exact Ha | exact Hs | | discriminate].
      cbn [String.prefix]. destruct (ascii_dec "-" c2) as [<- | ?];
        [discriminate E2 | reflexivity].
Qed.

(** The shape of a sanitized file name. *)
Lemma sanitizeFilename_shape (s : string) :
  NoteCreationTool.sanitizeFilename s = ""
  \/ slug (NoteCreationTool.sanitizeFilename s) = true.
Proof.
  rewrite sanitizeFilename_plain.
  destruct (squeeze_dashes (Str.toLowerCase s) false) as (Ha & Hs & _).
  destruct (squeeze _ "-" false (Str.toLowerCase s)) as [|c q] eqn:Eq.
  - now left.
  - cbn [trimDash]. destruct (Ascii.eqb c "-") eqn:Ec.
    + apply Ascii.eqb_eq in Ec. subst c.
      destruct q as [|c2 q2]; [now left |]. right.
      cbn [Str.forallb] in Ha. apply andb_true_iff in Ha as [_ Ha].
      pose proof (singleDashes_tail _ _ Hs) as Hs'.
      apply dropLastDash_slug; [exact Ha | exact Hs' | | discriminate].
      cbn [singleDashes Ascii.eqb Bool.eqb andb] in Hs.
      apply andb_true_iff in Hs as [H2 _]. apply negb_true_iff in H2.
      cbn [String.prefix]. destruct (ascii_dec "-" c2) as [<- | ?];
        [discriminate H2 | reflexivity].
    + right. apply dropLastDash_slug; [exact Ha | exact Hs | | discriminate].
      cbn [String.prefix]. destruct (ascii_dec "-" c) as [<- | ?];
        [discriminate Ec | reflexivity].
Qed.

Lemma slug_head (c : ascii) (t : string) :
  slug (String c t) = true -> NoteCreationTool.isAlnum c = true.
Proof. cbn [slug]. intros H. now apply andb_true_iff in H. Qed.

Lemma slug_inv (c : ascii) (t : string) :
  slug (String c t) = true ->
  NoteCreationTool.isAlnum c = true
  /\ (t = "" \/ (exists t', t = String "-" t' /\ slug t' = true)
      \/ (slug t = true)).
Proof.
  cbn [slug]. intros H. apply andb_true_iff in H as [Hc H].
  split; [exact Hc |].
  destruct t as [|c' t']; [now left |]. right.
  destruct (Ascii.eqb c' "-") eqn:E; [| now right].
  apply Ascii.eqb_eq in E. subst c'. left. now exists t'.
Qed.

Lemma slug_nonempty (t : string) : slug t = true -> exists c t', t = String c t'.
Proof. destruct t as [|c t']; [discriminate | intros _; now exists c, t']. Qed.

Lemma slug_toLowerCase : forall t, slug t = true -> Str.toLowerCase t = t.
Proof.
  induction t as [t IH] using string_len_ind. intros H.
  destruct t as [|c t]; [reflexivity |].
  apply slug_inv in H as (Hc & [-> | [(t' & -> & H') | H']]);
    cbn [Str.toLowerCase]; rewrite (lower_alnum c Hc).
  - reflexivity.
  - change (Str.lower "-") with "-"%char.
    now rewrite (IH t') by (simpl; lia || exact H').
  - now rewrite (IH t) by (simpl; lia || exact H').
Qed.

Lemma slug_squeeze :
  forall t, slug t = true ->
            squeeze (fun c => negb (NoteCreationTool.isAlnum c)) "-" false t = t.
Proof.
  induction t as [t IH] using string_len_ind. intros H.
  destruct t as [|c t]; [reflexivity |].
  apply slug_inv in H as (Hc & [-> | [(t' & -> & H') | H']]);
    cbn [squeeze]; rewrite Hc; cbn [negb].
  - reflexivity.
  - change (NoteCreationTool.isAlnum "-") with false. cbn [negb append].
    destruct (slug_nonempty _ H') as (c3 & t3 & ->).
    pose proof (IH (String c3 t3)) as IH3. cbn [squeeze] in IH3 |- *.
    rewrite (slug_head _ _ H') in IH3 |- *. cbn [negb] in IH3 |- *.
    now rewrite IH3 by (simpl; lia || exact H').
  - now rewrite (IH t) by (simpl; lia || exact H').
Qed.

Lemma slug_dropLastDash : forall t, slug t = true -> dropLastDash t = t.
Proof.
  induction t as [t IH] using string_len_ind. intros H.
  destruct t as [|c t]; [reflexivity |].
  apply slug_inv in H as (Hc & [-> | [(t' & -> & H') | H']]).
  - cbn [dropLastDash]. now rewrite (isAlnum_not_dash c Hc).
  - destruct (slug_nonempty _ H') as (c3 & t3 & ->).
    change (dropLastDash (String c (String "-" (String c3 t3))))
      with (String c (String "-" (dropLastDash (String c3 t3)))).
    now rewrite (IH (String c3 t3)) by (simpl; lia || exact H').
  - destruct (slug_nonempty _ H') as (c2 & t2 & ->).
    change (dropLastDash (String c (String c2 t2)))
      with (String c (dropLastDash (String c2 t2))).
    now rewrite (IH (String c2 t2)) by (simpl; lia || exact H').
Qed.

(** A slug is left as it is. *)
Lemma sanitizeFilename_slug (t : string) :
  slug t = true -> NoteCreationTool.sanitizeFilename t = t.
Proof.
  intros H. rewrite sanitizeFilename_plain, (slug_toLowerCase t H),
    (slug_squeeze t H).
  destruct (slug_nonempty _ H) as (c & t' & ->).
  cbn [trimDash]. rewrite (isAlnum_not_dash c (slug_head _ _ H)).
  now apply slug_dropLastDash.
Qed.

Lemma existsb_squeeze (u : string) (b : bool) :
  Plain.existsb NoteCreationTool.isAlnum
    (squeeze (fun c => negb (NoteCreationTool.isAlnum c)) "-" b u)
  = Plain.existsb NoteCreationTool.isAlnum u.
Proof.
  revert b. induction u as [|c u IH]; intros b; [reflexivity |].
  cbn [squeeze Plain.existsb]. destruct (NoteCreationTool.isAlnum c) eqn:Ec;
    cbn [negb orb].
  - cbn [Plain.existsb]. now rewrite Ec.
  - destruct b; [apply IH |]. cbn [append Plain.existsb].
    change (NoteCreationTool.isAlnum "-") with false. apply IH.
Qed.

Lemma existsb_dropLastDash (q : string) :
  Plain.existsb NoteCreationTool.isAlnum (dropLastDash q)
  = Plain.existsb NoteCreationTool.isAlnum q.
Proof.
  induction q as [|c q IH]; [reflexivity |].
  cbn [dropLastDash]. destruct q as [|c' q'].
  - destruct (Ascii.eqb c "-") eqn:E; [| reflexivity].
    apply Ascii.eqb_eq in E. now subst c.
  - cbn [Plain.existsb] in IH |- *. now rewrite IH.
Qed.

Lemma existsb_trimDash (q : string) :
  Plain.existsb NoteCreationTool.isAlnum (trimDash q)
  = Plain.existsb NoteCreationTool.isAlnum q.
Proof.
  destruct q as [|c q]; [reflexivity |]. cbn [trimDash].
  destruct (Ascii.eqb c "-") eqn:E.
  - apply Ascii.eqb_eq in E. subst c. cbn [Plain.existsb].
    change (NoteCreationTool.isAlnum "-") with false.
    apply existsb_dropLastDash.
  - apply existsb_dropLastDash.
Qed.

Lemma existsb_toLowerCase (s : string) :
  Plain.existsb NoteCreationTool.isAlnum (Str.toLowerCase s)
  = Plain.existsb isLetterOrDigit s.
Proof.
  induction s as [|c s IH]; [reflexivity |].
  cbn [Str.toLowerCase Plain.existsb]. now rewrite IH.
Qed.

(** The sanitized name is empty exactly when the name has no letter and
    no digit. *)
Lemma sanitizeFilename_empty (s : string) :
  NoteCreationTool.sanitizeFilename s = ""
  <-> Plain.existsb isLetterOrDigit s = false.
Proof.
  assert (H : Plain.existsb NoteCreationTool.isAlnum
                (NoteCreationTool.sanitizeFilename s)
              = Plain.existsb isLetterOrDigit s).
  { now rewrite sanitizeFilename_plain, existsb_trimDash, existsb_squeeze,
      existsb_toLowerCase. }
  split.
  - intros E. rewrite <- H, E. reflexivity.
  - intros E. destruct (sanitizeFilename_shape s) as [E' | E']; [exact E' |].
    rewrite E in H. destruct (slug_nonempty _ E') as (c & t & Et).
    rewrite Et in H, E'. cbn [Plain.existsb] in H.
    rewrite (slug_head _ _ E') in H. discriminate H.
Qed.

Lemma squeeze_noSpace (s : string) (b : bool) :
  Str.forallb (fun c => negb (Str.isSpace c)) (squeeze Str.isSpace "_" b s) = true.
Proof.
  revert b. induction s as [|c s IH]; intros b; [reflexivity |].
  cbn [squeeze]. destruct (Str.isSpace c) eqn:Ec.
  - destruct b; [apply IH |]. cbn [append Str.forallb].
    change (Str.isSpace "_") with false. cbn [negb andb]. apply IH.
  - cbn [Str.forallb]. rewrite Ec. cbn [negb andb]. apply IH.
Qed.

Lemma squeeze_noSlash (s : string) (b : bool) :
  Str.forallb (fun c => negb (Ascii.eqb c "/")) s = true ->
  Str.forallb (fun c => negb (Ascii.eqb c "/")) (squeeze Str.isSpace "_" b s)
  = true.
Proof.
  revert b. induction s as [|c s IH]; intros b H; [reflexivity |].
  cbn [Str.forallb] in H. apply andb_true_iff in H as [Hc H].
  cbn [squeeze]. destruct (Str.isSpace c).
  - destruct b; [now apply IH |]. cbn [append Str.forallb].
    cbn [Ascii.eqb Bool.eqb negb andb]. now apply IH.
  - cbn [Str.forallb]. rewrite Hc. now apply IH.
Qed.

Lemma forallb_concat (p : ascii -> bool) (sep : string) (parts : list string) :
  Str.forallb p sep = true ->
  Forall (fun x => Str.forallb p x = true) parts ->
  Str.forallb p (String.concat sep parts) = true.
Proof.
  intros Hsep H. induction H as [|x [|y l] Hx Hl IH]; [reflexivity | exact Hx |].
  cbn [String.concat] in IH |- *.
  now rewrite !forallb_append, Hx, Hsep, IH.
Qed.

Lemma split_noSep (sep : ascii) (s : string) :
  Forall (fun x => Str.forallb (fun c => negb (Ascii.eqb c sep)) x = true)
    (Str.split sep s).
Proof.
  induction s as [|c s IH]; [repeat constructor |].
  cbn [Str.split]. destruct (Ascii.eqb c sep) eqn:E.
  - constructor; [reflexivity | exact IH].
  - destruct (Str.split sep s) as [|w ws]; [repeat constructor; cbn; now rewrite E |].
    inversion IH as [|? ? Hw Hws]; subst.
    constructor; [| exact Hws]. cbn [Str.forallb]. now rewrite E, Hw.
Qed.

Lemma split_none (sep : ascii) (e : string) :
  Str.forallb (fun c => negb (Ascii.eqb c sep)) e = true ->
  Str.split sep e = [e].
Proof.
  induction e as [|c e IH]; [reflexivity |]. intros H.
  cbn [Str.forallb] in H. apply andb_true_iff in H as [Hc H].
  apply negb_true_iff in Hc. cbn [Str.split]. now rewrite Hc, IH.
Qed.

Lemma split_cons_sep (sep : ascii) (x s : string) :
  Str.forallb (fun c => negb (Ascii.eqb c sep)) x = true ->
  Str.split sep (x ++ String sep s) = x :: Str.split sep s.
Proof.
  induction x as [|c x IH]; intros H.
  - cbn [append Str.split]. now rewrite Ascii.eqb_refl.
  - cbn [Str.forallb] in H. apply andb_true_iff in H as [Hc H].
    apply negb_true_iff in Hc. cbn [append Str.split]. now rewrite Hc, IH.
Qed.

Lemma split_concat (sep : ascii) (parts : list string) :
  parts <> [] ->
  Forall (fun x => Str.forallb (fun c => negb (Ascii.eqb c sep)) x = true) parts ->
  Str.split sep (String.concat (String sep "") parts) = parts.
Proof.
  intros Hne H. induction H as [|x [|y l] Hx Hl IH]; [congruence | |].
  - cbn [String.concat]. now apply split_none.
  - cbn [String.concat] in IH |- *. cbn [append].
    rewrite split_cons_sep by exact Hx. f_equal. apply IH. discriminate.
Qed.

Lemma length_split_append (sep : ascii) (a e : string) :
  Str.forallb (fun c => negb (Ascii.eqb c sep)) e = true ->
  List.length (Str.split sep (a ++ e)) = List.length (Str.split sep a).
Proof.
  intros H. induction a as [|c a IH].
  - cbn [append]. now rewrite split_none.
  - cbn [append Str.split]. destruct (Ascii.eqb c sep).
    + cbn [List.length]. now rewrite IH.
    + destruct (Str.split sep (a ++ e)) as [|w ws] eqn:E1;
        destruct (Str.split sep a) as [|w' ws'] eqn:E2; cbn [List.length] in *;
        congruence.
Qed.

Lemma isMdSuffix_noSlash (e : string) :
  isMdSuffix e = true ->
  Str.forallb (fun c => negb (Ascii.eqb c "/")) e = true.
Proof.
  destruct e as [|c1 [|c2 [|c3 [|c4 e]]]]; try discriminate.
  cbn [isMdSuffix]. intros H.
  apply andb_true_iff in H as [H H3]. apply andb_true_iff in H as [H1 H2].
  apply Ascii.eqb_eq in H1. subst c1.
  assert (L : forall c x, Ascii.eqb (Str.lower c) x = true ->
                          Ascii.eqb x "/" = false -> Ascii.eqb c "/" = false).
  { intros c x Hc Hx. apply Ascii.eqb_eq in Hc. subst x.
    destruct (Ascii.eqb c "/") eqn:E; [| reflexivity].
    apply Ascii.eqb_eq in E. subst c. discriminate Hx. }
  cbn [Str.forallb]. rewrite (L c2 _ H2 eq_refl), (L c3 _ H3 eq_refl).
  reflexivity.
Qed.

Lemma stripMd_suffix (p : string) :
  exists e, p = stripMd p ++ e
            /\ Str.forallb (fun c => negb (Ascii.eqb c "/")) e = true.
Proof.
  induction p as [|c p (e & Hp & He)]; [now exists "" |].
  cbn [stripMd]. destruct (isMdSuffix (String c p)) eqn:E.
  - exists (String c p). split; [reflexivity | now apply isMdSuffix_noSlash].
  - exists e. split; [cbn [append]; now rewrite <- Hp | exact He].
Qed.

Lemma stripMd_app (p e : string) : isMdSuffix e = true -> stripMd (p ++ e) = p.
Proof.
  intros He. induction p as [|c p IH].
  - destruct e as [|c1 e]; [discriminate |]. cbn [append stripMd]. now rewrite He.
  - cbn [append stripMd]. rewrite IH.
    replace (isMdSuffix (String c (p ++ e))) with false; [reflexivity |].
    destruct e as [|c1 [|c2 [|c3 [|c4 e]]]]; try discriminate He.
    destruct p as [|d1 [|d2 [|d3 p]]]; reflexivity.
Qed.

End ShapeFacts.

Module RefFacts.
Import Regex StrFacts RegexFacts LinkFacts Links Doc Refs.

Lemma literal_plain (s : string) : literal s = true -> plainReplacement s = true.
Proof.
  unfold literal, plainReplacement. induction s as [|c s IH]; [reflexivity |].
  cbn [Str.forallb]. intros H. apply andb_true_iff in H as [Hc H].
  rewrite (IH H), andb_true_r.
  destruct (Ascii.eqb c "$") eqn:E; [| reflexivity].
  apply Ascii.eqb_eq in E. subst c. discriminate Hc.
Qed.

Lemma literal_targetOk (s : string) : literal s = true -> targetOk s = true.
Proof.
  unfold literal, targetOk. induction s as [|c s IH]; [reflexivity |].
  cbn [Str.forallb]. intros H. apply andb_true_iff in H as [Hc H].
  rewrite (IH H), andb_true_r. apply negb_true_iff in Hc.
  destruct (syntaxChar_brackets c Hc) as (H1 & H2 & H3).
  unfold isOpen, isClose, isBar.
  rewrite !(proj2 (Ascii.eqb_neq _ _)) by assumption. reflexivity.
Qed.

Lemma retarget_wellFormed (old new : string) (gs : list segment) :
  targetOk new = true -> wellFormed gs = true ->
  wellFormed (map (retarget old new) gs) = true.
Proof.
  intros Hn. unfold wellFormed. induction gs as [|g gs IH]; [reflexivity |].
  cbn [forallb map]. intros H. apply andb_true_iff in H as [Hg H].
  rewrite (IH H), andb_true_r.
  destruct g as [t | tg al]; [exact Hg |]. cbn [retarget].
  destruct (String.eqb tg old); [| exact Hg].
  destruct al as [a|]; cbn [segmentOk] in *.
  - apply andb_true_iff in Hg as [_ Ha]. now rewrite Hn, Ha.
  - exact Hn.
Qed.

Lemma retarget_back (old new : string) (gs : list segment) :
  map (retarget new old) (map (retarget old new) gs) = map (retarget new old) gs.
Proof.
  rewrite map_map. apply map_ext. intros [t | tg al]; [reflexivity |].
  cbn [retarget]. destruct (String.eqb tg old) eqn:E1.
  - apply String.eqb_eq in E1. subst tg. cbn [retarget].
    rewrite String.eqb_refl. destruct (String.eqb old new); reflexivity.
  - reflexivity.
Qed.

Lemma retarget_none (old new : string) (gs : list segment) :
  forallb (fun g => negb (refersTo old g)) gs = true ->
  map (retarget old new) gs = gs.
Proof.
  induction gs as [|g gs IH]; [reflexivity |].
  cbn [forallb map]. intros H. apply andb_true_iff in H as [Hg H].
  rewrite (IH H). f_equal. destruct g as [t | tg al]; [reflexivity |].
  cbn [retarget refersTo] in *. apply negb_true_iff in Hg. now rewrite Hg.
Qed.

Lemma linkFile_frame (rw : string -> option string) (file : string) (w : world) :
  sameOutside [file] w (snd (linkFile rw file w))
  /\ (forall a, fst (linkFile rw file w) = Ok a ->
                console (snd (linkFile rw file w)) = console w).
Proof.
  unfold linkFile, bind, Fs.readFile.
  destruct (Fs.lookup file (files w)) as [f|] eqn:Ef;
    [| split; [split; reflexivity | reflexivity]].
  destruct (canRead f); [| split; [split; reflexivity | reflexivity]].
  destruct (rw (text f)) as [u|]; [| split; [split; reflexivity | reflexivity]].
  destruct (String.eqb (text f) u); [split; [split; reflexivity | reflexivity] |].
  unfold Fs.writeFile. rewrite Ef.
  destruct (canWrite f); [| split; [split; reflexivity | reflexivity]].
  unfold sameOutside. cbn [snd fst files console].
  split; [| reflexivity]. split.
  - rewrite FsFacts.keys_store.
    assert (H : existsb (String.eqb file) (map fst (files w)) = true).
    { apply FsFacts.existsb_eqb_In, FsFacts.lookup_In. now exists f. }
    now rewrite H.
  - intros q Hq. apply FsFacts.lookup_store_other. intros ->. apply Hq. now left.
Qed.

Lemma forOf_frame (rw : string -> option string) (ps : list string) :
  forall w, sameOutside ps w (snd (forOf (linkFile rw) ps w)).
Proof.
  induction ps as [|p ps IH]; intros w; [split; reflexivity |].
  cbn [forOf]. unfold bind.
  destruct (linkFile_frame rw p w) as [[Hk Hl] _].
  destruct (linkFile rw p w) as [[[]| e |] w1] eqn:E; cbn [snd] in *.
  - destruct (IH w1) as [Hk' Hl']. split.
    + now rewrite Hk'.
    + intros q Hq. rewrite Hl' by (intros H; apply Hq; now right).
      apply Hl. intros [-> | []]. apply Hq. now left.
  - split; [exact Hk |]. intros q Hq. apply Hl. intros [-> | []].
    apply Hq. now left.
  - split; [exact Hk |]. intros q Hq. apply Hl. intros [-> | []].
    apply Hq. now left.
Qed.

Lemma forOf_noErr_log (rw : string -> option string) (ps : list string) (w : world) :
  let r := tryCatch (forOf (linkFile rw) ps) (fun e => Fs.log e) w in
  (forall e, fst r <> Err e) /\ sameOutside ps w (snd r).
Proof.
  cbv zeta. unfold tryCatch.
  pose proof (forOf_frame rw ps w) as H.
  destruct (forOf (linkFile rw) ps w) as [[[]| e |] w1]; cbn [snd fst] in *.
  - split; [discriminate | exact H].
  - split; [discriminate | exact H].
  - split; [discriminate | exact H].
Qed.


(** A loop whose rewrite is inside the modelled fragment stays there. *)
Lemma forOf_inside (rw : string -> option string) (ps : list string) :
  (forall t, rw t <> None) ->
  forall w, fst (forOf (linkFile rw) ps w) <> Beyond.
Proof.
  intros Hrw. induction ps as [|p ps IH]; intros w; [discriminate |].
  cbn [forOf]. unfold bind.
  destruct (linkFile rw p w) as [[[]| e |] w1] eqn:E; cbn [fst].
  - apply IH.
  - discriminate.
  - exfalso. revert E.
    unfold linkFile, bind, Fs.readFile, Fs.writeFile, ret, beyond.
    destruct (Fs.lookup p (files w)) as [f|] eqn:Ef; [| discriminate].
    destruct (canRead f); [| discriminate].
    destruct (rw (text f)) as [u|] eqn:Eu; [| now destruct (Hrw (text f))].
    destruct (String.eqb (text f) u); [discriminate |].
    rewrite Ef. destruct (canWrite f); discriminate.
Qed.

(** The whole link update: the listing, the loop, and the catch. *)
Lemma update_frame (rw : string -> option string) (vault : string) (w : world) :
  let r := tryCatch (files <- Fs.getAllMarkdownFiles vault ;;
                     forOf (linkFile rw) files)
             (fun e => Fs.log e) w in
  (forall e, fst r <> Err e)
  /\ sameOutside (World.notesOf vault w) w (snd r)
  /\ ((forall t, rw t <> None) -> fst r = Ok tt).
Proof.
  cbv zeta. unfold tryCatch, bind.
  destruct (String.eqb vault "") eqn:Ev.
  { apply String.eqb_eq in Ev. subst vault. cbn.
    split; [discriminate |]. split; [split; reflexivity | reflexivity]. }
  apply String.eqb_neq in Ev.
  rewrite (FsFacts.getAllMarkdownFiles_run vault w Ev).
  pose proof (forOf_frame rw (World.notesOf vault w) w) as H.
  pose proof (fun Hrw => forOf_inside rw (World.notesOf vault w) Hrw w) as Hin.
  destruct (forOf (linkFile rw) (World.notesOf vault w) w) as [[[]| e |] w1];
    cbn [snd fst] in *.
  - split; [discriminate |]. split; [exact H | reflexivity].
  - split; [discriminate |]. split; [exact H | reflexivity].
  - split; [discriminate |]. split; [exact H |].
    intros Hrw. now destruct (Hin Hrw).
Qed.




End RefFacts.

Module MoveFacts.
Import World FsFacts.

(** What a move that succeeds has done. *)
Lemma move_run (d : Deps) (vault : string)
  (params : NoteMoveAndRenameTool.NoteMoveParams) (w w' : world)
  (note : Types.Note) :
  NoteMoveAndRenameTool.execute d vault params w = (Ok note, w') ->
  let src := Path.join [vault; NoteMoveAndRenameTool.sourcePath params] in
  let dst := Path.join [vault; NoteMoveAndRenameTool.destinationPath params] in
  exists raw fm body data r,
    let fm' := NoteMoveAndRenameTool.updatedFrontmatter fm
                 (NoteMoveAndRenameTool.newTitle params)
                 (clock d (clockReads w)) in
    textAt src w = Some raw
    /\ matter d raw = Some (fm, body)
    /\ stringify d body fm' = Some data
    /\ (if match NoteMoveAndRenameTool.updateLinks params with
            | Some b => b
            | None => true
            end
        then NoteMoveAndRenameTool.updateLinksInVault vault
               (NoteMoveAndRenameTool.sourcePath params)
               (NoteMoveAndRenameTool.destinationPath params)
        else ret tt)
         (mkWorld (Fs.remove src (Fs.store dst (mkFile data r true) (files w)))
            (dst :: written w) (console w) (S (clockReads w)))
       = (Ok tt, w')
    /\ Types.path note = dst
    /\ Types.content note = body
    /\ Types.frontmatter note = fm'.
Proof.
  intros H src dst. unfold NoteMoveAndRenameTool.execute in H.
  apply tryCatch_rethrow_ok in H.
  apply bind_ok in H as (raw & w1 & Hread & H).
  apply readFile_ok in Hread as [-> Hraw].
  apply bind_ok in H as ([fm body] & w1 & Hparse & H).
  apply parseNote_ok in Hparse as [-> Hparse].
  apply bind_ok in H as (modified & w1 & Hnow & H).
  unfold now in Hnow. injection Hnow as <- <-.
  apply bind_ok in H as (u1 & w1 & Hmkdir & H).
  apply mkdir_ok in Hmkdir as ->.
  apply bind_ok in H as (data & w1 & Hprint & H).
  apply printNote_ok in Hprint as [-> Hprint].
  apply bind_ok in H as (u2 & w1 & Hwrite & H).
  apply writeFile_ok in Hwrite as (r & -> & Hr).
  apply bind_ok in H as (u3 & w1 & Hunlink & H).
  apply unlink_ok in Hunlink as ->.
  apply bind_ok in H as (u4 & w1 & Hlinks & H).
  unfold ret in H. injection H as <- <-.
  exists raw, fm, body, data, r. cbv zeta. cbn [fst snd] in *.
  split; [exact Hraw |]. split; [exact Hparse |]. split; [exact Hprint |].
  split; [| repeat split].
  cbn [files written console clockReads] in Hlinks.
  destruct u4. exact Hlinks.
Qed.

Lemma notesOf_In (vault q : string) (w : world) :
  In q (notesOf vault w) -> exists f, Fs.lookup q (files w) = Some f.
Proof.
  unfold notesOf. intros H. apply filter_In in H as [H _].
  now apply lookup_In.
Qed.




End MoveFacts.

Module NoteFacts.
Import World FsFacts Notes.

Lemma get_spread_other (k : string) (a b : FrontMatter) :
  ~ In k (map fst b) -> Fm.get k (Fm.spread a b) = Fm.get k a.
Proof.
  unfold Fm.spread. revert a. induction b as [|[k' v'] b IH]; intros a H.
  - reflexivity.
  - cbn [fold_left fst snd]. rewrite IH by (intros Hin; apply H; now right).
    apply TagFacts.get_set_other. intros ->. apply H. now left.
Qed.

Lemma get_spread_in (k : string) (v : value) (a b : FrontMatter) :
  NoDup (map fst b) -> In (k, v) b -> Fm.get k (Fm.spread a b) = v.
Proof.
  unfold Fm.spread. revert a. induction b as [|[k' v'] b IH]; intros a Hnd Hin.
  - destruct Hin.
  - cbn [map fst] in Hnd. inversion Hnd as [|? ? Hnotin Hnd']; subst.
    cbn [fold_left fst snd]. destruct Hin as [E | Hin].
    + injection E as -> ->.
      change (fold_left (fun acc kv => Fm.set (fst kv) (snd kv) acc) b
                (Fm.set k v a))
        with (Fm.spread (Fm.set k v a) b).
      rewrite get_spread_other by exact Hnotin. apply TagFacts.get_set_same.
    + now apply IH.
Qed.

(** What an update that succeeds has done. *)
Lemma update_run (d : Deps) (vault : string)
  (params : NoteUpdateTool.NoteUpdateParams) (w w' : world)
  (upd : NoteUpdateTool.Updated) :
  NoteUpdateTool.execute d vault params w = (Ok upd, w') ->
  let p := Path.join [vault; NoteUpdateTool.notePath params] in
  exists raw existing body data r,
    let fm := NoteUpdateTool.updatedFrontmatter existing params
                (clock d (clockReads w)) in
    let updatedContent :=
      if Fm.given (NoteUpdateTool.content params)
      then match NoteUpdateTool.content params with Some c => c | None => "" end
      else body in
    textAt p w = Some raw
    /\ matter d raw = Some (existing, body)
    /\ stringify d updatedContent fm = Some data
    /\ w' = mkWorld (Fs.store p (mkFile data r true) (files w))
              (p :: written w) (console w) (S (clockReads w))
    /\ upd = NoteUpdateTool.mkUpdated (NoteUpdateTool.notePath params)
               (Fm.get "title" fm) updatedContent fm.
Proof.
  intros H p. unfold NoteUpdateTool.execute in H.
  apply tryCatch_rethrow_ok in H.
  apply bind_ok in H as (raw & w0 & Hread & H).
  apply readFile_ok in Hread as [-> Hraw].
  apply bind_ok in H as ([existing body] & w0 & Hparse & H).
  apply parseNote_ok in Hparse as [-> Hparse].
  apply bind_ok in H as (modified & w0 & Hnow & H).
  unfold now in Hnow. injection Hnow as <- <-.
  apply bind_ok in H as (data & w0 & Hprint & H).
  apply printNote_ok in Hprint as [-> Hprint].
  apply bind_ok in H as (u & w0 & Hwrite & H).
  apply writeFile_ok in Hwrite as (r & -> & _).
  unfold ret in H. injection H as <- <-.
  cbn [fst snd files written console clockReads] in *.
  exists raw, existing, body, data, r. cbv zeta.
  repeat split; assumption.
Qed.

(** The step of a creation that chooses the content. *)
Lemma template_step (vault : string)
  (params : NoteCreationTool.NoteCreationParams) (w : world) :
  (if Fm.given (NoteCreationTool.template params)
   then tryCatch (Fs.readFile (templatePath vault params))
          (fun _ => Fs.log (NoteCreationTool.templateWarning params) ;;;
                    ret (match NoteCreationTool.content params with
                         | Some c => c | None => "" end))
   else ret (match NoteCreationTool.content params with
             | Some c => c | None => "" end)) w
  = (Ok (createdContent vault params w),
     mkWorld (files w) (written w)
       (if Fm.given (NoteCreationTool.template params)
           && negb (readable (templatePath vault params) w)
        then NoteCreationTool.templateWarning params :: console w
        else console w)
       (clockReads w)).
Proof.
  unfold createdContent, readable. fold (templatePath vault params).
  destruct (Fm.given (NoteCreationTool.template params)); cbn [andb].
  - unfold tryCatch, Fs.readFile, bind, Fs.log, ret.
    destruct (Fs.lookup (templatePath vault params) (files w)) as [f|].
    + destruct (canRead f); cbn [negb]; [now destruct w | reflexivity].
    + reflexivity.
  - unfold ret. now destruct w.
Qed.

(** What a creation that succeeds has done. *)
Lemma create_run (d : Deps) (vault : string)
  (params : NoteCreationTool.NoteCreationParams) (w w' : world)
  (note : Types.Note) :
  NoteCreationTool.execute d vault params w = (Ok note, w') ->
  let p := NoteCreationTool.filePath vault params in
  let fm := NoteCreationTool.finalFrontmatter params
              (clock d (clockReads w)) (clock d (S (clockReads w))) in
  exists data r,
    stringify d (createdContent vault params w) fm = Some data
    /\ w' = mkWorld (Fs.store p (mkFile data r true) (files w))
              (p :: written w)
              (if Fm.given (NoteCreationTool.template params)
                  && negb (readable (templatePath vault params) w)
               then NoteCreationTool.templateWarning params :: console w
               else console w)
              (S (S (clockReads w)))
    /\ note = Types.mkNote p (VStr (NoteCreationTool.title params))
                (createdContent vault params w) fm
                (VArr (match NoteCreationTool.tags params with
                       | Some l => l | None => [] end)).
Proof.
  intros H p fm. unfold NoteCreationTool.execute in H.
  apply tryCatch_rethrow_ok in H.
  apply bind_ok in H as (u & w0 & Hmkdir & H).
  apply mkdir_ok in Hmkdir as ->.
  apply bind_ok in H as (noteContent & w0 & Hstep & H).
  fold (templatePath vault params) in Hstep.
  rewrite template_step in Hstep. injection Hstep as <- <-.
  apply bind_ok in H as (created & w0 & Hnow & H).
  unfold now in Hnow. injection Hnow as <- <-.
  apply bind_ok in H as (modified & w0 & Hnow & H).
  unfold now in Hnow. injection Hnow as <- <-.
  apply bind_ok in H as (data & w0 & Hprint & H).
  apply printNote_ok in Hprint as [-> Hprint].
  apply bind_ok in H as (u2 & w0 & Hwrite & H).
  apply writeFile_ok in Hwrite as (r & -> & _).
  unfold ret in H. injection H as <- <-.
  cbn [files written console clockReads] in *.
  exists data, r. repeat split. exact Hprint.
Qed.

Lemma remove_absent (p : string) (fs : list (string * file)) :
  Fs.lookup p fs = None -> Fs.remove p fs = fs.
Proof.
  unfold Fs.lookup, Fs.remove. induction fs as [|[q g] fs IH]; [reflexivity |].
  cbn [find filter fst]. destruct (String.eqb q p); [discriminate |].
  intros H. cbn [negb]. now rewrite IH.
Qed.

Lemma remove_store_absent (p : string) (f : file) (fs : list (string * file)) :
  Fs.lookup p fs = None -> Fs.remove p (Fs.store p f fs) = fs.
Proof.
  unfold Fs.lookup, Fs.remove. induction fs as [|[q g] fs IH].
  - intros _. cbn [Fs.store filter fst]. now rewrite String.eqb_refl.
  - cbn [find Fs.store fst]. destruct (String.eqb q p) eqn:E; [discriminate |].
    intros H. cbn [filter fst]. rewrite E. cbn [negb]. now rewrite IH.
Qed.

End NoteFacts.

Module TagRunFacts.
Import World FsFacts TagFacts Notes Tags.

Lemma readFile_file (p : string) (w w1 : world) (raw : string) :
  Fs.readFile p w = (Ok raw, w1) ->
  w1 = w /\ exists f, Fs.lookup p (files w) = Some f
                      /\ canRead f = true /\ text f = raw.
Proof.
  unfold Fs.readFile. destruct (Fs.lookup p (files w)) as [f|]; [| discriminate].
  destruct (canRead f) eqn:E; [| discriminate].
  intros H. injection H as <- <-. split; [reflexivity |]. now exists f.
Qed.

(** One turn of a tag loop that ends normally. *)
Lemma processFile_run (d : Deps) (vault : string)
  (change : list string -> option (list string)) (file : string)
  (w w1 : world) (b : bool) :
  TagManagementTool.processFile d vault change file w = (Ok b, w1) ->
  let p := Path.join [vault; file] in
  exists f fm body,
    Fs.lookup p (files w) = Some f
    /\ canRead f = true
    /\ matter d (text f) = Some (fm, body)
    /\ match change (TagManagementTool.tagsOf fm) with
       | Some tags' =>
           exists data,
             stringify d body
               (TagManagementTool.updatedFrontmatter fm tags'
                  (clock d (clockReads w))) = Some data
             /\ w1 = mkWorld (Fs.store p (mkFile data true true) (files w))
                       (p :: written w) (console w) (S (clockReads w))
             /\ b = true
       | None => w1 = w /\ b = false
       end.
Proof.
  intros H p. unfold TagManagementTool.processFile in H. fold p in H.
  apply bind_ok in H as (raw & w0 & Hread & H).
  apply readFile_file in Hread as [-> (f & Hf & Hr & <-)].
  apply bind_ok in H as ([fm body] & w0 & Hparse & H).
  apply parseNote_ok in Hparse as [-> Hparse].
  exists f, fm, body. split; [exact Hf |]. split; [exact Hr |].
  split; [exact Hparse |]. cbn [fst snd] in H.
  destruct (change (TagManagementTool.tagsOf fm)) as [tags'|].
  - apply bind_ok in H as (modified & w0 & Hnow & H).
    unfold now in Hnow. injection Hnow as <- <-.
    apply bind_ok in H as (data & w0 & Hprint & H).
    apply printNote_ok in Hprint as [-> Hprint].
    apply bind_ok in H as (u & w0 & Hwrite & H).
    apply writeFile_ok in Hwrite as (r & -> & Hrd).
    cbn [files] in Hrd. rewrite Hf, Hr in Hrd. subst r.
    unfold ret in H. injection H as <- <-.
    exists data. cbn [files written console clockReads].
    repeat split; assumption || reflexivity.
  - unfold ret in H. injection H as <- <-. now split.
Qed.

Lemma touched_ext (d : Deps) (change : list string -> option (list string))
  (w w1 : world) (q : string) :
  Fs.lookup q (files w1) = Fs.lookup q (files w) ->
  touched d change w1 q = touched d change w q.
Proof.
  intros H. unfold touched, tagsAt, parsedAt.
  now rewrite (textAt_lookup q w w1 H).
Qed.

(** A tag loop that ends normally, over notes that are listed by the
    path they are read at. *)
Lemma processFiles_run (d : Deps) (vault : string)
  (change : list string -> option (list string)) (ps : list string) :
  RoundTrip d -> NoDup ps ->
  (forall p, In p ps -> Path.join [vault; p] = p) ->
  forall w notes w',
    TagManagementTool.processFiles d vault change ps w = (Ok notes, w') ->
    notes = filter (touched d change w) ps
    /\ map fst (files w') = map fst (files w)
    /\ (forall q, ~ In q notes -> Fs.lookup q (files w') = Fs.lookup q (files w))
    /\ (forall p, In p ps ->
          exists fm body,
            parsedAt d p w = Some (fm, body)
            /\ readable p w' = true
            /\ match change (TagManagementTool.tagsOf fm) with
               | Some tags' =>
                   exists t,
                     parsedAt d p w'
                     = Some (TagManagementTool.updatedFrontmatter fm tags' t, body)
               | None => True
               end)
    /\ written w' = (rev notes ++ written w)%list
    /\ console w' = console w
    /\ clockReads w' = List.length notes + clockReads w.
Proof.
  intros Hrt Hnd. induction Hnd as [|p ps Hnotin Hnd IH]; intros Hjoin w notes w' H.
  - cbn in H. injection H as <- <-. repeat split; try reflexivity. intros p [].
  - cbn [TagManagementTool.processFiles] in H.
    apply bind_ok in H as (b & w1 & Hstep & H).
    apply bind_ok in H as (rest & w2 & Hrest & H).
    unfold ret in H. injection H as <- <-.
    destruct (IH (fun q Hq => Hjoin q (or_intror Hq)) w1 rest w2 Hrest)
      as (IHnotes & IHkeys & IHout & IHin & IHwr & IHcons & IHclock).
    apply processFile_run in Hstep as (f & fm & body & Hf & Hr & Hparse & Hch).
    rewrite (Hjoin p (or_introl eq_refl)) in Hf, Hch.
    assert (Hpars : parsedAt d p w = Some (fm, body)).
    { unfold parsedAt, textAt. now rewrite Hf. }
    assert (Htouched : touched d change w p
                       = match change (TagManagementTool.tagsOf fm) with
                         | Some _ => true | None => false end).
    { unfold touched, tagsAt. now rewrite Hpars. }
    assert (Hother : forall q, q <> p ->
                               Fs.lookup q (files w1) = Fs.lookup q (files w)).
    { intros q Hq. destruct (change (TagManagementTool.tagsOf fm)).
      - destruct Hch as (data & _ & -> & _). cbn [files].
        now apply lookup_store_other.
      - now destruct Hch as [-> _]. }
    assert (Ht : forall q, q <> p -> textAt q w1 = textAt q w).
    { intros q Hq. now apply textAt_lookup, Hother. }
    assert (Hrest_notin : ~ In p rest).
    { rewrite IHnotes. intros Hin. apply filter_In in Hin as [Hin _].
      contradiction. }
    assert (Hfilter : filter (touched d change w1) ps
                      = filter (touched d change w) ps).
    { apply filter_ext_in. intros q Hq. apply touched_ext, Hother.
      intros ->. contradiction. }
    assert (Hp_after : Fs.lookup p (files w2) = Fs.lookup p (files w1))
      by (apply IHout; exact Hrest_notin).
    cbn [filter]. rewrite Htouched, <- Hfilter, <- IHnotes.
    destruct (change (TagManagementTool.tagsOf fm)) as [tags'|] eqn:Ech.
    + destruct Hch as (data & Hprint & -> & ->).
      cbn [files written console clockReads] in *.
      split; [reflexivity |].
      split.
      { rewrite IHkeys, keys_store.
        assert (E : existsb (String.eqb p) (map fst (files w)) = true).
        { apply existsb_eqb_In, lookup_In. now exists f. }
        now rewrite E. }
      split.
      { intros q Hq. rewrite IHout by (intros Hin; apply Hq; now right).
        apply lookup_store_other. intros ->. apply Hq. now left. }
      split.
      { intros q [<- | Hq].
        - exists fm, body. split; [exact Hpars |]. rewrite Ech.
          unfold readable, parsedAt, textAt. rewrite Hp_after, lookup_store_same.
          cbn [canRead text]. split; [reflexivity |].
          exists (clock d (clockReads w)). now apply Hrt.
        - destruct (IHin q Hq) as (fm' & body' & Hp1 & Hrd & Hp2).
          exists fm', body'. split; [| split; [exact Hrd | exact Hp2]].
          rewrite <- Hp1. unfold parsedAt.
          rewrite Ht; [reflexivity | intros ->; contradiction]. }
      split.
      { rewrite IHwr. cbn [rev]. now rewrite <- app_assoc. }
      split; [exact IHcons |].
      rewrite IHclock. cbn [List.length]. lia.
    + destruct Hch as [-> ->].
      split; [reflexivity |].
      split; [exact IHkeys |].
      split; [exact IHout |].
      split.
      { intros q [<- | Hq].
        - exists fm, body. split; [exact Hpars |]. rewrite Ech.
          unfold readable. rewrite Hp_after, Hf. split; [exact Hr | exact I].
        - exact (IHin q Hq). }
      split; [exact IHwr |]. split; [exact IHcons | exact IHclock].
Qed.

(** A tag loop that ends normally, over notes that are read at distinct
    places: which notes it reports, what it leaves at the place of each,
    and what it leaves alone. *)
Lemma processFiles_at (d : Deps) (vault : string)
  (change : list string -> option (list string)) (ps : list string) :
  RoundTrip d -> NoDup (map (fullPath vault) ps) ->
  forall w notes w',
    TagManagementTool.processFiles d vault change ps w = (Ok notes, w') ->
    notes = filter (fun p => touched d change w (fullPath vault p)) ps
    /\ map fst (files w') = map fst (files w)
    /\ (forall q, ~ In q (map (fullPath vault) notes) ->
                  Fs.lookup q (files w') = Fs.lookup q (files w))
    /\ (forall p, In p ps ->
          exists fm body,
            parsedAt d (fullPath vault p) w = Some (fm, body)
            /\ readable (fullPath vault p) w' = true
            /\ match change (TagManagementTool.tagsOf fm) with
               | Some tags' =>
                   exists i,
                     clockReads w <= i < clockReads w'
                     /\ parsedAt d (fullPath vault p) w'
                        = Some (TagManagementTool.updatedFrontmatter fm tags'
                                  (clock d i), body)
               | None => True
               end)
    /\ written w' = (rev (map (fullPath vault) notes) ++ written w)%list
    /\ console w' = console w
    /\ clockReads w' = List.length notes + clockReads w.
Proof.
  intros Hrt. induction ps as [|p ps IH]; intros Hnd w notes w' H.
  - cbn in H. injection H as <- <-. repeat split; try reflexivity. intros p [].
  - cbn [map] in Hnd. inversion Hnd as [|? ? Hnotin Hnd']; subst.
    cbn [TagManagementTool.processFiles] in H.
    apply bind_ok in H as (b & w1 & Hstep & H).
    apply bind_ok in H as (rest & w2 & Hrest & H).
    unfold ret in H. injection H as <- <-.
    destruct (IH Hnd' w1 rest w2 Hrest)
      as (IHnotes & IHkeys & IHout & IHin & IHwr & IHcons & IHclock).
    apply processFile_run in Hstep as (f & fm & body & Hf & Hr & Hparse & Hch).
    fold (fullPath vault p) in Hf, Hch.
    set (P := fullPath vault p) in *.
    assert (Hpars : parsedAt d P w = Some (fm, body)).
    { unfold parsedAt, textAt. now rewrite Hf. }
    assert (Htouched : touched d change w P
                       = match change (TagManagementTool.tagsOf fm) with
                         | Some _ => true | None => false end).
    { unfold touched, tagsAt. now rewrite Hpars. }
    assert (Hother : forall q, q <> P ->
                               Fs.lookup q (files w1) = Fs.lookup q (files w)).
    { intros q Hq. destruct (change (TagManagementTool.tagsOf fm)).
      - destruct Hch as (data & _ & -> & _). cbn [files].
        now apply lookup_store_other.
      - now destruct Hch as [-> _]. }
    assert (Ht : forall q, q <> P -> textAt q w1 = textAt q w).
    { intros q Hq. now apply textAt_lookup, Hother. }
    assert (Hrest_notin : ~ In P (map (fullPath vault) rest)).
    { rewrite IHnotes. intros Hin. apply in_map_iff in Hin as (x & Hx & Hin).
      apply filter_In in Hin as [Hin _]. apply Hnotin.
      apply in_map_iff. now exists x. }
    assert (Hfilter : filter (fun q => touched d change w1 (fullPath vault q)) ps
                      = filter (fun q => touched d change w (fullPath vault q)) ps).
    { apply filter_ext_in. intros q Hq. apply touched_ext, Hother.
      intros E. apply Hnotin. apply in_map_iff. now exists q. }
    assert (Hp_after : Fs.lookup P (files w2) = Fs.lookup P (files w1))
      by (apply IHout; exact Hrest_notin).
    assert (Hclock1 : clockReads w <= clockReads w1).
    { destruct (change (TagManagementTool.tagsOf fm)).
      - destruct Hch as (data & _ & -> & _). cbn [clockReads]. lia.
      - destruct Hch as [-> _]. lia. }
    assert (Htail : forall q, In q ps ->
              exists fm' body',
                parsedAt d (fullPath vault q) w = Some (fm', body')
                /\ readable (fullPath vault q) w2 = true
                /\ match change (TagManagementTool.tagsOf fm') with
                   | Some tags' =>
                       exists i,
                         clockReads w <= i < clockReads w2
                         /\ parsedAt d (fullPath vault q) w2
                            = Some (TagManagementTool.updatedFrontmatter fm' tags'
                                      (clock d i), body')
                   | None => True
                   end).
    { intros q Hq. destruct (IHin q Hq) as (fm' & body' & Hp1 & Hrd & Hp2).
      exists fm', body'. split; [| split; [exact Hrd |]].
      - rewrite <- Hp1. unfold parsedAt. rewrite Ht; [reflexivity |].
        intros E. apply Hnotin. apply in_map_iff. now exists q.
      - destruct (change (TagManagementTool.tagsOf fm')); [| exact I].
        destruct Hp2 as (i & Hi & Hp2). exists i. split; [lia | exact Hp2]. }
    cbn [filter]. fold P. rewrite Htouched, <- Hfilter, <- IHnotes.
    destruct (change (TagManagementTool.tagsOf fm)) as [tags'|] eqn:Ech.
    + destruct Hch as (data & Hprint & -> & ->).
      cbn [files written console clockReads] in *.
      split; [reflexivity |].
      split.
      { rewrite IHkeys, keys_store.
        assert (E : existsb (String.eqb P) (map fst (files w)) = true).
        { apply existsb_eqb_In, lookup_In. now exists f. }
        now rewrite E. }
      split.
      { intros q Hq. cbn [map] in Hq.
        rewrite IHout by (intros Hin; apply Hq; now right).
        apply lookup_store_other. intros ->. apply Hq. now left. }
      split.
      { intros q [<- | Hq]; [| exact (Htail q Hq)].
        exists fm, body. split; [exact Hpars |]. rewrite Ech. fold P.
        unfold readable, parsedAt, textAt. rewrite Hp_after, lookup_store_same.
        cbn [canRead text]. split; [reflexivity |].
        exists (clockReads w). split; [lia |]. now apply Hrt. }
      split.
      { rewrite IHwr. cbn [map rev]. fold P. now rewrite <- app_assoc. }
      split; [exact IHcons |].
      rewrite IHclock. cbn [List.length]. lia.
    + destruct Hch as [-> ->].
      split; [reflexivity |].
      split; [exact IHkeys |].
      split; [exact IHout |].
      split.
      { intros q [<- | Hq]; [| exact (Htail q Hq)].
        exists fm, body. split; [exact Hpars |]. rewrite Ech. fold P.
        unfold readable. rewrite Hp_after, Hf. split; [exact Hr | exact I]. }
      split; [exact IHwr |]. split; [exact IHcons | exact IHclock].
Qed.





End TagRunFacts.

Module TagOpFacts.
Import World FsFacts TagFacts Notes Tags TagRunFacts.

(** The tag sets after a tag loop that ends normally. *)
Lemma processFiles_tags (d : Deps) (vault : string)
  (change : list string -> option (list string)) (ps : list string)
  (w w1 : world) (notes : list string) :
  RoundTrip d -> NoDup ps ->
  (forall p, In p ps -> Path.join [vault; p] = p) ->
  (forall T T', NoDup T -> change T = Some T' -> NoDup T') ->
  TagManagementTool.processFiles d vault change ps w = (Ok notes, w1) ->
  forall p, In p ps ->
    exists T,
      tagsAt d p w = Some T
      /\ tagsAt d p w1
         = Some (match change T with Some T' => T' | None => T end)
      /\ readable p w1 = true
      /\ (In p notes <-> change T <> None).
Proof.
  intros Hrt Hnd Hjoin Hch Hrun p Hp.
  destruct (processFiles_run d vault change ps Hrt Hnd Hjoin w notes w1 Hrun)
    as (Hnotes & _ & Hout & Hin & _).
  destruct (Hin p Hp) as (fm & body & Hpars & Hrd & Hafter).
  exists (TagManagementTool.tagsOf fm).
  assert (Ht : tagsAt d p w = Some (TagManagementTool.tagsOf fm))
    by (unfold tagsAt; now rewrite Hpars).
  split; [exact Ht |].
  assert (Hmem : In p notes <-> change (TagManagementTool.tagsOf fm) <> None).
  { rewrite Hnotes, filter_In. unfold touched. rewrite Ht.
    destruct (change (TagManagementTool.tagsOf fm)); split.
    - discriminate.
    - intros _. now split.
    - intros [_ H]. discriminate H.
    - congruence. }
  split; [| split; [exact Hrd | exact Hmem]].
  destruct (change (TagManagementTool.tagsOf fm)) as [T'|] eqn:E.
  - destruct Hafter as (t & Hafter). unfold tagsAt. rewrite Hafter.
    f_equal. apply tagsOf_updated.
    exact (Hch _ _ (tagsOf_NoDup fm) E).
  - assert (Hsame : Fs.lookup p (files w1) = Fs.lookup p (files w)).
    { apply Hout. intros H. apply Hmem in H. congruence. }
    unfold tagsAt, parsedAt. rewrite (textAt_lookup p w w1 Hsame).
    unfold tagsAt, parsedAt in Ht. exact Ht.
Qed.

Lemma kinds_NoDup_add (tag : string) (T T' : list string) :
  NoDup T -> TagManagementTool.addChange tag T = Some T' -> NoDup T'.
Proof.
  apply (change_NoDup (TagManagementTool.addChange tag)). left. now exists tag.
Qed.

Lemma kinds_NoDup_remove (tag : string) (T T' : list string) :
  NoDup T -> TagManagementTool.removeChange tag T = Some T' -> NoDup T'.
Proof.
  apply (change_NoDup (TagManagementTool.removeChange tag)).
  right. left. now exists tag.
Qed.

Lemma kinds_NoDup_rename (old new : string) (T T' : list string) :
  NoDup T -> TagManagementTool.renameChange old new T = Some T' -> NoDup T'.
Proof.
  apply (change_NoDup (TagManagementTool.renameChange old new)).
  right. right. now exists old, new.
Qed.

(** A tag loop over notes none of which the change applies to does
    nothing. *)
Lemma processFiles_noop (d : Deps) (vault : string)
  (change : list string -> option (list string)) (ps : list string)
  (w : world) :
  (forall p, In p ps ->
     exists f fm body,
       Fs.lookup (Path.join [vault; p]) (files w) = Some f
       /\ canRead f = true
       /\ matter d (text f) = Some (fm, body)
       /\ change (TagManagementTool.tagsOf fm) = None) ->
  TagManagementTool.processFiles d vault change ps w = (Ok [], w).
Proof.
  induction ps as [|p ps IH]; intros H; [reflexivity |].
  cbn [TagManagementTool.processFiles].
  destruct (H p (or_introl eq_refl)) as (f & fm & body & Hf & Hr & Hm & Hc).
  unfold bind at 1. unfold TagManagementTool.processFile, bind, Fs.readFile,
    parseNote.
  rewrite Hf, Hr, Hm. unfold ret at 1. cbn [fst snd]. rewrite Hc.
  unfold ret at 1. rewrite IH by (intros q Hq; apply H; now right).
  reflexivity.
Qed.

Lemma readable_parsed (d : Deps) (p : string) (w : world)
  (fm : FrontMatter) (body : string) :
  readable p w = true -> parsedAt d p w = Some (fm, body) ->
  exists f, Fs.lookup p (files w) = Some f /\ canRead f = true
            /\ matter d (text f) = Some (fm, body).
Proof.
  unfold readable, parsedAt, textAt.
  destruct (Fs.lookup p (files w)) as [f|]; [| discriminate].
  intros Hr Hm. now exists f.
Qed.

Lemma tagsAt_parsed (d : Deps) (p : string) (w : world) (T : list string) :
  tagsAt d p w = Some T ->
  exists fm body, parsedAt d p w = Some (fm, body)
                  /\ TagManagementTool.tagsOf fm = T.
Proof.
  unfold tagsAt. destruct (parsedAt d p w) as [[fm body]|]; [| discriminate].
  intros H. injection H as <-. now exists fm, body.
Qed.

Lemma notesOf_keys (vault : string) (w w1 : world) :
  map fst (files w1) = map fst (files w) -> notesOf vault w1 = notesOf vault w.
Proof. unfold notesOf. now intros ->. Qed.

Lemma has_add (x : string) (T : list string) : JsSet.has x (JsSet.add x T) = true.
Proof. apply has_In, In_add. now right. Qed.

Lemma has_delete (x : string) (T : list string) :
  JsSet.has x (JsSet.delete x T) = false.
Proof. apply has_false. intros H. apply In_delete in H. now destruct H. Qed.

Lemma delete_absent (x : string) (T : list string) :
  JsSet.has x T = false -> JsSet.delete x T = T.
Proof.
  intros H. apply has_false in H. unfold JsSet.delete.
  induction T as [|y T IH]; [reflexivity |].
  cbn [filter]. destruct (String.eqb y x) eqn:E.
  - apply String.eqb_eq in E. subst y. exfalso. apply H. now left.
  - cbn [negb]. f_equal. apply IH. intros Hin. apply H. now right.
Qed.

Lemma filesOf_run (vault : string) (notePaths : option (list string))
  (w : world) :
  (notePaths = None -> vault <> "") ->
  TagManagementTool.filesOf vault notePaths w
  = (Ok (listed vault notePaths w), w).
Proof.
  unfold TagManagementTool.filesOf, listed. destruct notePaths; [reflexivity |].
  intros H. now apply getAllMarkdownFiles_run, H.
Qed.

Lemma filesOf_ok (vault : string) (notePaths : option (list string))
  (w w1 : world) (l : list string) :
  TagManagementTool.filesOf vault notePaths w = (Ok l, w1) ->
  l = listed vault notePaths w /\ w1 = w /\ (notePaths = None -> vault <> "").
Proof.
  unfold TagManagementTool.filesOf, listed. destruct notePaths as [l0|].
  - unfold ret. intros H. injection H as <- <-.
    repeat split. discriminate.
  - intros H. apply getAllMarkdownFiles_ok in H as (Hv & -> & ->).
    now repeat split.
Qed.

Lemma addTag_inv (d : Deps) (vault tag : string)
  (notePaths : option (list string)) (w w1 : world)
  (stats : TagManagementTool.TagStats) :
  TagManagementTool.addTag d vault tag notePaths w = (Ok stats, w1) ->
  exists notes,
    TagManagementTool.processFiles d vault (TagManagementTool.addChange tag)
      (listed vault notePaths w) w = (Ok notes, w1)
    /\ stats = TagManagementTool.mkTagStats tag (List.length notes) notes.
Proof.
  unfold TagManagementTool.addTag. intros H.
  apply bind_ok in H as (l & w0 & Hl & H).
  apply filesOf_ok in Hl as (-> & -> & _).
  apply bind_ok in H as (notes & w2 & Hloop & H).
  unfold ret in H. injection H as <- <-. now exists notes.
Qed.

Lemma removeTag_inv (d : Deps) (vault tag : string)
  (notePaths : option (list string)) (w w1 : world)
  (stats : TagManagementTool.TagStats) :
  TagManagementTool.removeTag d vault tag notePaths w = (Ok stats, w1) ->
  exists notes,
    TagManagementTool.processFiles d vault (TagManagementTool.removeChange tag)
      (listed vault notePaths w) w = (Ok notes, w1)
    /\ stats = TagManagementTool.mkTagStats tag (List.length notes) notes.
Proof.
  unfold TagManagementTool.removeTag. intros H.
  apply bind_ok in H as (l & w0 & Hl & H).
  apply filesOf_ok in Hl as (-> & -> & _).
  apply bind_ok in H as (notes & w2 & Hloop & H).
  unfold ret in H. injection H as <- <-. now exists notes.
Qed.

(** An addition or a removal that ends normally had a directory to
    list. *)
Lemma addTag_vault (d : Deps) (vault tag : string) (w w1 : world)
  (stats : TagManagementTool.TagStats) :
  TagManagementTool.addTag d vault tag None w = (Ok stats, w1) -> vault <> "".
Proof.
  unfold TagManagementTool.addTag. intros H.
  apply bind_ok in H as (l & w0 & Hl & H).
  apply filesOf_ok in Hl as (_ & _ & Hv). now apply Hv.
Qed.

Lemma renameTag_inv (d : Deps) (vault oldTag newTag : string)
  (w w1 : world) (stats : TagManagementTool.TagStats) :
  TagManagementTool.renameTag d vault oldTag newTag w = (Ok stats, w1) ->
  exists notes,
    TagManagementTool.processFiles d vault
      (TagManagementTool.renameChange oldTag newTag) (notesOf vault w) w
    = (Ok notes, w1)
    /\ stats = TagManagementTool.mkTagStats newTag (List.length notes) notes.
Proof.
  unfold TagManagementTool.renameTag. intros H.
  apply bind_ok in H as (l & w0 & Hl & H).
  apply getAllMarkdownFiles_ok in Hl as (_ & -> & ->).
  apply bind_ok in H as (notes & w2 & Hloop & H).
  unfold ret in H. injection H as <- <-. now exists notes.
Qed.

(** After an addition that ends normally. *)
Lemma addTag_after (d : Deps) (vault tag : string)
  (notePaths : option (list string)) (w w1 : world)
  (stats : TagManagementTool.TagStats) :
  RoundTrip d ->
  NoDup (listed vault notePaths w) ->
  (forall p, In p (listed vault notePaths w) -> Path.join [vault; p] = p) ->
  TagManagementTool.addTag d vault tag notePaths w = (Ok stats, w1) ->
  listed vault notePaths w1 = listed vault notePaths w
  /\ forall p, In p (listed vault notePaths w) ->
       exists T, tagsAt d p w = Some T
                 /\ tagsAt d p w1 = Some (JsSet.add tag T)
                 /\ readable p w1 = true.
Proof.
  intros Hrt Hnd Hjoin Hrun.
  apply addTag_inv in Hrun as (notes & Hloop & _).
  pose proof (processFiles_tags d vault
                (TagManagementTool.addChange tag) _ w w1 notes Hrt Hnd Hjoin
                (kinds_NoDup_add tag) Hloop) as Htags.
  destruct (processFiles_run d vault
              (TagManagementTool.addChange tag) _ Hrt Hnd Hjoin w notes w1 Hloop)
    as (_ & Hkeys & _).
  split.
  - unfold listed. destruct notePaths; [reflexivity |].
    now apply notesOf_keys.
  - intros p Hp. destruct (Htags p Hp) as (T & Ht & Ht2 & Hrd & _).
    exists T. split; [exact Ht |]. split; [| exact Hrd].
    rewrite Ht2. unfold TagManagementTool.addChange, JsSet.add.
    now destruct (JsSet.has tag T).
Qed.

Lemma filter_all {A : Type} (f : A -> bool) (l : list A) :
  (forall x, In x l -> f x = true) -> filter f l = l.
Proof.
  induction l as [|x l IH]; intros H; [reflexivity |].
  cbn [filter]. rewrite (H x (or_introl eq_refl)). f_equal.
  apply IH. intros y Hy. apply H. now right.
Qed.

Lemma NoDup_map_inj {A B : Type} (f : A -> B) (l : list A) (x y : A) :
  NoDup (map f l) -> In x l -> In y l -> f x = f y -> x = y.
Proof.
  induction l as [|a l IH]; intros Hnd Hx Hy E; [destruct Hx |].
  cbn [map] in Hnd. inversion Hnd as [|? ? Hnotin Hnd']; subst.
  destruct Hx as [-> | Hx], Hy as [-> | Hy].
  - reflexivity.
  - exfalso. apply Hnotin. rewrite E. now apply in_map.
  - exfalso. apply Hnotin. rewrite <- E. now apply in_map.
  - now apply IH.
Qed.

(** The tag sets after a tag loop that ends normally, each note read
    where the loop reads it. *)
Lemma processFiles_tags_at (d : Deps) (vault : string)
  (change : list string -> option (list string)) (ps : list string)
  (w w1 : world) (notes : list string) :
  RoundTrip d -> NoDup (map (fullPath vault) ps) ->
  (forall T T', NoDup T -> change T = Some T' -> NoDup T') ->
  TagManagementTool.processFiles d vault change ps w = (Ok notes, w1) ->
  forall p, In p ps ->
    exists T,
      tagsAt d (fullPath vault p) w = Some T
      /\ tagsAt d (fullPath vault p) w1
         = Some (match change T with Some T' => T' | None => T end)
      /\ readable (fullPath vault p) w1 = true
      /\ (In p notes <-> change T <> None).
Proof.
  intros Hrt Hnd Hch Hrun p Hp.
  destruct (processFiles_at d vault change ps Hrt Hnd w notes w1 Hrun)
    as (Hnotes & _ & Hout & Hin & _).
  destruct (Hin p Hp) as (fm & body & Hpars & Hrd & Hafter).
  exists (TagManagementTool.tagsOf fm).
  assert (Ht : tagsAt d (fullPath vault p) w
               = Some (TagManagementTool.tagsOf fm))
    by (unfold tagsAt; now rewrite Hpars).
  split; [exact Ht |].
  assert (Hmem : In p notes <-> change (TagManagementTool.tagsOf fm) <> None).
  { rewrite Hnotes, filter_In. unfold touched. rewrite Ht.
    destruct (change (TagManagementTool.tagsOf fm)); split.
    - discriminate.
    - intros _. now split.
    - intros [_ H]. discriminate H.
    - congruence. }
  split; [| split; [exact Hrd | exact Hmem]].
  destruct (change (TagManagementTool.tagsOf fm)) as [T'|] eqn:E.
  - destruct Hafter as (t & _ & Hafter). unfold tagsAt. rewrite Hafter.
    f_equal. apply tagsOf_updated.
    exact (Hch _ _ (tagsOf_NoDup fm) E).
  - assert (Hsame : Fs.lookup (fullPath vault p) (files w1)
                    = Fs.lookup (fullPath vault p) (files w)).
    { apply Hout. intros H. apply in_map_iff in H as (y & Hy & Hyin).
      assert (Hyps : In y ps).
      { rewrite Hnotes in Hyin. now apply filter_In in Hyin as [Hyin _]. }
      rewrite (NoDup_map_inj (fullPath vault) ps y p Hnd Hyps Hp Hy) in Hyin.
      apply Hmem in Hyin. congruence. }
    unfold tagsAt, parsedAt.
    rewrite (textAt_lookup (fullPath vault p) w w1 Hsame).
    unfold tagsAt, parsedAt in Ht. exact Ht.
Qed.

(** The notes after a tag loop that ends normally, each read where the
    loop reads it: the frontmatter with the changed tags and a new
    stamp, or the note as it was. *)
Lemma processFiles_parsed_at (d : Deps) (vault : string)
  (change : list string -> option (list string)) (ps : list string)
  (w w1 : world) (notes : list string) :
  RoundTrip d -> NoDup (map (fullPath vault) ps) ->
  TagManagementTool.processFiles d vault change ps w = (Ok notes, w1) ->
  forall p, In p ps ->
    exists fm body,
      parsedAt d (fullPath vault p) w = Some (fm, body)
      /\ match change (TagManagementTool.tagsOf fm) with
         | Some tags' =>
             exists t,
               parsedAt d (fullPath vault p) w1
               = Some (TagManagementTool.updatedFrontmatter fm tags' t, body)
         | None => parsedAt d (fullPath vault p) w1 = Some (fm, body)
         end.
Proof.
  intros Hrt Hnd Hrun p Hp.
  destruct (processFiles_at d vault change ps Hrt Hnd w notes w1 Hrun)
    as (Hnotes & _ & Hout & Hin & _).
  destruct (Hin p Hp) as (fm & body & Hpars & _ & Hafter).
  exists fm, body. split; [exact Hpars |].
  destruct (change (TagManagementTool.tagsOf fm)) as [T'|] eqn:E.
  - destruct Hafter as (i & _ & Hafter). now exists (clock d i).
  - assert (Hsame : Fs.lookup (fullPath vault p) (files w1)
                    = Fs.lookup (fullPath vault p) (files w)).
    { apply Hout. intros H. apply in_map_iff in H as (y & Hy & Hyin).
      rewrite Hnotes in Hyin. apply filter_In in Hyin as [Hyps Hyt].
      rewrite (NoDup_map_inj (fullPath vault) ps y p Hnd Hyps Hp Hy) in Hyt.
      unfold touched, tagsAt in Hyt. rewrite Hpars, E in Hyt.
      discriminate. }
    unfold parsedAt. rewrite (textAt_lookup (fullPath vault p) w w1 Hsame).
    exact Hpars.
Qed.

(** After an addition that ends normally, each note read where the
    addition reads it. *)
Lemma addTag_after_at (d : Deps) (vault tag : string)
  (notePaths : option (list string)) (w w1 : world)
  (stats : TagManagementTool.TagStats) :
  RoundTrip d ->
  NoDup (map (fullPath vault) (listed vault notePaths w)) ->
  TagManagementTool.addTag d vault tag notePaths w = (Ok stats, w1) ->
  listed vault notePaths w1 = listed vault notePaths w
  /\ forall p, In p (listed vault notePaths w) ->
       exists T, tagsAt d (fullPath vault p) w = Some T
                 /\ tagsAt d (fullPath vault p) w1 = Some (JsSet.add tag T)
                 /\ readable (fullPath vault p) w1 = true.
Proof.
  intros Hrt Hnd Hrun.
  apply addTag_inv in Hrun as (notes & Hloop & _).
  pose proof (processFiles_tags_at d vault
                (TagManagementTool.addChange tag) _ w w1 notes Hrt Hnd
                (kinds_NoDup_add tag) Hloop) as Htags.
  destruct (processFiles_at d vault
              (TagManagementTool.addChange tag) _ Hrt Hnd w notes w1 Hloop)
    as (_ & Hkeys & _).
  split.
  - unfold listed. destruct notePaths; [reflexivity |].
    now apply notesOf_keys.
  - intros p Hp. destruct (Htags p Hp) as (T & Ht & Ht2 & Hrd & _).
    exists T. split; [exact Ht |]. split; [| exact Hrd].
    rewrite Ht2. unfold TagManagementTool.addChange, JsSet.add.
    now destruct (JsSet.has tag T).
Qed.

(** A tag operation that ends normally: the loop it has run. *)
Lemma execute_inv (d : Deps) (vault : string)
  (operation : TagManagementTool.TagOperation) (w w' : world)
  (stats : TagManagementTool.TagStats) :
  TagManagementTool.execute d vault operation w = (Ok stats, w') ->
  exists notes,
    TagManagementTool.processFiles d vault (changeFor operation)
      (listedFor vault operation w) w = (Ok notes, w')
    /\ TagManagementTool.stats_notes stats = notes
    /\ TagManagementTool.stats_count stats = List.length notes.
Proof.
  intros Hrun. unfold TagManagementTool.execute in Hrun.
  apply tryCatch_rethrow_ok in Hrun.
  unfold changeFor, listedFor in *.
  destruct (TagManagementTool.type operation).
  - apply addTag_inv in Hrun as (notes & Hloop & ->).
    exists notes. now repeat split.
  - apply removeTag_inv in Hrun as (notes & Hloop & ->).
    exists notes. now repeat split.
  - destruct (Fm.given (TagManagementTool.newTag operation));
      [| discriminate Hrun].
    apply renameTag_inv in Hrun as (notes & Hloop & ->).
    exists notes.
    replace (match TagManagementTool.notePaths operation with
             | Some _ | _ => notesOf vault w end)
      with (notesOf vault w)
      by now destruct (TagManagementTool.notePaths operation).
    now repeat split.
Qed.

End TagOpFacts.

Module AgentFacts.

Lemma executePlan_ok {Params Res : Type} (tools : list (Types.Tool Params Res))
  (plan : list (BaseAgent.Step Params)) :
  forall (w w' : world) (results : list Res),
    BaseAgent.executePlan tools plan w = (Ok results, w') ->
    List.length results = List.length plan
    /\ Forall (fun step => exists tool,
                 In tool tools /\ Types.name tool = BaseAgent.toolName step)
         plan.
Proof.
  induction plan as [|step plan IH]; intros w w' results H.
  - cbn in H. injection H as <- _. split; [reflexivity | constructor].
  - cbn [BaseAgent.executePlan] in H.
    apply FsFacts.bind_ok in H as (r & w1 & Hstep & H).
    apply FsFacts.bind_ok in H as (rs & w2 & Hrest & H).
    unfold ret in H. injection H as <- _.
    destruct (IH w1 w2 rs Hrest) as [Hlen Hall].
    split; [cbn [List.length]; now rewrite Hlen |].
    constructor; [| exact Hall].
    unfold BaseAgent.executeStep in Hstep.
    destruct (find _ tools) as [tool|] eqn:E; [| discriminate Hstep].
    apply find_some in E as [Hin Hname]. apply String.eqb_eq in Hname.
    now exists tool.
Qed.

Lemma executePlan_stops {Params Res : Type} (tools : list (Types.Tool Params Res))
  (before after : list (BaseAgent.Step Params)) (step : BaseAgent.Step Params)
  (e : exn) :
  forall (w1 w2 w3 : world) (results : list Res),
    BaseAgent.executePlan tools before w1 = (Ok results, w2) ->
    BaseAgent.executeStep tools step w2 = (Err e, w3) ->
    BaseAgent.executePlan tools (before ++ step :: after)%list w1 = (Err e, w3).
Proof.
  induction before as [|s0 before IH]; intros w1 w2 w3 results Hbefore Hstep.
  - cbn in Hbefore. injection Hbefore as _ <-.
    cbn [app BaseAgent.executePlan]. unfold bind. now rewrite Hstep.
  - cbn [app BaseAgent.executePlan] in *. unfold bind in *.
    destruct (BaseAgent.executeStep tools s0 w1) as [[r| |] w1'];
      try discriminate.
    destruct (BaseAgent.executePlan tools before w1') as [[rs| |] w1'']
      eqn:E; try discriminate.
    cbn in Hbefore. injection Hbefore as _ <-.
    now rewrite (IH w1' w1'' w3 rs E Hstep).
Qed.

(** How a task of the agent ends. *)
Lemma execute_cases {Params Res : Type} (tools : list (Types.Tool Params Res))
  (understandTask : string -> M BaseAgent.TaskUnderstanding)
  (createExecutionPlan :
     BaseAgent.TaskUnderstanding -> list (Types.Tool Params Res)
     -> M (list (BaseAgent.Step Params)))
  (task : string) (w : world) :
  let run := BaseAgent.execute tools understandTask createExecutionPlan task w in
  (forall e, fst run <> Err e)
  /\ (forall result w', run = (Ok result, w') ->
        if Types.success result then
          exists tu w0 plan w1 results,
            understandTask task w = (Ok tu, w0)
            /\ createExecutionPlan tu (BaseAgent.selectTools tools tu) w0
               = (Ok plan, w1)
            /\ BaseAgent.executePlan tools plan w1 = (Ok results, w')
            /\ Types.data result = Some results
            /\ List.length results = List.length plan
            /\ Forall (fun step => exists tool,
                         In tool tools
                         /\ Types.name tool = BaseAgent.toolName step) plan
            /\ Types.error result = None
        else
          Types.data result = None
          /\ Types.message result = "Task execution failed"
          /\ exists e, Types.error result = Some e).
Proof.
  cbv zeta. unfold BaseAgent.execute, tryCatch, bind.
  destruct (understandTask task w) as [[tu|e|] w0] eqn:Eu.
  - destruct (createExecutionPlan tu (BaseAgent.selectTools tools tu) w0)
      as [[plan|e|] w1] eqn:Ep.
    + destruct (BaseAgent.executePlan tools plan w1) as [[results|e|] w2] eqn:Er.
      * unfold ret. split; [discriminate |].
        intros result w' H. injection H as <- <-. cbn [Types.success].
        destruct (executePlan_ok tools plan w1 w2 results Er)
          as [Hlen Hall].
        exists tu, w0, plan, w1, results. now repeat split.
      * unfold ret. split; [discriminate |].
        intros result w' H. injection H as <- <-. cbn [Types.success].
        repeat split. now exists e.
      * split; [discriminate | discriminate].
    + unfold ret. split; [discriminate |].
      intros result w' H. injection H as <- <-. cbn [Types.success].
      repeat split. now exists e.
    + split; [discriminate | discriminate].
  - unfold ret. split; [discriminate |].
    intros result w' H. injection H as <- <-. cbn [Types.success].
    repeat split. now exists e.
  - split; [discriminate | discriminate].
Qed.

End AgentFacts.

Module ManageFacts.
Import NoteManagementAgent.

Lemma useTool_result {Params Res : Type} (tools : list (Types.Tool Params Res))
  (toolName notFound done failed : string) (params : Params) (w : world) :
  (exists r w', useTool tools toolName notFound done failed params w = (Ok r, w')
                /\ (if success r
                    then error r = None /\ data r <> None
                    else data r = None /\ exists e, error r = Some e))
  \/ exists w', useTool tools toolName notFound done failed params w = (Beyond, w').
Proof.
  unfold useTool, tryCatch.
  destruct (find _ tools) as [tool|].
  - unfold bind. destruct (Types.execute tool params w) as [[r|e|] w1].
    + left. eexists. eexists. split; [reflexivity |]. cbn. now split.
    + left. eexists. eexists. split; [reflexivity |]. cbn.
      split; [reflexivity | now exists e].
    + right. now exists w1.
  - left. eexists. eexists. split; [reflexivity |]. cbn.
    split; [reflexivity | eexists; reflexivity].
Qed.

End ManageFacts.

Module ManageFacts2.
Import NoteManagementAgent Regex.

(** A computation that ends with a well-shaped result or leaves the
    modelled fragment, and never throws. *)
Lemma useTool_shape {Params Res : Type} (tools : list (Types.Tool Params Res))
  (toolName notFound done failed : string) (params : Params) (w : world) :
  forall o w', useTool tools toolName notFound done failed params w = (o, w') ->
    match o with
    | Ok r => if success r
              then error r = None /\ data r <> None
              else data r = None /\ exists e, error r = Some e
    | Err _ => False
    | Beyond => True
    end.
Proof.
  intros o w' H.
  destruct (ManageFacts.useTool_result tools toolName notFound done failed
              params w) as [(r & w1 & E & Hs) | (w1 & E)];
    rewrite E in H; injection H as <- <-; [exact Hs | exact I].
Qed.

Lemma superExecute_shape {Params Res : Type}
  (tools : list (Types.Tool Params Res))
  (understandTask : string -> M (BaseAgent.TaskUnderstanding * Params))
  (createExecutionPlan :
     BaseAgent.TaskUnderstanding -> list (Types.Tool Params Res)
     -> M (list (BaseAgent.Step Params)))
  (task : string) (w : world) :
  forall o w', superExecute tools understandTask createExecutionPlan task w
               = (o, w') ->
    match o with
    | Ok r => if success r
              then error r = None /\ data r <> None
              else data r = None /\ exists e, error r = Some e
    | Err _ => False
    | Beyond => True
    end.
Proof.
  intros o w' H. unfold superExecute, bind in H.
  destruct (AgentFacts.execute_cases tools
              (fun t => analysis <- understandTask t ;; ret (fst analysis))
              createExecutionPlan task w) as [Hno Hshape].
  destruct (BaseAgent.execute tools _ createExecutionPlan task w)
    as [[r|e|] w1] eqn:E.
  - unfold ret in H. injection H as <- <-. cbn [success error data].
    specialize (Hshape r w1 eq_refl).
    destruct (Types.success r).
    + destruct Hshape as (tu & w0 & plan & w2 & results & _ & _ & _ & Hd & _ & _ & He).
      rewrite Hd, He. split; [reflexivity | discriminate].
    + destruct Hshape as (Hd & _ & e & He). rewrite Hd, He.
      split; [reflexivity | now exists e].
  - exfalso. now apply (Hno e).
  - injection H as <- <-. exact I.
Qed.

(** The loop of a greedy star over a class, followed by the end of the
    input. *)
Lemma starIter_class_eoi (p : ascii -> bool) (fuel : nat) :
  forall (s : string) (cap : option string),
    String.length s <= fuel ->
    starIter
      (fun s' cap' k' =>
         match s' with
         | EmptyString => None
         | String c s'' => if p c then k' s'' (enter (Cls p) cap') else None
         end)
      (fun s' cap' =>
         match s' with
         | EmptyString => Some (cap', s')
         | String _ _ => None
         end) fuel s cap
    = if Str.forallb p s then Some (cap, "") else None.
Proof.
  induction fuel as [|fuel IH]; intros s cap Hlen.
  - destruct s; [reflexivity | simpl in Hlen; lia].
  - cbn [starIter]. destruct s as [|c s'].
    + reflexivity.
    + cbn [enter hasGrp Str.forallb]. destruct (p c) eqn:Ep; cbn [andb].
      * assert (Hlt : Nat.ltb (String.length s') (String.length (String c s')) = true)
          by (apply Nat.ltb_lt; simpl; lia).
        rewrite Hlt. rewrite IH by (simpl in Hlen; lia).
        now destruct (Str.forallb p s').
      * reflexivity.
Qed.

Lemma matchAt_extension (n0 : nat) (s : string) :
  matchAt n0 extension s
  = match s with
    | String c (String c' t as rest) =>
        if Ascii.eqb c "."
           && Str.forallb
                (fun x => negb (Ascii.eqb x "/") && negb (Ascii.eqb x ".")) rest
        then Some (None, String.length s)
        else None
    | _ => None
    end.
Proof.
  unfold matchAt, extension, plus, chr.
  destruct s as [|c [|c' t]].
  - reflexivity.
  - cbn [rmatch]. destruct (Ascii.eqb "." c); reflexivity.
  - cbn [rmatch]. rewrite (Ascii.eqb_sym c ".").
    destruct (Ascii.eqb "." c); [| reflexivity]. cbn [andb Str.forallb].
    destruct (negb (Ascii.eqb c' "/") && negb (Ascii.eqb c' ".")) eqn:Ec;
      [| reflexivity].
    rewrite starIter_class_eoi by lia. cbn [andb].
    destruct (Str.forallb _ t); [| reflexivity].
    cbn [String.length]. now rewrite Nat.sub_0_r.
Qed.

Lemma forallb_drop_length (s : string) : Str.drop (String.length s) s = "".
Proof. induction s as [|c s IH]; [reflexivity | exact IH]. Qed.

Lemma matchAt_extension_none (n0 : nat) (c : ascii) (rest : string) :
  Str.forallb (fun x => negb (Ascii.eqb x "/") && negb (Ascii.eqb x ".")) rest
  = false ->
  matchAt n0 extension (String c rest) = None.
Proof.
  intros H. rewrite matchAt_extension. destruct rest as [|c' t]; [reflexivity |].
  now rewrite H, andb_false_r.
Qed.

(** The text before the last extension. *)
Lemma replaceOnceFrom_extension (n0 : nat) (base ext : string) :
  ext <> "" ->
  Str.forallb (fun x => negb (Ascii.eqb x "/") && negb (Ascii.eqb x ".")) ext
  = true ->
  replaceOnceFrom n0 extension "" (base ++ "." ++ ext) = base.
Proof.
  intros Hne Hext. induction base as [|c base IH].
  - cbn [append replaceOnceFrom]. rewrite matchAt_extension.
    destruct ext as [|e ext']; [congruence |].
    cbn [Ascii.eqb Bool.eqb andb]. rewrite Hext.
    cbn [append]. now rewrite (forallb_drop_length (String "." (String e ext'))).
  - cbn [append replaceOnceFrom] in IH |- *. rewrite matchAt_extension_none.
    + now rewrite IH.
    + rewrite StrFacts.forallb_append. cbn [append Str.forallb].
      cbn [Ascii.eqb Bool.eqb negb andb]. now rewrite andb_false_r.
Qed.

Lemma replaceOnceFrom_noDot (n0 : nat) (s : string) :
  Str.forallb (fun x => negb (Ascii.eqb x ".")) s = true ->
  replaceOnceFrom n0 extension "" s = s.
Proof.
  induction s as [|c s IH]; intros H.
  - reflexivity.
  - cbn [Str.forallb] in H. apply andb_true_iff in H as [Hc H].
    cbn [replaceOnceFrom]. rewrite matchAt_extension.
    apply negb_true_iff in Hc. rewrite Hc. cbn [andb].
    destruct s; now rewrite IH.
Qed.

End ManageFacts2.

Module JoinFacts.


End JoinFacts.

(* ------------------------------------------------------------------ *)
(** ** Paths without [".."] *)

Module JoinPathFacts.
Import Path ShapeFacts StrFacts.

(** The segments normalization keeps of a path without [".."]. *)
Definition clean (segs : list string) : list string :=
  filter (fun s => negb (String.eqb s "" || String.eqb s ".")) segs.

Definition noUp (segs : list string) : bool :=
  forallb (fun s => negb (String.eqb s "..")) segs.

Lemma normalizeSegs_clean (a : bool) (segs res : list string) :
  noUp segs = true ->
  normalizeSegs a res segs = (rev res ++ clean segs)%list.
Proof.
  revert res. induction segs as [|seg segs IH]; intros res H.
  - cbn. now rewrite app_nil_r.
  - cbn [noUp forallb] in H. apply andb_true_iff in H as [Hs H].
    apply negb_true_iff in Hs.
    cbn [normalizeSegs clean filter].
    destruct (String.eqb seg "" || String.eqb seg "."); cbn [negb].
    + now apply IH.
    + rewrite Hs. rewrite IH by exact H. cbn [rev].
      now rewrite <- app_assoc.
Qed.

Lemma split_app_sep (sep : ascii) (a b : string) :
  Str.split sep (a ++ String sep b) = (Str.split sep a ++ Str.split sep b)%list.
Proof.
  induction a as [|c a IH].
  - cbn [append Str.split]. now rewrite Ascii.eqb_refl.
  - cbn [append Str.split]. destruct (Ascii.eqb c sep).
    + now rewrite IH.
    + rewrite IH. destruct (Str.split sep a) as [|w ws] eqn:E.
      * now destruct (DocFacts.split_nonempty sep a).
      * reflexivity.
Qed.

Lemma clean_app (xs ys : list string) :
  clean (xs ++ ys) = (clean xs ++ clean ys)%list.
Proof. apply filter_app. Qed.

Lemma noUp_app (xs ys : list string) :
  noUp (xs ++ ys) = noUp xs && noUp ys.
Proof. apply forallb_app. Qed.

Lemma clean_clean (xs : list string) : clean (clean xs) = clean xs.
Proof.
  induction xs as [|x xs IH]; [reflexivity |].
  cbn [clean filter].
  destruct (negb (String.eqb x "" || String.eqb x ".")) eqn:E; [| exact IH].
  cbn [filter]. rewrite E. f_equal. exact IH.
Qed.

Lemma noUp_clean (xs : list string) : noUp xs = true -> noUp (clean xs) = true.
Proof.
  induction xs as [|x xs IH]; [reflexivity |].
  cbn [noUp forallb clean filter]. intros H.
  apply andb_true_iff in H as [Hx H].
  destruct (negb (String.eqb x "" || String.eqb x ".")); [| now apply IH].
  cbn [forallb]. rewrite Hx. now apply IH.
Qed.

Lemma clean_all (xs : list string) :
  Forall (fun x => x <> "" /\ x <> ".") (clean xs).
Proof.
  apply Forall_forall. intros x Hx. apply filter_In in Hx as [_ Hx].
  apply negb_true_iff, orb_false_iff in Hx as [H1 H2].
  split; now apply String.eqb_neq.
Qed.

Lemma concat_app (sep : string) (xs ys : list string) :
  xs <> [] -> ys <> [] ->
  String.concat sep (xs ++ ys)
  = String.concat sep xs ++ sep ++ String.concat sep ys.
Proof.
  intros Hx Hy. induction xs as [|x [|x' xs] IH]; [congruence | |].
  - destruct ys as [|y ys]; [congruence |]. reflexivity.
  - change ((x :: x' :: xs) ++ ys)%list with (x :: ((x' :: xs) ++ ys))%list.
    change (String.concat sep (x :: (x' :: xs) ++ ys))
      with (x ++ sep ++ String.concat sep ((x' :: xs) ++ ys)).
    rewrite IH by discriminate.
    change (String.concat sep (x :: x' :: xs))
      with (x ++ sep ++ String.concat sep (x' :: xs)).
    now rewrite <- !append_assoc.
Qed.

Lemma concat_nonempty (sep x : string) (xs : list string) :
  x <> "" -> String.concat sep (x :: xs) <> "".
Proof.
  intros Hx. destruct x as [|c x]; [congruence |].
  destruct xs; cbn; discriminate.
Qed.

(** What normalization leaves of a path without [".."]: the same
    segments, and again no [".."]. *)
Lemma split_normalize (q : string) :
  noUp (Str.split "/" q) = true ->
  clean (Str.split "/" (normalize q)) = clean (Str.split "/" q)
  /\ noUp (Str.split "/" (normalize q)) = true.
Proof.
  intros H. unfold normalize.
  destruct (String.eqb q "") eqn:Eq.
  { apply String.eqb_eq in Eq. subst q. split; reflexivity. }
  rewrite (normalizeSegs_clean _ _ [] H). cbn [rev app].
  pose proof (clean_all (Str.split "/" q)) as Hall.
  pose proof (noUp_clean _ H) as Hup.
  pose proof (clean_clean (Str.split "/" q)) as Hcc.
  pose proof (split_noSep "/" q) as Hns.
  assert (Hns' : Forall (fun x =>
            Str.forallb (fun c => negb (Ascii.eqb c "/")) x = true)
            (clean (Str.split "/" q))).
  { apply Forall_forall. intros x Hx. apply filter_In in Hx as [Hx _].
    now apply (proj1 (Forall_forall _ _) Hns). }
  destruct (clean (Str.split "/" q)) as [|x xs] eqn:Exs.
  { cbn [String.concat String.eqb].
    destruct (isAbsolute q); [split; reflexivity |].
    destruct (Str.suffix "/" q); split; reflexivity. }
  inversion Hall as [|? ? [Hx _] _]; subst.
  assert (Eb : String.eqb (String.concat "/" (x :: xs)) "" = false)
    by (apply String.eqb_neq; now apply concat_nonempty).
  rewrite Eb.
  set (pre := if isAbsolute q then [""] else []).
  set (post := if Str.suffix "/" q then [""] else []).
  assert (E : (if isAbsolute q then "/" else "") ++ String.concat "/" (x :: xs)
              ++ (if Str.suffix "/" q then "/" else "")
              = String.concat "/" (pre ++ (x :: xs) ++ post)).
  { assert (H1 : forall l, l <> [] ->
              String.concat "/" ("" :: l) = "/" ++ String.concat "/" l)
      by (intros [|y l] Hl; [congruence | reflexivity]).
    assert (H2 : forall l, l <> [] ->
              String.concat "/" (l ++ [""]) = String.concat "/" l ++ "/").
    { intros l Hl. rewrite concat_app by (discriminate || exact Hl).
      reflexivity. }
    subst pre post. destruct (isAbsolute q), (Str.suffix "/" q).
    - change ([""] ++ (x :: xs) ++ [""])%list
        with ("" :: ((x :: xs) ++ [""]))%list.
      rewrite H1 by discriminate. now rewrite H2 by discriminate.
    - rewrite app_nil_r. change ([""] ++ x :: xs)%list with ("" :: x :: xs).
      rewrite H1 by discriminate. now rewrite append_nil_r.
    - change ([] ++ (x :: xs) ++ [""])%list with ((x :: xs) ++ [""])%list.
      now rewrite H2 by discriminate.
    - rewrite app_nil_r. cbn [app append]. now rewrite append_nil_r. }
  rewrite E. rewrite split_concat.
  - rewrite !clean_app, !noUp_app, Hcc, Hup.
    subst pre post. destruct (isAbsolute q), (Str.suffix "/" q);
      cbn; rewrite ?app_nil_r; split; reflexivity.
  - subst pre. destruct (isAbsolute q); discriminate.
  - apply Forall_app. split; [| apply Forall_app; split; [exact Hns' |]].
    + subst pre. destruct (isAbsolute q); repeat constructor.
    + subst post. destruct (Str.suffix "/" q); repeat constructor.
Qed.

(** The segments a path without [".."] is resolved by. *)
Lemma segments_clean (q : string) :
  noUp (Str.split "/" q) = true ->
  Disk.segments q = clean (Str.split "/" q).
Proof. intros H. unfold Disk.segments. now rewrite normalizeSegs_clean. Qed.

Lemma split_join2 (a b : string) :
  noUp (Str.split "/" a) = true -> noUp (Str.split "/" b) = true ->
  clean (Str.split "/" (join [a; b]))
  = (clean (Str.split "/" a) ++ clean (Str.split "/" b))%list
  /\ noUp (Str.split "/" (join [a; b])) = true.
Proof.
  intros Ha Hb. unfold join. cbn [filter].
  destruct (String.eqb a "") eqn:Ea; cbn [negb];
    destruct (String.eqb b "") eqn:Eb; cbn [negb];
    try (apply String.eqb_eq in Ea; subst a);
    try (apply String.eqb_eq in Eb; subst b).
  - split; reflexivity.
  - cbn [String.concat]. destruct (split_normalize b Hb) as [H1 H2].
    split; [exact H1 | exact H2].
  - cbn [String.concat]. destruct (split_normalize a Ha) as [H1 H2].
    split; [| exact H2]. rewrite H1. cbn. now rewrite app_nil_r.
  - cbn [String.concat].
    assert (H : noUp (Str.split "/" (a ++ "/" ++ b)) = true).
    { cbn [append]. now rewrite split_app_sep, noUp_app, Ha, Hb. }
    destruct (split_normalize _ H) as [H1 H2].
    split; [| exact H2]. rewrite H1. cbn [append].
    now rewrite split_app_sep, clean_app.
Qed.

(** The entry [name] of the folder [folderPath], as [getFolderStats]
    reaches it. *)
Lemma segments_entry (vaultPath folderPath name : string) :
  Census.noDotDot vaultPath = true ->
  Census.noDotDot folderPath = true ->
  Census.entryName name = true ->
  Disk.segments (join [vaultPath; join [folderPath; name]])
  = (Disk.segments (join [vaultPath; folderPath]) ++ [name])%list
  /\ Census.noDotDot (join [folderPath; name]) = true.
Proof.
  unfold Census.noDotDot, Census.entryName. fold noUp.
  fold (noUp (Str.split "/" vaultPath)). fold (noUp (Str.split "/" folderPath)).
  intros Hv Hf Hn.
  apply andb_true_iff in Hn as [Hn Hslash].
  apply andb_true_iff in Hn as [Hn Hup].
  apply andb_true_iff in Hn as [Hne Hdot].
  assert (Esp : Str.split "/" name = [name]) by now apply split_none.
  assert (Hnu : noUp (Str.split "/" name) = true).
  { rewrite Esp. cbn. now rewrite Hup. }
  assert (Ecl : clean (Str.split "/" name) = [name]).
  { rewrite Esp. cbn [clean filter].
    apply negb_true_iff in Hne, Hdot. now rewrite Hne, Hdot. }
  destruct (split_join2 folderPath name Hf Hnu) as [J1 J2].
  destruct (split_join2 vaultPath (join [folderPath; name]) Hv J2) as [K1 K2].
  destruct (split_join2 vaultPath folderPath Hv Hf) as [M1 M2].
  split; [| fold (noUp (Str.split "/" (join [folderPath; name]))); exact J2].
  rewrite (segments_clean _ K2), (segments_clean _ M2), K1, M1, J1, Ecl.
  now rewrite app_assoc.
Qed.

End JoinPathFacts.

(* ------------------------------------------------------------------ *)
(** ** The directory tree *)

Module TreeFacts.
Import Disk Census.

Lemma notes_cons (name : string) (c : node) (es : list (string * node)) :
  notes (Folder ((name, c) :: es))
  = match c with
    | File _ => if Regex.test Links.mdSuffix name then 1 else 0
    | Folder _ => notes c
    | Other => 0
    end + notes (Folder es).
Proof. reflexivity. Qed.

Lemma folders_cons (name : string) (c : node) (es : list (string * node)) :
  folders (Folder ((name, c) :: es))
  = match c with
    | Folder _ => S (folders c)
    | _ => 0
    end + folders (Folder es).
Proof. reflexivity. Qed.

Lemma depth_cons (name : string) (c : node) (es : list (string * node)) :
  depth (Folder ((name, c) :: es))
  = S (Nat.max (depth c) (Nat.pred (depth (Folder es)))).
Proof. reflexivity. Qed.

Lemma sound_cons (name : string) (c : node) (es : list (string * node)) :
  sound (Folder ((name, c) :: es))
  = entryName name
    && negb (existsb (fun e => String.eqb (fst e) name) es)
    && sound c && sound (Folder es).
Proof. reflexivity. Qed.

Lemma depth_pos (es : list (string * node)) : 0 < depth (Folder es).
Proof. cbn. lia. Qed.

Lemma depth_child (name : string) (c : node) (es : list (string * node)) :
  In (name, c) es -> depth c < depth (Folder es).
Proof.
  induction es as [|[n0 c0] es IH]; [intros [] |].
  intros [H | H]; rewrite depth_cons.
  - inversion H; subst. lia.
  - specialize (IH H). pose proof (depth_pos es). lia.
Qed.

Lemma child_absent (name : string) (es : list (string * node)) :
  existsb (fun e => String.eqb (fst e) name) es = false ->
  child name es = None.
Proof.
  induction es as [|[n0 c0] es IH]; [reflexivity |].
  cbn [existsb child fst]. intros H. apply orb_false_iff in H as [H1 H2].
  rewrite H1. now apply IH.
Qed.

Lemma absent_In (name : string) (c : node) (es : list (string * node)) :
  existsb (fun e => String.eqb (fst e) name) es = false ->
  ~ In (name, c) es.
Proof.
  intros H Hin.
  assert (existsb (fun e => String.eqb (fst e) name) es = true).
  { apply existsb_exists. exists (name, c). split; [exact Hin |].
    apply String.eqb_refl. }
  congruence.
Qed.

(** In a sound directory an entry is found by its name. *)
Lemma sound_child (name : string) (c : node) (es : list (string * node)) :
  sound (Folder es) = true -> In (name, c) es ->
  child name es = Some c /\ entryName name = true /\ sound c = true.
Proof.
  induction es as [|[n0 c0] es IH]; [intros _ [] |].
  rewrite sound_cons. intros H Hin.
  apply andb_true_iff in H as [H Hes].
  apply andb_true_iff in H as [H Hc0].
  apply andb_true_iff in H as [Hn0 Hfresh].
  apply negb_true_iff in Hfresh.
  destruct Hin as [Hin | Hin].
  - inversion Hin; subst. cbn [child]. rewrite String.eqb_refl. auto.
  - destruct (IH Hes Hin) as [H1 [H2 H3]].
    cbn [child]. destruct (String.eqb n0 name) eqn:E.
    + apply String.eqb_eq in E. subst n0.
      now destruct (absent_In name c es Hfresh).
    + auto.
Qed.

Lemma get_app (a b : list string) (n : node) :
  get (a ++ b) n = match get a n with Some c => get b c | None => None end.
Proof.
  revert n. induction a as [|s a IH]; intros n; [reflexivity |].
  cbn [app get]. destruct n as [f | es |]; try reflexivity.
  destruct (child s es); [apply IH | reflexivity].
Qed.

Lemma child_replace (name : string) (c c' : node) (es : list (string * node)) :
  child name es = Some c -> child name (replace name c' es) = Some c'.
Proof.
  induction es as [|[n0 c0] es IH]; [discriminate |].
  cbn [child replace]. destruct (String.eqb n0 name) eqn:E.
  - intros _. cbn [child]. now rewrite E.
  - intros H. cbn [child]. rewrite E. now apply IH.
Qed.

Lemma replace_same (name : string) (c : node) (es : list (string * node)) :
  child name es = Some c -> replace name c es = es.
Proof.
  induction es as [|[n0 c0] es IH]; [reflexivity |].
  cbn [child replace]. destruct (String.eqb n0 name).
  - intros H. now inversion H.
  - intros H. now rewrite IH.
Qed.

Lemma child_without (name : string) (es : list (string * node)) :
  child name (without name es) = None.
Proof.
  induction es as [|[n0 c0] es IH]; [reflexivity |].
  unfold without in *. cbn [filter fst].
  destruct (String.eqb n0 name) eqn:E; cbn [negb]; [exact IH |].
  cbn [child]. now rewrite E.
Qed.

Lemma without_absent (name : string) (es : list (string * node)) :
  child name es = None -> without name es = es.
Proof.
  induction es as [|[n0 c0] es IH]; [reflexivity |].
  unfold without in *. cbn [child filter fst].
  destruct (String.eqb n0 name); [discriminate |].
  intros H. cbn [negb]. now rewrite IH.
Qed.

Lemma child_app_absent (name : string) (c : node) (es : list (string * node)) :
  child name es = None -> child name (es ++ [(name, c)]) = Some c.
Proof.
  induction es as [|[n0 c0] es IH].
  - intros _. cbn. now rewrite String.eqb_refl.
  - cbn [child app]. destruct (String.eqb n0 name); [discriminate | exact IH].
Qed.

Lemma get_chain (segs : list string) : get segs (chain segs) = Some (Folder []).
Proof.
  induction segs as [|s segs IH]; [reflexivity |].
  cbn [chain get child]. now rewrite String.eqb_refl.
Qed.

Lemma get_not_blocked (segs : list string) :
  forall (n c : node), get segs n = Some c -> blocked segs n = false.
Proof.
  induction segs as [|s segs IH]; intros n c H; [reflexivity |].
  destruct n as [f | es |]; try discriminate.
  cbn [get blocked] in *. destruct (child s es); [| reflexivity].
  now apply (IH _ c).
Qed.

(** After [rm] nothing is at the path. *)
Lemma get_prune (segs : list string) :
  forall (s : string) (n : node), get (s :: segs) (prune s segs n) = None.
Proof.
  induction segs as [|s' segs IH]; intros s n.
  - destruct n as [f | es |]; [reflexivity | | reflexivity].
    cbn [prune get]. now rewrite child_without.
  - destruct n as [f | es |]; [reflexivity | | reflexivity].
    cbn [prune]. destruct (child s es) as [c |] eqn:E.
    + change (get (s :: s' :: segs) (Folder (replace s (prune s' segs c) es)))
        with (match child s (replace s (prune s' segs c) es) with
              | Some c0 => get (s' :: segs) c0
              | None => None
              end).
      rewrite (child_replace _ _ _ _ E). apply IH.
    + cbn [get]. now rewrite E.
Qed.

(** [rm] changes nothing when nothing is at the path. *)
Lemma prune_absent (segs : list string) :
  forall (s : string) (n : node),
    get (s :: segs) n = None -> prune s segs n = n.
Proof.
  induction segs as [|s' segs IH]; intros s n H.
  - destruct n as [f | es |]; try reflexivity.
    cbn [get] in H. cbn [prune].
    destruct (child s es) eqn:E; [discriminate |].
    now rewrite without_absent.
  - destruct n as [f | es |]; try reflexivity.
    cbn [prune]. change (get (s :: s' :: segs) (Folder es))
      with (match child s es with
            | Some c0 => get (s' :: segs) c0
            | None => None
            end) in H.
    destruct (child s es) as [c |] eqn:E; [| reflexivity].
    rewrite (IH _ _ H). now rewrite (replace_same _ _ _ E).
Qed.

(** [mkdir -p] changes nothing where the directory is there. *)
Lemma mkdirp_same (segs : list string) :
  forall (n : node) (es : list (string * node)),
    get segs n = Some (Folder es) -> mkdirp segs n = inl n.
Proof.
  induction segs as [|s segs IH]; intros n es H.
  - cbn in H. inversion H; subst. reflexivity.
  - destruct n as [f | es0 |]; try discriminate.
    cbn [get] in H. cbn [mkdirp].
    destruct (child s es0) as [c |] eqn:E; [| discriminate].
    rewrite (IH _ _ H). now rewrite (replace_same _ _ _ E).
Qed.

(** [mkdir -p] makes an empty directory where nothing is. *)
Lemma mkdirp_new (segs : list string) :
  forall (es : list (string * node)),
    get segs (Folder es) = None -> blocked segs (Folder es) = false ->
    exists es', mkdirp segs (Folder es) = inl (Folder es')
                /\ get segs (Folder es') = Some (Folder []).
Proof.
  induction segs as [|s segs IH]; intros es H Hb; [discriminate |].
  cbn [get blocked] in H, Hb. cbn [mkdirp].
  destruct (child s es) as [c |] eqn:E.
  - destruct c as [f | es0 |].
    + destruct segs; discriminate.
    + destruct (IH es0 H Hb) as [es' [E1 E2]]. rewrite E1.
      eexists. split; [reflexivity |].
      cbn [get]. now rewrite (child_replace _ _ _ _ E).
    + destruct segs; discriminate.
  - eexists. split; [reflexivity |].
    cbn [get]. rewrite (child_app_absent _ _ _ E). apply get_chain.
Qed.

End TreeFacts.

(* ------------------------------------------------------------------ *)
(** ** The operations on folders *)

Module FolderFacts.
Import Disk Census FolderOps TreeFacts.

(** The loop over the entries of a directory, where the method gives
    the counts of each directory among them. *)
Lemma countEntries_run (stats : string -> DM FolderStats) (folderPath : string)
  (d : disk) (entries : list (string * node)) :
  (forall name es, In (name, Folder es) entries ->
     stats (Path.join [folderPath; name]) d
     = (Ok (mkStats (Path.join [folderPath; name])
              (notes (Folder es)) (folders (Folder es))), d)) ->
  forall a b,
    countEntries stats folderPath entries a b d
    = (Ok (a + notes (Folder entries), b + folders (Folder entries)), d).
Proof.
  induction entries as [|[name c] entries IH]; intros H a b.
  - cbn. now rewrite !Nat.add_0_r.
  - assert (H' : forall name es, In (name, Folder es) entries ->
              stats (Path.join [folderPath; name]) d
              = (Ok (mkStats (Path.join [folderPath; name])
                       (notes (Folder es)) (folders (Folder es))), d))
      by (intros n0 es0 Hin; apply H; now right).
    rewrite notes_cons, folders_cons. cbn [countEntries].
    destruct c as [f | es |].
    + destruct (Regex.test Links.mdSuffix name); rewrite (IH H');
        f_equal; f_equal; f_equal; lia.
    + unfold Disk.bind at 1. rewrite (H name es (or_introl eq_refl)).
      rewrite (IH H'). cbn [noteCount subfolderCount].
      f_equal; f_equal; f_equal; lia.
    + rewrite (IH H'). f_equal; f_equal; f_equal; lia.
Qed.

(** One step of [getFolderStats]. *)
Lemma getFolderStats_step (vaultPath : string) (fuel : nat)
  (folderPath : string) (d : disk) :
  getFolderStats vaultPath (S fuel) folderPath d
  = let fullPath := Path.join [vaultPath; folderPath] in
    let missed e :=
      (Ok (mkStats folderPath 0 0),
       mkDisk (root d) ((folderPath, FsError e fullPath) :: warned d)) in
    match get (segments fullPath) (root d) with
    | Some (Folder es) =>
        match countEntries (getFolderStats vaultPath fuel) folderPath es 0 0 d
        with
        | (Ok counts, d') =>
            (Ok (mkStats folderPath (fst counts) (snd counts)), d')
        | (Err e, d') =>
            (Ok (mkStats folderPath 0 0),
             mkDisk (root d') ((folderPath, e) :: warned d'))
        | (Beyond, d') => (Beyond, d')
        end
    | Some _ => missed ENOTDIR
    | None =>
        missed (if blocked (segments fullPath) (root d) then ENOTDIR else ENOENT)
    end.
Proof.
  cbn [getFolderStats]. unfold Disk.bind, Disk.tryCatch, readdir, warn, Disk.ret.
  cbv zeta.
  destruct (get (segments (Path.join [vaultPath; folderPath])) (root d))
    as [[f | es |] |]; try reflexivity.
  destruct (countEntries (getFolderStats vaultPath fuel) folderPath es 0 0 d)
    as [[counts | e |] d']; reflexivity.
Qed.

(** [getFolderStats] on a folder that is there. *)
Lemma getFolderStats_run (vaultPath : string) :
  noDotDot vaultPath = true ->
  forall (fuel : nat) (folderPath : string) (es : list (string * node))
         (d : disk),
    noDotDot folderPath = true ->
    get (segments (Path.join [vaultPath; folderPath])) (root d)
    = Some (Folder es) ->
    sound (Folder es) = true ->
    depth (Folder es) <= fuel ->
    getFolderStats vaultPath fuel folderPath d
    = (Ok (mkStats folderPath (notes (Folder es)) (folders (Folder es))), d).
Proof.
  intros Hv. induction fuel as [|fuel IH]; intros folderPath es d Hf Hget Hs Hd.
  - pose proof (depth_pos es). lia.
  - rewrite getFolderStats_step. cbv zeta. rewrite Hget.
    rewrite countEntries_run; [reflexivity |].
    intros name es' Hin.
    destruct (sound_child _ _ _ Hs Hin) as [Hc [Hn Hs']].
    destruct (JoinPathFacts.segments_entry vaultPath folderPath name Hv Hf Hn)
      as [Hseg Hnd].
    apply IH; [exact Hnd | | exact Hs' |].
    + rewrite Hseg, get_app, Hget. cbn [get]. now rewrite Hc.
    + pose proof (depth_child _ _ _ Hin). lia.
Qed.

(** [getFolderStats] never throws and never changes the tree. *)
Lemma countEntries_quiet (stats : string -> DM FolderStats) (folderPath : string) :
  (forall p d, root (snd (stats p d)) = root d) ->
  forall entries a b d,
    root (snd (countEntries stats folderPath entries a b d)) = root d.
Proof.
  intros H. induction entries as [|[name c] entries IH]; intros a b d.
  - reflexivity.
  - cbn [countEntries]. destruct c as [f | es |].
    + destruct (Regex.test Links.mdSuffix name); apply IH.
    + unfold Disk.bind at 1. specialize (H (Path.join [folderPath; name]) d).
      destruct (stats (Path.join [folderPath; name]) d) as [[st | e |] d'];
        cbn [snd] in H |- *; [| exact H | exact H].
      rewrite IH. exact H.
    + apply IH.
Qed.

Lemma getFolderStats_quiet (vaultPath : string) (fuel : nat) :
  forall (folderPath : string) (d : disk),
    root (snd (getFolderStats vaultPath fuel folderPath d)) = root d
    /\ forall e, fst (getFolderStats vaultPath fuel folderPath d) <> Err e.
Proof.
  induction fuel as [|fuel IH]; intros folderPath d.
  - split; [reflexivity | discriminate].
  - rewrite getFolderStats_step. cbv zeta.
    destruct (get (segments (Path.join [vaultPath; folderPath])) (root d))
      as [[f | es |] |];
      try (cbn; split; [reflexivity | intros e0 He0; discriminate He0]).
    pose proof (countEntries_quiet (getFolderStats vaultPath fuel) folderPath
                  (fun p d0 => proj1 (IH p d0)) es 0 0 d) as Hq.
    destruct (countEntries (getFolderStats vaultPath fuel) folderPath es 0 0 d)
      as [[counts | e |] d']; cbn [snd] in Hq;
      (cbn; split; [exact Hq | intros e0 He0; discriminate He0]).
Qed.

(** [getFolderStats] where no directory is. *)
Lemma getFolderStats_none (vaultPath : string) (fuel : nat)
  (folderPath : string) (d : disk) :
  (forall es, get (segments (Path.join [vaultPath; folderPath])) (root d)
              <> Some (Folder es)) ->
  exists code,
    getFolderStats vaultPath (S fuel) folderPath d
    = (Ok (mkStats folderPath 0 0),
       mkDisk (root d)
         ((folderPath, FsError code (Path.join [vaultPath; folderPath]))
          :: warned d)).
Proof.
  intros H. rewrite getFolderStats_step. cbv zeta.
  destruct (get (segments (Path.join [vaultPath; folderPath])) (root d))
    as [[f | es0 |] |]; try (eexists; reflexivity).
  exfalso. eapply H. reflexivity.
Qed.




End FolderFacts.

(* ================================================================== *)
(** * The properties of the specification *)
(* ================================================================== *)

Module Claims.
Import World Examples.

(* ------------------------------------------------------------------ *)
(** ** C2: exactness of the link rewrite *)

(** C2, as stated, fails for the rewrite a folder move triggers, which
    has to reach the notes of the folder: rewriting [foo] to [baz] in
    ["[[foo]] and [[foo/bar]]"] with
    [FolderOperationTool.updateLinksInVault] gives
    ["[[baz]] and [[baz/bar]]"]; the reference to [foo/bar], whose target
    is not [foo] and only begins with it, is rewritten. *)
Lemma C2_folder_rewrite_reaches_below :
  Links.folderRewrite "foo" "baz" "[[foo]] and [[foo/bar]]"
  = Some "[[baz]] and [[baz/bar]]"
  /\ textAt "/vault/index.md"
       (snd (FolderOperationTool.updateLinksInVault "/vault" "foo" "baz"
               belowVault))
     = Some "[[baz]] and [[baz/bar]]"
  /\ "foo/bar" <> "foo"
  /\ String.prefix "foo" "foo/bar" = true
  /\ "[[baz]] and [[baz/bar]]" <> "[[baz]] and [[foo/bar]]".
Proof.
  split; [vm_compute; reflexivity |].
  split; [vm_compute; reflexivity |].
  split; [discriminate |]. split; [reflexivity | discriminate].
Qed.

(** C2, amended: with identifiers that are not empty and free of
    pattern syntax, in a text of plain text and well-formed references,
    the rewrite of a note move retargets exactly the references whose
    target equals the old identifier and leaves every other reference as
    it is, also one whose target merely begins with the old identifier
    (so ["[[foo]] and [[foobar]]"] becomes ["[[baz]] and [[foobar]]"]);
    the rewrite of a folder move retargets the references to the old
    folder identifier and to what lies below it, keeping the rest of the
    target and the alias, and leaves the plain text and every reference
    whose target does not begin with the old identifier as they are.
    (Nothing is said of a target that begins with the old identifier
    without being it or lying below it.) *)
Theorem C2_rewrite_exactness (old new : string) (gs hs : list Doc.segment) :
  Regex.literal old = true -> old <> "" ->
  Regex.plainReplacement new = true ->
  Doc.wellFormed gs = true ->
  Doc.wellFormed hs = true ->
  Links.noteRewrite old new (Doc.render gs)
  = Some (Doc.render (map (Doc.retarget old new) gs))
  /\ (exists hs',
        Links.folderRewrite old new (Doc.render hs) = Some (Doc.render hs')
        /\ Forall2
             (fun h h' =>
                Doc.noLookalike old h = true -> h' = Doc.retargetBelow old new h)
             hs hs')
  /\ Links.noteRewrite "foo" "baz" "[[foo]] and [[foobar]]"
     = Some "[[baz]] and [[foobar]]".
Proof.
  intros Hold Hne Hnew Hgs Hhs. split; [| split].
  - now apply LinkFacts.noteRewrite_render.
  - exists (map (Doc.retargetPrefix old new) hs). split.
    + now apply LinkFacts.folderRewrite_render.
    + clear Hhs. induction hs as [|h hs IH]; [constructor |].
      cbn [map]. constructor; [| exact IH].
      intros Hlook.
      pose proof (LinkFacts.retargetPrefix_below old new [h]) as H.
      cbn [forallb map] in H. rewrite Hlook in H.
      specialize (H eq_refl). now injection H.
  - vm_compute. reflexivity.
Qed.

Lemma C2_rewrite_exactness_witness :
  Links.noteRewrite "foo" "baz"
    (Doc.render [Doc.Link "foo" None; Doc.Text " and ";
                 Doc.Link "foobar" (Some "bar")])
  = Some (Doc.render [Doc.Link "baz" None; Doc.Text " and ";
                      Doc.Link "foobar" (Some "bar")])
  /\ (exists hs',
        Links.folderRewrite "foo" "baz"
          (Doc.render [Doc.Link "foo/x" (Some "al"); Doc.Text " [ok] ";
                       Doc.Link "foo" None; Doc.Link "bar" None])
        = Some (Doc.render hs')
        /\ Forall2
             (fun h h' =>
                Doc.noLookalike "foo" h = true ->
                h' = Doc.retargetBelow "foo" "baz" h)
             [Doc.Link "foo/x" (Some "al"); Doc.Text " [ok] ";
              Doc.Link "foo" None; Doc.Link "bar" None]
             hs')
  /\ Links.noteRewrite "foo" "baz" "[[foo]] and [[foobar]]"
     = Some "[[baz]] and [[foobar]]".
Proof.
  apply (C2_rewrite_exactness "foo" "baz"
           [Doc.Link "foo" None; Doc.Text " and "; Doc.Link "foobar" (Some "bar")]
           [Doc.Link "foo/x" (Some "al"); Doc.Text " [ok] ";
            Doc.Link "foo" None; Doc.Link "bar" None]);
    first [reflexivity | discriminate].
Defined.

(* ------------------------------------------------------------------ *)
(** ** C8: a note is written only where the rewrite changed it *)




(* ------------------------------------------------------------------ *)
(** ** C6: tools that are not in the registry *)

(** C6, as stated, fails: a task whose classification requires the tool
    [ghost_tool], which the agent does not have, is planned without an
    error ([selectTools] answers the empty list) and completes with
    [success: true]. *)
Lemma C6_missing_tool_task_succeeds :
  BaseAgent.selectTools oneTool
    (BaseAgent.mkUnderstanding "create" (Some ["ghost_tool"]) []) = []
  /\ BaseAgent.execute oneTool asksForGhost
       (planWith [BaseAgent.mkStep "note_creation" tt]) "make a note"
       (emptyWorld [])
     = (Ok (Types.mkResult true "Task completed successfully"
              (Some ["created"]) None),
        emptyWorld []).
Proof. split; reflexivity. Qed.

(** C6, amended: planning keeps the registered tools whose name is among
    the required ones and drops the other names without an error; a plan
    step that names a tool absent from the registry makes [executeStep]
    throw [Tool ... not found] without running anything, which ends the
    plan there and makes the task fail with that error. *)
Theorem C6_absent_tool_fails_at_execution
  (Params Res : Type) (tools : list (Types.Tool Params Res))
  (understandTask : string -> M BaseAgent.TaskUnderstanding)
  (createExecutionPlan :
     BaseAgent.TaskUnderstanding -> list (Types.Tool Params Res)
     -> M (list (BaseAgent.Step Params)))
  (task : string) (tu : BaseAgent.TaskUnderstanding)
  (before after : list (BaseAgent.Step Params)) (step : BaseAgent.Step Params)
  (results : list Res) (w w0 w1 w2 : world) :
  (forall t, In t tools -> Types.name t <> BaseAgent.toolName step) ->
  understandTask task w = (Ok tu, w0) ->
  createExecutionPlan tu (BaseAgent.selectTools tools tu) w0
  = (Ok (before ++ step :: after)%list, w1) ->
  BaseAgent.executePlan tools before w1 = (Ok results, w2) ->
  (forall t,
      In t (BaseAgent.selectTools tools tu)
      <-> In t tools
          /\ exists names, BaseAgent.requiredTools tu = Some names
                           /\ In (Types.name t) names)
  /\ BaseAgent.executeStep tools step w2
     = (Err (ToolNotFound (BaseAgent.toolName step)), w2)
  /\ BaseAgent.execute tools understandTask createExecutionPlan task w
     = (Ok (Types.mkResult false "Task execution failed" None
              (Some (ToolNotFound (BaseAgent.toolName step)))),
        w2).
Proof.
  intros Habsent Hunderstand Hplan Hbefore.
  assert (Hstep : forall w', BaseAgent.executeStep tools step w'
                             = (Err (ToolNotFound (BaseAgent.toolName step)), w')).
  { intros w'. unfold BaseAgent.executeStep.
    destruct (find (fun t => String.eqb (Types.name t) (BaseAgent.toolName step))
                tools) as [t|] eqn:E; [|reflexivity].
    apply find_some in E as [Hin Heq]. apply String.eqb_eq in Heq.
    now elim (Habsent t Hin). }
  split; [| split].
  - intros t. unfold BaseAgent.selectTools. rewrite filter_In.
    split; intros [Hin H]; (split; [exact Hin |]).
    + destruct (BaseAgent.requiredTools tu) as [names|]; [|discriminate].
      exists names. split; [reflexivity |].
      apply existsb_exists in H as (x & Hx & E).
      apply String.eqb_eq in E. now subst.
    + destruct H as (names & -> & Hn).
      apply existsb_exists. exists (Types.name t).
      split; [assumption | apply String.eqb_refl].
  - apply Hstep.
  - assert (Hrun : BaseAgent.executePlan tools (before ++ step :: after)%list w1
                   = (Err (ToolNotFound (BaseAgent.toolName step)), w2)).
    { clear Hplan. revert results w1 Hbefore.
      induction before as [|s0 before IH]; intros results w1 Hbefore.
      - cbn in Hbefore. injection Hbefore as _ <-.
        cbn [app BaseAgent.executePlan]. unfold bind. now rewrite Hstep.
      - cbn [app BaseAgent.executePlan] in *. unfold bind in *.
        destruct (BaseAgent.executeStep tools s0 w1) as [[r| |] w1'];
          try discriminate.
        destruct (BaseAgent.executePlan tools before w1') as [[rs| |] w1'']
          eqn:E; try discriminate.
        cbn in Hbefore. injection Hbefore as _ <-.
        now rewrite (IH rs w1' E). }
    unfold BaseAgent.execute, tryCatch, bind.
    now rewrite Hunderstand, Hplan, Hrun.
Qed.

Lemma C6_absent_tool_fails_at_execution_witness :
  BaseAgent.execute oneTool asksForGhost
    (planWith [BaseAgent.mkStep "note_creation" tt;
               BaseAgent.mkStep "ghost_tool" tt;
               BaseAgent.mkStep "note_creation" tt])
    "make a note" (emptyWorld [])
  = (Ok (Types.mkResult false "Task execution failed" None
           (Some (ToolNotFound "ghost_tool"))),
     emptyWorld []).
Proof.
  refine (proj2 (proj2
    (C6_absent_tool_fails_at_execution unit string oneTool asksForGhost
       (planWith [BaseAgent.mkStep "note_creation" tt;
                  BaseAgent.mkStep "ghost_tool" tt;
                  BaseAgent.mkStep "note_creation" tt])
       "make a note"
       (BaseAgent.mkUnderstanding "create" (Some ["ghost_tool"]) [])
       [BaseAgent.mkStep "note_creation" tt]
       [BaseAgent.mkStep "note_creation" tt]
       (BaseAgent.mkStep "ghost_tool" tt)
       ["created"] (emptyWorld []) (emptyWorld []) (emptyWorld [])
       (emptyWorld []) _ _ _ _))).
  - intros t [<- | []]. discriminate.
  - reflexivity.
  - reflexivity.
  - reflexivity.
Defined.

(* ------------------------------------------------------------------ *)
(** ** C3: where the tools look for a path *)




(* ------------------------------------------------------------------ *)
(** ** C7: round trip of the Document Model *)

(** C7: for every well-formed frontmatter [f] and every body [b], parsing
    the text that serializing [(f, b)] gives yields [(f, b)]. *)
Theorem C7_parse_serialize_roundtrip (f : FrontMatter) (b : string) :
  DocumentModel.wellFormed f = true ->
  DocumentModel.parse (DocumentModel.serialize f b) = inl (f, b).
Proof. exact (DocFacts.parse_serialize f b). Qed.

Lemma C7_parse_serialize_roundtrip_witness :
  DocumentModel.parse
    (DocumentModel.serialize
       [("title", VStr "Ideas"); ("tags", VArr ["draft"; "reviewed"]);
        ("created", VStr "2024-01-01T00:00:00.000Z")]
       "A body with [[links]] and a line of dashes:
---
and more")
  = inl ([("title", VStr "Ideas"); ("tags", VArr ["draft"; "reviewed"]);
          ("created", VStr "2024-01-01T00:00:00.000Z")],
         "A body with [[links]] and a line of dashes:
---
and more").
Proof.
  apply (C7_parse_serialize_roundtrip
           [("title", VStr "Ideas"); ("tags", VArr ["draft"; "reviewed"]);
            ("created", VStr "2024-01-01T00:00:00.000Z")]).
  reflexivity.
Defined.

(* ------------------------------------------------------------------ *)
(** ** C1: a move retargets the references to the moved note *)




(* ------------------------------------------------------------------ *)
(** ** C10: creating a note over an existing one *)

(** C10: a creation whose title gives the file name of a note that is
    already in the target folder succeeds and replaces the text of that
    note by the new content under the new frontmatter; what the note held
    before plays no part, and no error is raised. *)
Theorem C10_create_overwrites (d : Deps) (vault : string)
  (params : NoteCreationTool.NoteCreationParams) (w : world)
  (existing : file) (data : string) :
  Fs.lookup (NoteCreationTool.filePath vault params) (files w) = Some existing ->
  canWrite existing = true ->
  Fs.mkdir (Path.join [vault;
                       match NoteCreationTool.folder params with
                       | Some f => f | None => "" end]) w = (Ok tt, w) ->
  stringify d (createdContent vault params w)
    (NoteCreationTool.finalFrontmatter params
       (clock d (clockReads w)) (clock d (S (clockReads w)))) = Some data ->
  exists note w',
    NoteCreationTool.execute d vault params w = (Ok note, w')
    /\ textAt (NoteCreationTool.filePath vault params) w' = Some data
    /\ Types.path note = NoteCreationTool.filePath vault params
    /\ Types.content note = createdContent vault params w
    /\ Types.frontmatter note
       = NoteCreationTool.finalFrontmatter params
           (clock d (clockReads w)) (clock d (S (clockReads w))).
Proof.
  intros Hexists Hwritable Hmkdir Hprint.
  unfold NoteCreationTool.execute, tryCatch at 1, bind at 1.
  rewrite Hmkdir.
  set (tpl := Path.join [vault; "_templates";
                         match NoteCreationTool.template params with
                         | Some t => t | None => "" end]) in *.
  set (content0 := match NoteCreationTool.content params with
                   | Some c => c | None => "" end) in *.
  (* the world after the template step: only the console may have grown *)
  assert (Hstep : exists cons,
    (if Fm.given (NoteCreationTool.template params)
     then tryCatch (Fs.readFile tpl)
            (fun _ => Fs.log (NoteCreationTool.templateWarning params) ;;;
                      ret content0)
     else ret content0) w
    = (Ok (createdContent vault params w),
       mkWorld (files w) (written w) cons (clockReads w))).
  { unfold createdContent. fold tpl. fold content0.
    destruct (Fm.given (NoteCreationTool.template params)).
    - unfold tryCatch, Fs.readFile, bind, Fs.log, ret.
      destruct (Fs.lookup tpl (files w)) as [f|].
      + destruct (canRead f).
        * exists (console w). now destruct w.
        * eexists. reflexivity.
      + eexists. reflexivity.
    - exists (console w). unfold ret. now destruct w. }
  destruct Hstep as (cons & Hstep).
  unfold bind at 1. rewrite Hstep.
  unfold bind, now, printNote. cbn [clockReads files written console].
  rewrite Hprint. unfold ret, Fs.writeFile.
  cbn [clockReads files written console].
  rewrite Hexists, Hwritable.
  eexists. eexists. split; [reflexivity |].
  unfold textAt. cbn [files Types.path Types.content Types.frontmatter].
  rewrite FsFacts.lookup_store_same. repeat split; reflexivity.
Qed.

Lemma C10_create_overwrites_witness :
  exists note w',
    NoteCreationTool.execute model "/vault" ideasAgain ideasVault = (Ok note, w')
    /\ textAt "/vault/ideas.md" w'
       = Some (DocumentModel.serialize
                 [("title", VStr "Ideas!"); ("tags", VArr ["new"]);
                  ("created", VStr "2024-01-01T00:00:00.000Z");
                  ("modified", VStr "2024-01-01T00:00:00.000Z")]
                 "fresh")
    /\ Types.path note = "/vault/ideas.md"
    /\ Types.content note = "fresh"
    /\ Types.frontmatter note
       = [("title", VStr "Ideas!"); ("tags", VArr ["new"]);
          ("created", VStr "2024-01-01T00:00:00.000Z");
          ("modified", VStr "2024-01-01T00:00:00.000Z")].
Proof.
  apply (C10_create_overwrites model "/vault" ideasAgain ideasVault
           (note (DocumentModel.serialize
                    [("title", VStr "Ideas"); ("tags", VArr ["draft"; "kept"]);
                     ("author", VStr "someone")]
                    "months of work"))
           (DocumentModel.serialize
              [("title", VStr "Ideas!"); ("tags", VArr ["new"]);
               ("created", VStr "2024-01-01T00:00:00.000Z");
               ("modified", VStr "2024-01-01T00:00:00.000Z")]
              "fresh"));
    reflexivity.
Defined.

(* ------------------------------------------------------------------ *)
(** ** C4: renaming a tag *)

(** C4, as stated, fails on the place of the new tag: a note with the
    tags [old, x] has the tags [x, new] after the rename, where a rename
    in place gives [new, x]. *)
Lemma C4_new_tag_goes_to_the_end :
  tagsAt model "first.md" taggedVault = Some ["old"; "x"]
  /\ (exists stats w',
        TagManagementTool.renameTag model "." "old" "new" taggedVault
        = (Ok stats, w')
        /\ tagsAt model "first.md" w' = Some ["x"; "new"])
  /\ renameInPlace "old" "new" ["old"; "x"] = ["new"; "x"]
  /\ ["x"; "new"] <> ["new"; "x"].
Proof.
  split; [reflexivity |]. split.
  - eexists. eexists. split; [vm_compute; reflexivity | reflexivity].
  - split; [reflexivity | discriminate].
Qed.

(** C4, amended: for distinct tags [old] and [new], after a rename that
    completes (where the package reads back what it wrote and the notes
    the rename lists are read at distinct places), no note the rename
    goes through, read where the rename reads and writes it (at
    [path.join(vaultPath, p)] for the listed path [p]), has [old] in its
    tag set; a note that had [old] has been written with a tags array
    that holds [new] exactly once, no [old] and no repeated entry, and
    in which the other tags keep their order; [new] is not put where
    [old] was: the array is the former tag set without [old], with [new]
    added at the end unless it was there.  A note without [old] keeps
    its frontmatter and its body. *)
Theorem C4_rename_replaces_tag (d : Deps) (vault oldTag newTag : string)
  (w w' : world) (stats : TagManagementTool.TagStats) (p : string) :
  RoundTrip d ->
  NoDup (map (fun q => Path.join [vault; q]) (notesOf vault w)) ->
  oldTag <> newTag ->
  TagManagementTool.renameTag d vault oldTag newTag w = (Ok stats, w') ->
  In p (notesOf vault w) ->
  exists fm body fm',
    parsedAt d (Path.join [vault; p]) w = Some (fm, body)
    /\ parsedAt d (Path.join [vault; p]) w' = Some (fm', body)
    /\ JsSet.has oldTag (TagManagementTool.tagsOf fm') = false
    /\ (JsSet.has oldTag (TagManagementTool.tagsOf fm) = true ->
        exists tags',
          Fm.get "tags" fm' = VArr tags'
          /\ NoDup tags' /\ ~ In oldTag tags'
          /\ count_occ string_dec tags' newTag = 1
          /\ tags' = JsSet.add newTag
                       (JsSet.delete oldTag (TagManagementTool.tagsOf fm))
          /\ JsSet.delete newTag (JsSet.delete oldTag tags')
             = JsSet.delete newTag
                 (JsSet.delete oldTag (TagManagementTool.tagsOf fm))
          /\ (forall l, Fm.get "tags" fm = VArr l -> NoDup l ->
                tags' = JsSet.add newTag (JsSet.delete oldTag l)))
    /\ (JsSet.has oldTag (TagManagementTool.tagsOf fm) = false -> fm' = fm).
Proof.
  intros Hrt Hndp Hne Hrun Hp.
  apply TagOpFacts.renameTag_inv in Hrun as (notes & Hloop & _).
  destruct (TagOpFacts.processFiles_parsed_at d vault
              (TagManagementTool.renameChange oldTag newTag) (notesOf vault w)
              w w' notes Hrt Hndp Hloop p Hp)
    as (fm & body & Hbefore & Hafter).
  unfold Tags.fullPath in Hbefore, Hafter.
  pose proof (TagFacts.tagsOf_NoDup fm) as Hnd.
  unfold TagManagementTool.renameChange in Hafter.
  destruct (JsSet.has oldTag (TagManagementTool.tagsOf fm)) eqn:Ehas.
  - destruct Hafter as (t & Hafter).
    destruct (TagFacts.renamed_tags oldTag newTag _ Hne Hnd) as (H1 & H2 & H3).
    assert (Hnd' : NoDup (JsSet.add newTag
                            (JsSet.delete oldTag (TagManagementTool.tagsOf fm))))
      by now apply TagFacts.add_NoDup, TagFacts.delete_NoDup.
    eexists fm, body, _. split; [exact Hbefore |]. split; [exact Hafter |].
    split; [now rewrite (TagFacts.tagsOf_updated fm _ t Hnd') |].
    split; [| intros Hf; congruence].
    intros _.
    exists (JsSet.add newTag (JsSet.delete oldTag (TagManagementTool.tagsOf fm))).
    split; [apply TagFacts.updatedFrontmatter_tags |].
    split; [exact Hnd' |]. split; [now apply TagFacts.has_false |].
    split; [exact H2 |]. split; [reflexivity |]. split; [exact H3 |].
    intros l Hl Hndl. unfold TagManagementTool.tagsOf. rewrite Hl.
    cbn [Fm.truthy Fm.elements]. now rewrite (TagFacts.ofList_id l Hndl).
  - exists fm, body, fm. split; [exact Hbefore |]. split; [exact Hafter |].
    split; [exact Ehas |]. split; [intros Hf; congruence | reflexivity].
Qed.

Lemma C4_rename_replaces_tag_witness :
  exists fm body fm',
    parsedAt model (Path.join ["."; "sub/second.md"]) taggedVault
    = Some (fm, body)
    /\ parsedAt model (Path.join ["."; "sub/second.md"])
         (snd (TagManagementTool.renameTag model "." "old" "new" taggedVault))
       = Some (fm', body)
    /\ JsSet.has "old" (TagManagementTool.tagsOf fm') = false
    /\ (JsSet.has "old" (TagManagementTool.tagsOf fm) = true ->
        exists tags',
          Fm.get "tags" fm' = VArr tags'
          /\ NoDup tags' /\ ~ In "old" tags'
          /\ count_occ string_dec tags' "new" = 1
          /\ tags' = JsSet.add "new"
                       (JsSet.delete "old" (TagManagementTool.tagsOf fm))
          /\ JsSet.delete "new" (JsSet.delete "old" tags')
             = JsSet.delete "new"
                 (JsSet.delete "old" (TagManagementTool.tagsOf fm))
          /\ (forall l, Fm.get "tags" fm = VArr l -> NoDup l ->
                tags' = JsSet.add "new" (JsSet.delete "old" l)))
    /\ (JsSet.has "old" (TagManagementTool.tagsOf fm) = false -> fm' = fm).
Proof.
  eapply (C4_rename_replaces_tag model "." "old" "new" taggedVault _ _
            "sub/second.md").
  - apply DocFacts.deps_roundTrip.
  - apply FsFacts.distinct_NoDup. vm_compute. reflexivity.
  - discriminate.
  - vm_compute. reflexivity.
  - vm_compute. tauto.
Defined.

(* ------------------------------------------------------------------ *)
(** ** C9: the [modified] stamp and the tags of a note *)





(* ------------------------------------------------------------------ *)
(** ** C5: a failure on one document *)




End Claims.

(* ================================================================== *)
(** * Further properties of the code *)
(* ================================================================== *)

Module Further.
Import ShapeFacts World Notes Tags NoteManagementAgent.

(** X1: the link identifier that [pathToWikiLink] gives a path holds no
    white space, has as many segments between slashes as the path (the
    folders stay in it), and does not depend on the case of the
    extension. *)
Theorem X1_identifier_shape (filePath : string) :
  Str.forallb (fun c => negb (Str.isSpace c))
    (NoteMoveAndRenameTool.pathToWikiLink filePath) = true
  /\ List.length (Str.split "/" (NoteMoveAndRenameTool.pathToWikiLink filePath))
     = List.length (Str.split "/" filePath)
  /\ NoteMoveAndRenameTool.pathToWikiLink (filePath ++ ".MD")
     = NoteMoveAndRenameTool.pathToWikiLink (filePath ++ ".md").
Proof.
  unfold NoteMoveAndRenameTool.pathToWikiLink.
  split; [| split].
  - rewrite pathToWikiLink_plain. apply forallb_concat; [reflexivity |].
    apply Forall_forall. intros x Hx. apply in_map_iff in Hx as (y & <- & _).
    apply squeeze_noSpace.
  - rewrite pathToWikiLink_plain, split_concat.
    + rewrite length_map. destruct (stripMd_suffix filePath) as (e & Hp & He).
      rewrite Hp at 2. now rewrite length_split_append.
    + pose proof (DocFacts.split_nonempty "/" (Plain.stripMd filePath)) as H.
      destruct (Str.split "/" (Plain.stripMd filePath)); [congruence | discriminate].
    + apply Forall_forall. intros x Hx. apply in_map_iff in Hx as (y & <- & Hy).
      apply squeeze_noSlash.
      pose proof (split_noSep "/" (Plain.stripMd filePath)) as H.
      rewrite Forall_forall in H. now apply H.
  - now rewrite !pathToWikiLink_plain, !stripMd_app.
Qed.

(** X2: a sanitized file name is empty or a slug (lower-case letters and
    digits in groups separated by single dashes, no dash at either end),
    and sanitizing it again changes nothing. *)
Theorem X2_sanitizeFilename_slug (filename : string) :
  (NoteCreationTool.sanitizeFilename filename = ""
   \/ Plain.slug (NoteCreationTool.sanitizeFilename filename) = true)
  /\ NoteCreationTool.sanitizeFilename (NoteCreationTool.sanitizeFilename filename)
     = NoteCreationTool.sanitizeFilename filename.
Proof.
  pose proof (sanitizeFilename_shape filename) as H.
  split; [exact H |].
  destruct H as [-> | H]; [reflexivity | now apply sanitizeFilename_slug].
Qed.

(** X3: for a name whose characters are below U+0100, the sanitized
    file name is empty exactly when the name has no letter [A] to [Z] of
    either case and no digit (the note of such a title goes to the file
    [.md]), and the name and its lower-case form are sanitized to the
    same file name. *)
Theorem X3_sanitizeFilename_empty (filename : string) :
  (NoteCreationTool.sanitizeFilename filename = ""
   <-> Plain.existsb Plain.isLetterOrDigit filename = false)
  /\ NoteCreationTool.sanitizeFilename (Str.toLowerCase filename)
     = NoteCreationTool.sanitizeFilename filename.
Proof.
  split; [apply sanitizeFilename_empty |].
  now rewrite !sanitizeFilename_plain, toLowerCase_idem.
Qed.

(** X4: rewriting the references to [old] into references to [new] and
    then those to [new] back into references to [old] gives the text in
    which every reference to [new] points to [old]: the text is restored
    when it held no reference to [new], and a reference to [new] that was
    there before is captured (identifiers free of pattern syntax). *)
Theorem X4_rewrite_there_and_back (old new : string) (gs : list Doc.segment) :
  Regex.literal old = true -> Regex.literal new = true ->
  Doc.wellFormed gs = true ->
  exists t,
    Links.noteRewrite old new (Doc.render gs) = Some t
    /\ Links.noteRewrite new old t
       = Some (Doc.render (map (Doc.retarget new old) gs))
    /\ (forallb (fun g => negb (Refs.refersTo new g)) gs = true ->
        Links.noteRewrite new old t = Some (Doc.render gs)).
Proof.
  intros Hold Hnew Hgs.
  exists (Doc.render (map (Doc.retarget old new) gs)).
  assert (Hback : Links.noteRewrite new old
                    (Doc.render (map (Doc.retarget old new) gs))
                  = Some (Doc.render (map (Doc.retarget new old) gs))).
  { rewrite LinkFacts.noteRewrite_render.
    - now rewrite RefFacts.retarget_back.
    - exact Hnew.
    - now apply RefFacts.literal_plain.
    - apply RefFacts.retarget_wellFormed; [| exact Hgs].
      now apply RefFacts.literal_targetOk. }
  split; [| split].
  - apply LinkFacts.noteRewrite_render; [exact Hold | | exact Hgs].
    now apply RefFacts.literal_plain.
  - exact Hback.
  - intros Hnone. rewrite Hback. now rewrite RefFacts.retarget_none.
Qed.

Lemma X4_rewrite_there_and_back_witness :
  exists t,
    Links.noteRewrite "a/b" "c/d" "see [[a/b|the note]], [[a/bc]] and [[e]]"
    = Some t
    /\ Links.noteRewrite "c/d" "a/b" t
       = Some "see [[a/b|the note]], [[a/bc]] and [[e]]"
    /\ (true = true ->
        Links.noteRewrite "c/d" "a/b" t
        = Some "see [[a/b|the note]], [[a/bc]] and [[e]]").
Proof.
  apply (X4_rewrite_there_and_back "a/b" "c/d"
           [Doc.Text "see "; Doc.Link "a/b" (Some "the note"); Doc.Text ", ";
            Doc.Link "a/bc" None; Doc.Text " and "; Doc.Link "e" None]);
    reflexivity.
Defined.



(** X6: a move whose destination is the place of the source (the way to
    give a note a new title and leave it where it is) deletes the note:
    the tool writes the destination, then unlinks the source, and reports
    success with the path of a file that is no longer there. *)
Theorem X6_move_onto_itself_deletes (d : Deps) (vault : string)
  (params : NoteMoveAndRenameTool.NoteMoveParams) (w w' : world)
  (note : Types.Note) :
  Path.join [vault; NoteMoveAndRenameTool.sourcePath params]
  = Path.join [vault; NoteMoveAndRenameTool.destinationPath params] ->
  NoteMoveAndRenameTool.execute d vault params w = (Ok note, w') ->
  textAt (Path.join [vault; NoteMoveAndRenameTool.sourcePath params]) w <> None
  /\ Types.path note = Path.join [vault; NoteMoveAndRenameTool.sourcePath params]
  /\ textAt (Types.path note) w' = None.
Proof.
  intros Hsame Hrun.
  destruct (MoveFacts.move_run d vault params w w' note Hrun)
    as (raw & fm & body & data & r & Hraw & _ & _ & Hlinks & Hpath & _).
  rewrite <- Hsame in Hlinks, Hpath.
  set (src := Path.join [vault; NoteMoveAndRenameTool.sourcePath params]) in *.
  split; [congruence |]. split; [exact Hpath |]. rewrite Hpath.
  set (w3 := mkWorld (Fs.remove src (Fs.store src (mkFile data r true) (files w)))
               (src :: written w) (console w) (S (clockReads w))) in *.
  assert (Hgone : Fs.lookup src (files w3) = None)
    by apply FsFacts.lookup_remove_same.
  assert (Hkeep : Fs.lookup src (files w') = Fs.lookup src (files w3)).
  { destruct (match NoteMoveAndRenameTool.updateLinks params with
              | Some b => b | None => true end).
    - pose proof (RefFacts.update_frame
                    (Links.noteRewrite
                       (NoteMoveAndRenameTool.pathToWikiLink
                          (NoteMoveAndRenameTool.sourcePath params))
                       (NoteMoveAndRenameTool.pathToWikiLink
                          (NoteMoveAndRenameTool.destinationPath params)))
                    vault w3) as (_ & (_ & Hout) & _).
      change (tryCatch _ _ w3)
        with (NoteMoveAndRenameTool.updateLinksInVault vault
                (NoteMoveAndRenameTool.sourcePath params)
                (NoteMoveAndRenameTool.destinationPath params) w3) in Hout.
      rewrite Hlinks in Hout. cbn [snd] in Hout. apply Hout.
      intros Hin. apply MoveFacts.notesOf_In in Hin as (f & Hf). congruence.
    - unfold ret in Hlinks. now injection Hlinks as <-. }
  unfold textAt. now rewrite Hkeep, Hgone.
Qed.

Lemma X6_move_onto_itself_deletes_witness :
  exists note w',
    NoteMoveAndRenameTool.execute Examples.model "/vault"
      (NoteMoveAndRenameTool.mkParams "a/b.md" "a/b.md" (Some "A better title")
         (Some false))
      Examples.movedVault
    = (Ok note, w')
    /\ textAt "/vault/a/b.md" Examples.movedVault <> None
    /\ Types.path note = "/vault/a/b.md"
    /\ textAt (Types.path note) w' = None.
Proof.
  eexists. eexists. split; [vm_compute; reflexivity |].
  apply (X6_move_onto_itself_deletes Examples.model "/vault"
           (NoteMoveAndRenameTool.mkParams "a/b.md" "a/b.md"
              (Some "A better title") (Some false))
           Examples.movedVault);
    [reflexivity | vm_compute; reflexivity].
Defined.

(** X7: a move without link update, to a place other than that of the
    source, leaves at the destination the body of the note under its
    frontmatter with the new title (the old one when none or an empty one
    is given) and the reading of the clock as [modified], every other key
    as it was; whatever was at the destination is replaced; the source is
    gone and every other file is as it was. *)
Theorem X7_move_without_link_update (d : Deps) (vault : string)
  (params : NoteMoveAndRenameTool.NoteMoveParams) (w w' : world)
  (note : Types.Note) :
  let src := Path.join [vault; NoteMoveAndRenameTool.sourcePath params] in
  let dst := Path.join [vault; NoteMoveAndRenameTool.destinationPath params] in
  RoundTrip d ->
  NoteMoveAndRenameTool.updateLinks params = Some false ->
  src <> dst ->
  NoteMoveAndRenameTool.execute d vault params w = (Ok note, w') ->
  exists fm body,
    parsedAt d src w = Some (fm, body)
    /\ parsedAt d dst w' = Some (Types.frontmatter note, body)
    /\ Types.content note = body
    /\ Fm.get "title" (Types.frontmatter note)
       = (if Fm.given (NoteMoveAndRenameTool.newTitle params)
          then VStr (match NoteMoveAndRenameTool.newTitle params with
                     | Some t => t | None => "" end)
          else Fm.get "title" fm)
    /\ Fm.get "modified" (Types.frontmatter note) = VStr (clock d (clockReads w))
    /\ (forall k, k <> "title" -> k <> "modified" ->
                  Fm.get k (Types.frontmatter note) = Fm.get k fm)
    /\ textAt src w' = None
    /\ (forall q, q <> src -> q <> dst ->
                  Fs.lookup q (files w') = Fs.lookup q (files w)).
Proof.
  intros src dst Hrt Hno Hne Hrun.
  destruct (MoveFacts.move_run d vault params w w' note Hrun)
    as (raw & fm & body & data & r & Hraw & Hparse & Hprint & Hlinks
        & Hpath & Hcontent & Hfm).
  fold src dst in Hraw, Hlinks, Hpath.
  rewrite Hno in Hlinks. unfold ret in Hlinks. injection Hlinks as <-.
  exists fm, body. rewrite Hfm.
  split; [unfold parsedAt; now rewrite Hraw |].
  split.
  { unfold parsedAt, textAt. cbn [files].
    rewrite FsFacts.lookup_remove_other by congruence.
    rewrite FsFacts.lookup_store_same. cbn [text]. now apply Hrt. }
  split; [exact Hcontent |].
  unfold NoteMoveAndRenameTool.updatedFrontmatter.
  split; [rewrite TagFacts.get_set_other by discriminate;
          apply TagFacts.get_set_same |].
  split; [apply TagFacts.get_set_same |].
  split; [intros k Hk1 Hk2; now rewrite !TagFacts.get_set_other by congruence |].
  split.
  - unfold textAt. cbn [files]. now rewrite FsFacts.lookup_remove_same.
  - intros q Hq1 Hq2. cbn [files].
    now rewrite FsFacts.lookup_remove_other, FsFacts.lookup_store_other.
Qed.

Lemma X7_move_without_link_update_witness :
  exists note w' fm body,
    NoteMoveAndRenameTool.execute Examples.model "/vault"
      (NoteMoveAndRenameTool.mkParams "a/b.md" "c/d.md" (Some "") (Some false))
      Examples.movedVault
    = (Ok note, w')
    /\ parsedAt Examples.model "/vault/a/b.md" Examples.movedVault
       = Some (fm, body)
    /\ parsedAt Examples.model "/vault/c/d.md" w'
       = Some (Types.frontmatter note, body)
    /\ Types.content note = body
    /\ Fm.get "title" (Types.frontmatter note) = Fm.get "title" fm
    /\ Fm.get "modified" (Types.frontmatter note)
       = VStr "2024-01-01T00:00:00.000Z"
    /\ (forall k, k <> "title" -> k <> "modified" ->
                  Fm.get k (Types.frontmatter note) = Fm.get k fm)
    /\ textAt "/vault/a/b.md" w' = None
    /\ (forall q, q <> "/vault/a/b.md" -> q <> "/vault/c/d.md" ->
                  Fs.lookup q (files w') = Fs.lookup q (files Examples.movedVault)).
Proof.
  eexists. eexists.
  assert (Hrun : NoteMoveAndRenameTool.execute Examples.model "/vault"
                   (NoteMoveAndRenameTool.mkParams "a/b.md" "c/d.md" (Some "")
                      (Some false))
                   Examples.movedVault
                 = (Ok _, _)) by (vm_compute; reflexivity).
  destruct (X7_move_without_link_update Examples.model "/vault"
              (NoteMoveAndRenameTool.mkParams "a/b.md" "c/d.md" (Some "")
                 (Some false))
              Examples.movedVault _ _
              (DocFacts.deps_roundTrip Examples.fixedClock) eq_refl
              ltac:(discriminate) Hrun) as (fm & body & H).
  exists fm, body. split; [exact Hrun | exact H].
Defined.

(** X8: an update cannot empty the body or the title of a note: a
    [content] or a [title] that is missing or the empty string leaves the
    one of the note; the [tags] of the call replace those of the note
    also when they are the empty list, and missing [tags] leave them. *)
Theorem X8_update_falsy_parameters (d : Deps) (vault : string)
  (params : NoteUpdateTool.NoteUpdateParams) (w w' : world)
  (upd : NoteUpdateTool.Updated) :
  RoundTrip d ->
  NoteUpdateTool.execute d vault params w = (Ok upd, w') ->
  let p := Path.join [vault; NoteUpdateTool.notePath params] in
  exists existing body,
    parsedAt d p w = Some (existing, body)
    /\ parsedAt d p w'
       = Some (NoteUpdateTool.newFrontmatter upd, NoteUpdateTool.newContent upd)
    /\ (NoteUpdateTool.content params = None
        \/ NoteUpdateTool.content params = Some "" ->
        NoteUpdateTool.newContent upd = body)
    /\ (NoteUpdateTool.title params = None
        \/ NoteUpdateTool.title params = Some "" ->
        Fm.get "title" (NoteUpdateTool.newFrontmatter upd)
        = Fm.get "title" existing)
    /\ (forall l, NoteUpdateTool.tags params = Some l ->
                  Fm.get "tags" (NoteUpdateTool.newFrontmatter upd) = VArr l)
    /\ (NoteUpdateTool.tags params = None ->
        Fm.get "tags" (NoteUpdateTool.newFrontmatter upd)
        = Fm.get "tags" existing).
Proof.
  intros Hrt Hrun p.
  destruct (NoteFacts.update_run d vault params w w' upd Hrun)
    as (raw & existing & body & data & r & Hraw & Hparse & Hprint & -> & ->).
  fold p in Hraw. exists existing, body.
  cbn [NoteUpdateTool.newFrontmatter NoteUpdateTool.newContent].
  split; [unfold parsedAt; now rewrite Hraw |].
  split.
  { unfold parsedAt, textAt. cbn [files]. rewrite FsFacts.lookup_store_same.
    cbn [text]. now apply Hrt. }
  unfold NoteUpdateTool.updatedFrontmatter.
  split; [intros [-> | ->]; reflexivity |].
  split.
  { intros H. rewrite TagFacts.get_set_other by discriminate.
    rewrite TagFacts.get_set_other by discriminate.
    rewrite TagFacts.get_set_same.
    destruct H as [-> | ->]; cbn [Fm.given String.eqb negb]; reflexivity. }
  split.
  - intros l ->. rewrite TagFacts.get_set_other by discriminate.
    apply TagFacts.get_set_same.
  - intros ->. rewrite TagFacts.get_set_other by discriminate.
    apply TagFacts.get_set_same.
Qed.

Lemma X8_update_falsy_parameters_witness :
  exists upd w' existing body,
    NoteUpdateTool.execute Examples.model "."
      (NoteUpdateTool.mkParams "first.md" (Some "") (Some "") (Some []) None)
      Examples.taggedVault
    = (Ok upd, w')
    /\ parsedAt Examples.model "first.md" Examples.taggedVault
       = Some (existing, body)
    /\ parsedAt Examples.model "first.md" w'
       = Some (NoteUpdateTool.newFrontmatter upd, NoteUpdateTool.newContent upd)
    /\ (Some "" = None \/ Some "" = Some "" ->
        NoteUpdateTool.newContent upd = body)
    /\ (Some "" = None \/ Some "" = Some "" ->
        Fm.get "title" (NoteUpdateTool.newFrontmatter upd)
        = Fm.get "title" existing)
    /\ (forall l : list string, Some [] = Some l ->
          Fm.get "tags" (NoteUpdateTool.newFrontmatter upd) = VArr l)
    /\ (Some (@nil string) = None ->
        Fm.get "tags" (NoteUpdateTool.newFrontmatter upd)
        = Fm.get "tags" existing).
Proof.
  eexists. eexists.
  assert (Hrun : NoteUpdateTool.execute Examples.model "."
                   (NoteUpdateTool.mkParams "first.md" (Some "") (Some "")
                      (Some []) None)
                   Examples.taggedVault
                 = (Ok _, _)) by (vm_compute; reflexivity).
  destruct (X8_update_falsy_parameters Examples.model "."
              (NoteUpdateTool.mkParams "first.md" (Some "") (Some "")
                 (Some []) None)
              Examples.taggedVault _ _
              (DocFacts.deps_roundTrip Examples.fixedClock) Hrun)
    as (existing & body & H).
  exists existing, body. split; [exact Hrun | exact H].
Defined.

(** X9: the [frontmatter] of an update cannot set [title], [tags] or
    [modified]: these three are what they would be without it ([modified]
    is the reading of the clock); every other key has the value the
    [frontmatter] of the call gives it, and the value of the note when
    the call does not have the key. *)
Theorem X9_update_frontmatter_merge (d : Deps) (vault : string)
  (params : NoteUpdateTool.NoteUpdateParams) (w w' : world)
  (upd : NoteUpdateTool.Updated) :
  NoteUpdateTool.execute d vault params w = (Ok upd, w') ->
  let p := Path.join [vault; NoteUpdateTool.notePath params] in
  let given := match NoteUpdateTool.frontmatter params with
               | Some f => f | None => [] end in
  exists raw existing body,
    textAt p w = Some raw
    /\ matter d raw = Some (existing, body)
    /\ (forall k, updatedKey k = true ->
          Fm.get k (NoteUpdateTool.newFrontmatter upd)
          = Fm.get k (NoteUpdateTool.updatedFrontmatter existing
                        (withoutFrontmatter params) (clock d (clockReads w))))
    /\ Fm.get "modified" (NoteUpdateTool.newFrontmatter upd)
       = VStr (clock d (clockReads w))
    /\ (forall k, updatedKey k = false -> ~ In k (map fst given) ->
          Fm.get k (NoteUpdateTool.newFrontmatter upd) = Fm.get k existing)
    /\ (forall k v, updatedKey k = false -> NoDup (map fst given) ->
          In (k, v) given ->
          Fm.get k (NoteUpdateTool.newFrontmatter upd) = v).
Proof.
  intros Hrun p given.
  destruct (NoteFacts.update_run d vault params w w' upd Hrun)
    as (raw & existing & body & data & r & Hraw & Hparse & Hprint & -> & ->).
  fold p in Hraw. exists raw, existing, body.
  cbn [NoteUpdateTool.newFrontmatter].
  split; [exact Hraw |]. split; [exact Hparse |].
  assert (Hother : forall k, updatedKey k = false ->
            Fm.get k (NoteUpdateTool.updatedFrontmatter existing params
                        (clock d (clockReads w)))
            = Fm.get k (Fm.spread existing given)).
  { intros k Hk. unfold updatedKey in Hk. cbn [existsb] in Hk.
    rewrite orb_false_r in Hk.
    apply orb_false_iff in Hk as [H1 Hk]. apply orb_false_iff in Hk as [H2 H3].
    apply String.eqb_neq in H1, H2, H3.
    unfold NoteUpdateTool.updatedFrontmatter.
    now rewrite !TagFacts.get_set_other by congruence. }
  split.
  { intros k Hk. unfold updatedKey in Hk. cbn [existsb] in Hk.
    rewrite orb_false_r in Hk.
    unfold NoteUpdateTool.updatedFrontmatter, withoutFrontmatter.
    cbn [NoteUpdateTool.title NoteUpdateTool.tags NoteUpdateTool.frontmatter].
    destruct (String.eqb k "modified") eqn:E3.
    { apply String.eqb_eq in E3. subst k. now rewrite !TagFacts.get_set_same. }
    apply String.eqb_neq in E3.
    rewrite !(TagFacts.get_set_other "modified") by exact E3.
    destruct (String.eqb k "tags") eqn:E2.
    { apply String.eqb_eq in E2. subst k. now rewrite !TagFacts.get_set_same. }
    apply String.eqb_neq in E2.
    rewrite !(TagFacts.get_set_other "tags") by exact E2.
    destruct (String.eqb k "title") eqn:E1.
    { apply String.eqb_eq in E1. subst k. now rewrite !TagFacts.get_set_same. }
    cbn in Hk. discriminate Hk. }
  split; [apply TagFacts.update_modified |].
  split.
  - intros k Hk Hnot. rewrite (Hother k Hk).
    now apply NoteFacts.get_spread_other.
  - intros k v Hk Hnd Hin. rewrite (Hother k Hk).
    now apply NoteFacts.get_spread_in.
Qed.

Lemma X9_update_frontmatter_merge_witness :
  exists upd w' raw existing body,
    NoteUpdateTool.execute Examples.model "."
      (NoteUpdateTool.mkParams "first.md" None None None
         (Some [("title", VStr "Ignored"); ("author", VStr "me")]))
      Examples.taggedVault
    = (Ok upd, w')
    /\ textAt "first.md" Examples.taggedVault = Some raw
    /\ matter Examples.model raw = Some (existing, body)
    /\ (forall k, updatedKey k = true ->
          Fm.get k (NoteUpdateTool.newFrontmatter upd)
          = Fm.get k (NoteUpdateTool.updatedFrontmatter existing
                        (NoteUpdateTool.mkParams "first.md" None None None None)
                        "2024-01-01T00:00:00.000Z"))
    /\ Fm.get "modified" (NoteUpdateTool.newFrontmatter upd)
       = VStr "2024-01-01T00:00:00.000Z"
    /\ (forall k, updatedKey k = false -> ~ In k ["title"; "author"] ->
          Fm.get k (NoteUpdateTool.newFrontmatter upd) = Fm.get k existing)
    /\ (forall k v, updatedKey k = false -> NoDup ["title"; "author"] ->
          In (k, v) [("title", VStr "Ignored"); ("author", VStr "me")] ->
          Fm.get k (NoteUpdateTool.newFrontmatter upd) = v).
Proof.
  eexists. eexists.
  assert (Hrun : NoteUpdateTool.execute Examples.model "."
                   (NoteUpdateTool.mkParams "first.md" None None None
                      (Some [("title", VStr "Ignored"); ("author", VStr "me")]))
                   Examples.taggedVault
                 = (Ok _, _)) by (vm_compute; reflexivity).
  destruct (X9_update_frontmatter_merge Examples.model "."
              (NoteUpdateTool.mkParams "first.md" None None None
                 (Some [("title", VStr "Ignored"); ("author", VStr "me")]))
              Examples.taggedVault _ _ Hrun)
    as (raw & existing & body & H).
  exists raw, existing, body. split; [exact Hrun | exact H].
Defined.

(** X10: the [frontmatter] of a creation cannot set [title], [tags],
    [created] or [modified]: the note gets the title and the tags of the
    call (no tags when none are given) and two successive readings of the
    clock; every other key is as the call gives it.  The file of the note
    holds the content and the frontmatter that the tool returns. *)
Theorem X10_create_frontmatter (d : Deps) (vault : string)
  (params : NoteCreationTool.NoteCreationParams) (w w' : world)
  (note : Types.Note) :
  NoteCreationTool.execute d vault params w = (Ok note, w') ->
  let fm := Types.frontmatter note in
  Fm.get "title" fm = VStr (NoteCreationTool.title params)
  /\ Fm.get "tags" fm
     = VArr (match NoteCreationTool.tags params with Some l => l | None => [] end)
  /\ Fm.get "created" fm = VStr (clock d (clockReads w))
  /\ Fm.get "modified" fm = VStr (clock d (S (clockReads w)))
  /\ (forall k, createdKey k = false ->
        Fm.get k fm
        = Fm.get k (match NoteCreationTool.frontmatter params with
                    | Some f => f | None => [] end))
  /\ (exists data,
        stringify d (Types.content note) fm = Some data
        /\ textAt (Types.path note) w' = Some data).
Proof.
  intros Hrun.
  destruct (NoteFacts.create_run d vault params w w' note Hrun)
    as (data & r & Hprint & -> & ->).
  cbn [Types.frontmatter Types.content Types.path].
  unfold NoteCreationTool.finalFrontmatter.
  split; [now rewrite !TagFacts.get_set_other by discriminate;
          apply TagFacts.get_set_same |].
  split; [now rewrite !TagFacts.get_set_other by discriminate;
          apply TagFacts.get_set_same |].
  split; [now rewrite !TagFacts.get_set_other by discriminate;
          apply TagFacts.get_set_same |].
  split; [apply TagFacts.get_set_same |].
  split.
  - intros k Hk. unfold createdKey in Hk. cbn [existsb] in Hk.
    rewrite orb_false_r in Hk.
    apply orb_false_iff in Hk as [H1 Hk]. apply orb_false_iff in Hk as [H2 Hk].
    apply orb_false_iff in Hk as [H3 H4].
    apply String.eqb_neq in H1, H2, H3, H4.
    now rewrite !TagFacts.get_set_other by congruence.
  - exists data. split; [exact Hprint |].
    unfold textAt. cbn [files]. now rewrite FsFacts.lookup_store_same.
Qed.

Lemma X10_create_frontmatter_witness :
  exists note w',
    NoteCreationTool.execute (DocumentModel.deps Examples.twoDays) "/vault"
      (NoteCreationTool.mkParams "Plans" (Some "to do") None None None
         (Some [("title", VStr "Ignored"); ("author", VStr "me");
                ("created", VStr "1999-01-01T00:00:00.000Z")]))
      (mkWorld [] [] [] 2)
    = (Ok note, w')
    /\ Fm.get "title" (Types.frontmatter note) = VStr "Plans"
    /\ Fm.get "tags" (Types.frontmatter note) = VArr []
    /\ Fm.get "created" (Types.frontmatter note) = VStr "2024-01-01T00:00:00.000Z"
    /\ Fm.get "modified" (Types.frontmatter note) = VStr "2024-01-02T00:00:00.000Z"
    /\ (forall k, createdKey k = false ->
          Fm.get k (Types.frontmatter note)
          = Fm.get k [("title", VStr "Ignored"); ("author", VStr "me");
                      ("created", VStr "1999-01-01T00:00:00.000Z")])
    /\ (exists data,
          stringify (DocumentModel.deps Examples.twoDays) (Types.content note)
            (Types.frontmatter note) = Some data
          /\ textAt (Types.path note) w' = Some data).
Proof.
  eexists. eexists.
  assert (Hrun : NoteCreationTool.execute (DocumentModel.deps Examples.twoDays)
                   "/vault"
                   (NoteCreationTool.mkParams "Plans" (Some "to do") None None
                      None
                      (Some [("title", VStr "Ignored"); ("author", VStr "me");
                             ("created", VStr "1999-01-01T00:00:00.000Z")]))
                   (mkWorld [] [] [] 2)
                 = (Ok _, _)) by (vm_compute; reflexivity).
  split; [exact Hrun |].
  exact (X10_create_frontmatter (DocumentModel.deps Examples.twoDays) "/vault"
           _ _ _ _ Hrun).
Defined.

(** X11: a creation that names a template takes the text of the
    template as the content of the note and ignores the [content] of the
    call; when the template cannot be read it logs a warning and goes on
    with the [content] of the call (not with an empty content). *)
Theorem X11_create_template (d : Deps) (vault : string)
  (params : NoteCreationTool.NoteCreationParams) (w w' : world)
  (note : Types.Note) :
  Fm.given (NoteCreationTool.template params) = true ->
  NoteCreationTool.execute d vault params w = (Ok note, w') ->
  (forall f, Fs.lookup (templatePath vault params) (files w) = Some f ->
             canRead f = true ->
             Types.content note = text f /\ console w' = console w)
  /\ (readable (templatePath vault params) w = false ->
      Types.content note
      = match NoteCreationTool.content params with Some c => c | None => "" end
      /\ console w' = NoteCreationTool.templateWarning params :: console w).
Proof.
  intros Hgiven Hrun.
  destruct (NoteFacts.create_run d vault params w w' note Hrun)
    as (data & r & Hprint & -> & ->).
  cbn [Types.content console]. rewrite Hgiven. cbn [andb].
  unfold createdContent, readable, Fs.readFile. rewrite Hgiven.
  fold (templatePath vault params).
  split.
  - intros f Hf Hr. rewrite Hf, Hr. cbn [negb]. now split.
  - destruct (Fs.lookup (templatePath vault params) (files w)) as [f|].
    + intros ->. cbn [negb]. now split.
    + intros _. cbn [negb]. now split.
Qed.

Lemma X11_create_template_witness :
  exists note w',
    NoteCreationTool.execute Examples.model "/vault"
      (NoteCreationTool.mkParams "Minutes" (Some "typed by hand")
         (Some "meeting.md") None None None)
      Examples.ideasVault
    = (Ok note, w')
    /\ (forall f, Fs.lookup "/vault/_templates/meeting.md"
                    (files Examples.ideasVault) = Some f ->
                  canRead f = true ->
                  Types.content note = text f
                  /\ console w' = console Examples.ideasVault)
    /\ (true = true ->
        Types.content note = "typed by hand"
        /\ console w'
           = Message "Template meeting.md not found, using empty content"
               :: console Examples.ideasVault).
Proof.
  eexists. eexists.
  assert (Hrun : NoteCreationTool.execute Examples.model "/vault"
                   (NoteCreationTool.mkParams "Minutes" (Some "typed by hand")
                      (Some "meeting.md") None None None)
                   Examples.ideasVault
                 = (Ok _, _)) by (vm_compute; reflexivity).
  split; [exact Hrun |].
  destruct (X11_create_template Examples.model "/vault"
              (NoteCreationTool.mkParams "Minutes" (Some "typed by hand")
                 (Some "meeting.md") None None None)
              Examples.ideasVault _ _ eq_refl Hrun)
    as [H1 H2].
  split; [exact H1 |]. intros _. apply H2. reflexivity.
Defined.

(** X12: deleting the note a creation has just made, at a place where
    there was no file before, gives back the files as they were before
    the creation. *)
Theorem X12_delete_undoes_create (d : Deps) (vault notePath : string)
  (params : NoteCreationTool.NoteCreationParams) (w w1 : world)
  (note : Types.Note) :
  Fs.lookup (NoteCreationTool.filePath vault params) (files w) = None ->
  Path.join [vault; notePath] = NoteCreationTool.filePath vault params ->
  NoteCreationTool.execute d vault params w = (Ok note, w1) ->
  exists w2,
    NoteDeletionTool.execute vault notePath w1 = (Ok notePath, w2)
    /\ files w2 = files w.
Proof.
  intros Hfree Hpath Hrun.
  destruct (NoteFacts.create_run d vault params w w1 note Hrun)
    as (data & r & _ & -> & _).
  unfold NoteDeletionTool.execute, tryCatch, bind, Fs.access, Fs.unlink.
  rewrite Hpath. cbn [files]. rewrite FsFacts.lookup_store_same.
  cbn [files]. rewrite FsFacts.lookup_store_same.
  eexists. split; [reflexivity |]. cbn [files].
  now apply NoteFacts.remove_store_absent.
Qed.

Lemma X12_delete_undoes_create_witness :
  exists w2,
    NoteDeletionTool.execute "/vault" "plans.md"
      (snd (NoteCreationTool.execute Examples.model "/vault"
              (NoteCreationTool.mkParams "Plans" (Some "to do") None None None None)
              Examples.ideasVault))
    = (Ok "plans.md", w2)
    /\ files w2 = files Examples.ideasVault.
Proof.
  eapply (X12_delete_undoes_create Examples.model "/vault" "plans.md"
            (NoteCreationTool.mkParams "Plans" (Some "to do") None None None None)
            Examples.ideasVault).
  - reflexivity.
  - reflexivity.
  - vm_compute. reflexivity.
Defined.

(** X13: a deletion that succeeds removes the file it names and nothing
    else, and writes nothing; the same deletion once more fails with
    [Note not found] and changes nothing. *)
Theorem X13_delete_once (vault notePath : string) (w w1 : world) (r : string) :
  NoteDeletionTool.execute vault notePath w = (Ok r, w1) ->
  let p := Path.join [vault; notePath] in
  r = notePath
  /\ textAt p w <> None
  /\ textAt p w1 = None
  /\ (forall q, q <> p -> Fs.lookup q (files w1) = Fs.lookup q (files w))
  /\ written w1 = written w
  /\ NoteDeletionTool.execute vault notePath w1
     = (Err (NoteNotFound notePath), w1).
Proof.
  intros Hrun p. unfold NoteDeletionTool.execute, tryCatch, bind in Hrun.
  fold p in Hrun. unfold Fs.access, Fs.unlink in Hrun.
  destruct (Fs.lookup p (files w)) as [f|] eqn:Ef.
  - cbv beta iota in Hrun. rewrite Ef in Hrun. unfold ret in Hrun.
    injection Hrun as <- <-.
    split; [reflexivity |].
    split; [unfold textAt; rewrite Ef; discriminate |].
    split; [unfold textAt; cbn [files]; now rewrite FsFacts.lookup_remove_same |].
    split; [intros q Hq; cbn [files]; now apply FsFacts.lookup_remove_other |].
    split; [reflexivity |].
    unfold NoteDeletionTool.execute, tryCatch, bind, Fs.access. fold p.
    cbn [files]. now rewrite FsFacts.lookup_remove_same.
  - cbv beta iota in Hrun. discriminate Hrun.
Qed.

Lemma X13_delete_once_witness :
  "a.md" = "a.md"
  /\ textAt "/vault/a.md" Examples.vaultAndSecret <> None
  /\ textAt "/vault/a.md"
       (snd (NoteDeletionTool.execute "/vault" "a.md" Examples.vaultAndSecret))
     = None
  /\ (forall q, q <> "/vault/a.md" ->
        Fs.lookup q
          (files (snd (NoteDeletionTool.execute "/vault" "a.md"
                         Examples.vaultAndSecret)))
        = Fs.lookup q (files Examples.vaultAndSecret))
  /\ written (snd (NoteDeletionTool.execute "/vault" "a.md"
                     Examples.vaultAndSecret))
     = written Examples.vaultAndSecret
  /\ NoteDeletionTool.execute "/vault" "a.md"
       (snd (NoteDeletionTool.execute "/vault" "a.md" Examples.vaultAndSecret))
     = (Err (NoteNotFound "a.md"),
        snd (NoteDeletionTool.execute "/vault" "a.md" Examples.vaultAndSecret)).
Proof.
  apply (X13_delete_once "/vault" "a.md" Examples.vaultAndSecret).
  reflexivity.
Defined.

(** X14: after an addition of a tag that ends normally, every note the
    addition went through has the tag (at the end of its tags when it
    was not there, where it was otherwise); the same addition once more
    reports no note and writes nothing. *)
Theorem X14_addTag_idempotent (d : Deps) (vault tag : string)
  (notePaths : option (list string)) (w w1 : world)
  (stats : TagManagementTool.TagStats) :
  RoundTrip d ->
  NoDup (listed vault notePaths w) ->
  (forall p, In p (listed vault notePaths w) -> Path.join [vault; p] = p) ->
  TagManagementTool.addTag d vault tag notePaths w = (Ok stats, w1) ->
  (forall p, In p (listed vault notePaths w) ->
     exists T, tagsAt d p w = Some T
               /\ tagsAt d p w1 = Some (JsSet.add tag T))
  /\ TagManagementTool.addTag d vault tag notePaths w1
     = (Ok (TagManagementTool.mkTagStats tag 0 []), w1).
Proof.
  intros Hrt Hnd Hjoin Hrun.
  destruct (TagOpFacts.addTag_after d vault tag notePaths w w1 stats
              Hrt Hnd Hjoin Hrun) as (Hlisted & Hafter).
  assert (Hv : notePaths = None -> vault <> "").
  { intros E. rewrite E in Hrun. exact (TagOpFacts.addTag_vault _ _ _ _ _ _ Hrun). }
  split.
  - intros p Hp. destruct (Hafter p Hp) as (T & H1 & H2 & _). now exists T.
  - unfold TagManagementTool.addTag, bind.
    rewrite (TagOpFacts.filesOf_run vault notePaths w1 Hv), Hlisted.
    rewrite (TagOpFacts.processFiles_noop d vault
               (TagManagementTool.addChange tag) _ w1); [reflexivity |].
    intros p Hp. destruct (Hafter p Hp) as (T & _ & Ht2 & Hrd).
    apply TagOpFacts.tagsAt_parsed in Ht2 as (fm & body & Hpars & Htags2).
    destruct (TagOpFacts.readable_parsed d p w1 fm body Hrd Hpars)
      as (f & Hf & Hr & Hm).
    exists f, fm, body. rewrite (Hjoin p Hp).
    split; [exact Hf |]. split; [exact Hr |]. split; [exact Hm |].
    unfold TagManagementTool.addChange. rewrite Htags2.
    now rewrite TagOpFacts.has_add.
Qed.

Lemma X14_addTag_idempotent_witness :
  let w1 := snd (TagManagementTool.addTag Examples.model "." "new" None
                   Examples.taggedVault) in
  (forall p, In p ["first.md"; "sub/second.md"; "third.md"] ->
     exists T, tagsAt Examples.model p Examples.taggedVault = Some T
               /\ tagsAt Examples.model p w1 = Some (JsSet.add "new" T))
  /\ TagManagementTool.addTag Examples.model "." "new" None w1
     = (Ok (TagManagementTool.mkTagStats "new" 0 []), w1).
Proof.
  cbv zeta.
  eapply (X14_addTag_idempotent Examples.model "." "new" None
            Examples.taggedVault).
  - apply DocFacts.deps_roundTrip.
  - apply FsFacts.distinct_NoDup. reflexivity.
  - intros q Hq. vm_compute in Hq.
    repeat (destruct Hq as [<- | Hq]; [reflexivity |]). destruct Hq.
  - vm_compute. reflexivity.
Defined.

(** X15: a tag operation that ends normally, over listed paths [p]
    whose places [path.join(vaultPath, p)] are distinct, and where the
    package reads back what it wrote, reports the notes it has written:
    those, in the order of the list it went through, whose tag set, read
    at [path.join(vaultPath, p)], the operation changes; [count] is their
    number; the files written are the places of the reported notes, and
    a file at another place is as it was, its [modified] included. *)
Theorem X15_reported_notes (d : Deps) (vault : string)
  (operation : TagManagementTool.TagOperation) (w w' : world)
  (stats : TagManagementTool.TagStats) :
  RoundTrip d ->
  NoDup (map (fullPath vault) (listedFor vault operation w)) ->
  TagManagementTool.execute d vault operation w = (Ok stats, w') ->
  TagManagementTool.stats_notes stats
  = filter (fun p => touched d (changeFor operation) w (fullPath vault p))
      (listedFor vault operation w)
  /\ TagManagementTool.stats_count stats
     = List.length (TagManagementTool.stats_notes stats)
  /\ written w'
     = (rev (map (fullPath vault) (TagManagementTool.stats_notes stats))
        ++ written w)%list
  /\ (forall q,
        ~ In q (map (fullPath vault) (TagManagementTool.stats_notes stats)) ->
        Fs.lookup q (files w') = Fs.lookup q (files w)).
Proof.
  intros Hrt Hnd Hrun.
  destruct (TagOpFacts.execute_inv d vault operation w w' stats Hrun)
    as (notes & Hloop & -> & ->).
  destruct (TagRunFacts.processFiles_at d vault (changeFor operation) _
              Hrt Hnd w notes w' Hloop)
    as (Hnotes & _ & Hout & _ & Hwr & _).
  repeat split; assumption.
Qed.

Lemma X15_reported_notes_witness :
  let run := TagManagementTool.execute Examples.model "/vault"
               (TagManagementTool.mkOp TagManagementTool.remove "old" None
                  (Some ["first.md"; "sub/second.md"; "third.md"]))
               Cases.housedVault in
  exists stats w',
    run = (Ok stats, w')
    /\ TagManagementTool.stats_notes stats = ["first.md"; "sub/second.md"]
    /\ written w' = ["/vault/sub/second.md"; "/vault/first.md"]
    /\ Fs.lookup "/vault/third.md" (files w')
       = Fs.lookup "/vault/third.md" (files Cases.housedVault).
Proof.
  cbv zeta. eexists. eexists.
  assert (Hrun : TagManagementTool.execute Examples.model "/vault"
                   (TagManagementTool.mkOp TagManagementTool.remove "old" None
                      (Some ["first.md"; "sub/second.md"; "third.md"]))
                   Cases.housedVault
                 = (Ok _, _)) by (vm_compute; reflexivity).
  split; [exact Hrun |].
  assert (Hnd : NoDup (map (fullPath "/vault")
                         ["first.md"; "sub/second.md"; "third.md"]))
    by (apply FsFacts.distinct_NoDup; vm_compute; reflexivity).
  destruct (X15_reported_notes Examples.model "/vault"
              (TagManagementTool.mkOp TagManagementTool.remove "old" None
                 (Some ["first.md"; "sub/second.md"; "third.md"]))
              Cases.housedVault _ _
              (DocFacts.deps_roundTrip Examples.fixedClock) Hnd Hrun)
    as (Hnotes & _ & Hwr & Hout).
  split; [reflexivity |]. split; [reflexivity |].
  apply Hout. vm_compute. intros [H | [H | []]]; discriminate H.
Defined.

(** X16: where the places [path.join(vaultPath, p)] of the listed paths
    are distinct and the package reads back what it wrote, a removal of
    a tag after its addition over the same notes, both ending normally,
    reports every one of the notes and leaves each, read at
    [path.join(vaultPath, p)], with the tags it had before the addition,
    without the tag: a note that did not have the tag has its tags back
    in their order, a note that had it has lost it. *)
Theorem X16_remove_after_add (d : Deps) (vault tag : string)
  (notePaths : option (list string)) (w w1 w2 : world)
  (added removed : TagManagementTool.TagStats) :
  RoundTrip d ->
  NoDup (map (fullPath vault) (listed vault notePaths w)) ->
  TagManagementTool.addTag d vault tag notePaths w = (Ok added, w1) ->
  TagManagementTool.removeTag d vault tag notePaths w1 = (Ok removed, w2) ->
  TagManagementTool.stats_notes removed = listed vault notePaths w
  /\ (forall p, In p (listed vault notePaths w) ->
        exists T, tagsAt d (fullPath vault p) w = Some T
                  /\ tagsAt d (fullPath vault p) w2 = Some (JsSet.delete tag T)
                  /\ (JsSet.has tag T = false ->
                      tagsAt d (fullPath vault p) w2 = Some T)).
Proof.
  intros Hrt Hnd Hadd Hrem.
  destruct (TagOpFacts.addTag_after_at d vault tag notePaths w w1 added
              Hrt Hnd Hadd) as (Hlisted & Hafter).
  apply TagOpFacts.removeTag_inv in Hrem as (notes & Hloop & ->).
  rewrite Hlisted in Hloop.
  pose proof (TagOpFacts.processFiles_tags_at d vault
                (TagManagementTool.removeChange tag) _ w1 w2 notes Hrt Hnd
                (TagOpFacts.kinds_NoDup_remove tag) Hloop) as Htags.
  destruct (TagRunFacts.processFiles_at d vault
              (TagManagementTool.removeChange tag) _ Hrt Hnd w1 notes w2
              Hloop) as (Hnotes & _).
  cbn [TagManagementTool.stats_notes]. split.
  - rewrite Hnotes. apply TagOpFacts.filter_all. intros p Hp.
    destruct (Hafter p Hp) as (T & _ & Ht1 & _).
    unfold touched. rewrite Ht1. unfold TagManagementTool.removeChange.
    now rewrite TagOpFacts.has_add.
  - intros p Hp. destruct (Hafter p Hp) as (T & Ht & Ht1 & _).
    destruct (Htags p Hp) as (T1 & Ht1' & Ht2 & _).
    rewrite Ht1 in Ht1'. injection Ht1' as <-.
    exists T. split; [exact Ht |].
    assert (H2 : tagsAt d (fullPath vault p) w2 = Some (JsSet.delete tag T)).
    { rewrite Ht2. unfold TagManagementTool.removeChange.
      rewrite TagOpFacts.has_add. now rewrite TagFacts.delete_add_same. }
    split; [exact H2 |].
    intros Hno. rewrite H2. now rewrite TagOpFacts.delete_absent.
Qed.

Lemma X16_remove_after_add_witness :
  let paths := ["first.md"; "sub/second.md"; "third.md"] in
  let w1 := snd (TagManagementTool.addTag Examples.model "/vault" "old"
                   (Some paths) Cases.housedVault) in
  let run2 :=
    TagManagementTool.removeTag Examples.model "/vault" "old" (Some paths) w1 in
  exists removed w2,
    run2 = (Ok removed, w2)
    /\ TagManagementTool.stats_notes removed = paths
    /\ (forall p, In p paths ->
          exists T,
            tagsAt Examples.model (fullPath "/vault" p) Cases.housedVault
            = Some T
            /\ tagsAt Examples.model (fullPath "/vault" p) w2
               = Some (JsSet.delete "old" T)
            /\ (JsSet.has "old" T = false ->
                tagsAt Examples.model (fullPath "/vault" p) w2 = Some T)).
Proof.
  cbv zeta. eexists. eexists.
  assert (Hrun : TagManagementTool.removeTag Examples.model "/vault" "old"
                   (Some ["first.md"; "sub/second.md"; "third.md"])
                   (snd (TagManagementTool.addTag Examples.model "/vault" "old"
                           (Some ["first.md"; "sub/second.md"; "third.md"])
                           Cases.housedVault))
                 = (Ok _, _)) by (vm_compute; reflexivity).
  split; [exact Hrun |].
  refine (X16_remove_after_add Examples.model "/vault" "old"
            (Some ["first.md"; "sub/second.md"; "third.md"])
            Cases.housedVault _ _ _ _
            (DocFacts.deps_roundTrip Examples.fixedClock) _ _ Hrun).
  - apply FsFacts.distinct_NoDup. vm_compute. reflexivity.
  - vm_compute. reflexivity.
Defined.

(** X17: a note whose [tags] field is a string and not a list has the
    string taken apart: where the package reads back what it wrote,
    after an addition that ends normally of a tag that is not one of the
    characters of the string, the note, read at
    [path.join(vaultPath, file)], has as tags the distinct characters of
    the string, each as a tag, and the new tag. *)
Theorem X17_scalar_tags_taken_apart (d : Deps) (vault tag file : string)
  (w w' : world) (stats : TagManagementTool.TagStats)
  (fm : FrontMatter) (body s : string) :
  RoundTrip d ->
  parsedAt d (fullPath vault file) w = Some (fm, body) ->
  Fm.get "tags" fm = VStr s -> s <> "" ->
  JsSet.has tag (JsSet.ofList (chars s)) = false ->
  TagManagementTool.addTag d vault tag (Some [file]) w = (Ok stats, w') ->
  exists fm',
    parsedAt d (fullPath vault file) w' = Some (fm', body)
    /\ Fm.get "tags" fm' = VArr (JsSet.ofList (chars s) ++ [tag])%list
    /\ TagManagementTool.stats_notes stats = [file].
Proof.
  intros Hrt Hpars Htags Hne Hnew Hrun.
  apply TagOpFacts.addTag_inv in Hrun as (notes & Hloop & ->).
  cbn [listed] in Hloop.
  assert (Hnd : NoDup (map (fullPath vault) [file]))
    by (constructor; [intros [] | constructor]).
  destruct (TagRunFacts.processFiles_at d vault
              (TagManagementTool.addChange tag) [file] Hrt Hnd w notes w'
              Hloop) as (Hnotes & _ & _ & Hin & _).
  destruct (Hin file (or_introl eq_refl)) as (fm0 & body0 & Hp0 & _ & Hafter).
  rewrite Hpars in Hp0. injection Hp0 as <- <-.
  assert (Hset : TagManagementTool.tagsOf fm = JsSet.ofList (chars s)).
  { unfold TagManagementTool.tagsOf. rewrite Htags. cbn [Fm.truthy].
    destruct (String.eqb s "") eqn:E;
      [apply String.eqb_eq in E; congruence | reflexivity]. }
  assert (Hch : TagManagementTool.addChange tag (TagManagementTool.tagsOf fm)
                = Some (JsSet.ofList (chars s) ++ [tag])%list).
  { unfold TagManagementTool.addChange, JsSet.add. now rewrite Hset, Hnew. }
  rewrite Hch in Hafter. destruct Hafter as (t & _ & Hafter).
  eexists. split; [exact Hafter |]. split.
  - apply TagFacts.updatedFrontmatter_tags.
  - cbn [TagManagementTool.stats_notes]. rewrite Hnotes. cbn [filter].
    unfold touched, tagsAt. now rewrite Hpars, Hch.
Qed.

Lemma X17_scalar_tags_taken_apart_witness :
  exists fm',
    parsedAt Examples.model (fullPath "/vault" "note.md")
      (snd (TagManagementTool.addTag Examples.model "/vault" "urgent"
              (Some ["note.md"]) Cases.housedScalar))
    = Some (fm', "body")
    /\ Fm.get "tags" fm'
       = VArr ["p"; "r"; "o"; "j"; "e"; "c"; "t"; "urgent"]
    /\ TagManagementTool.stats_notes
         (TagManagementTool.mkTagStats "urgent" 1 ["note.md"])
       = ["note.md"].
Proof.
  eapply (X17_scalar_tags_taken_apart Examples.model "/vault" "urgent" "note.md"
            Cases.housedScalar _ _
            [("title", VStr "N"); ("tags", VStr "project")] "body" "project").
  - apply DocFacts.deps_roundTrip.
  - vm_compute. reflexivity.
  - reflexivity.
  - discriminate.
  - reflexivity.
  - vm_compute. reflexivity.
Defined.

(** X18: renaming a tag to itself is not without effect: where the
    places [path.join(vaultPath, p)] of the listed notes [p] are
    distinct, the package reads back what it wrote and the rename ends
    normally, every listed note that, read at its place, has the tag is
    written again there, with the tag moved to the end of its tags, and
    is reported; the file of a listed note without the tag is as it
    was. *)
Theorem X18_rename_to_itself (d : Deps) (vault tag : string)
  (w w' : world) (stats : TagManagementTool.TagStats) :
  RoundTrip d ->
  NoDup (map (fullPath vault) (notesOf vault w)) ->
  TagManagementTool.renameTag d vault tag tag w = (Ok stats, w') ->
  forall p, In p (notesOf vault w) ->
    exists T,
      tagsAt d (fullPath vault p) w = Some T
      /\ (JsSet.has tag T = true ->
          tagsAt d (fullPath vault p) w'
          = Some (JsSet.delete tag T ++ [tag])%list
          /\ In p (TagManagementTool.stats_notes stats)
          /\ In (fullPath vault p) (written w'))
      /\ (JsSet.has tag T = false ->
          Fs.lookup (fullPath vault p) (files w')
          = Fs.lookup (fullPath vault p) (files w)).
Proof.
  intros Hrt Hnd Hrun p Hp.
  apply TagOpFacts.renameTag_inv in Hrun as (notes & Hloop & ->).
  destruct (TagOpFacts.processFiles_tags_at d vault
              (TagManagementTool.renameChange tag tag) _ w w' notes Hrt Hnd
              (TagOpFacts.kinds_NoDup_rename tag tag) Hloop p Hp)
    as (T & Ht & Ht2 & _ & Hmem).
  destruct (TagRunFacts.processFiles_at d vault
              (TagManagementTool.renameChange tag tag) _ Hrt Hnd w notes w'
              Hloop) as (Hnotes & _ & Hout & _ & Hwr & _).
  exists T. split; [exact Ht |].
  unfold TagManagementTool.renameChange in Ht2, Hmem.
  cbn [TagManagementTool.stats_notes]. split.
  - intros Hhas. rewrite Hhas in Ht2, Hmem.
    assert (Hin : In p notes) by (apply Hmem; discriminate).
    split; [| split; [exact Hin |]].
    + rewrite Ht2. unfold JsSet.add. now rewrite TagOpFacts.has_delete.
    + rewrite Hwr. apply in_or_app. left. apply in_rev.
      rewrite rev_involutive. now apply in_map.
  - intros Hhas. rewrite Hhas in Hmem. apply Hout. intros Hin.
    apply in_map_iff in Hin as (y & Hy & Hyin).
    assert (Hyps : In y (notesOf vault w)).
    { rewrite Hnotes in Hyin. now apply filter_In in Hyin as [Hyin _]. }
    rewrite (TagOpFacts.NoDup_map_inj (fullPath vault) _ y p Hnd Hyps Hp Hy)
      in Hyin.
    apply Hmem in Hyin. congruence.
Qed.

Lemma X18_rename_to_itself_witness :
  exists T,
    tagsAt Examples.model (fullPath "." "first.md") Examples.taggedVault
    = Some T
    /\ (JsSet.has "old" T = true ->
        tagsAt Examples.model (fullPath "." "first.md")
          (snd (TagManagementTool.renameTag Examples.model "." "old" "old"
                  Examples.taggedVault))
        = Some (JsSet.delete "old" T ++ ["old"])%list
        /\ In "first.md" ["first.md"; "sub/second.md"]
        /\ In (fullPath "." "first.md")
             (written (snd (TagManagementTool.renameTag Examples.model "." "old"
                              "old" Examples.taggedVault))))
    /\ (JsSet.has "old" T = false ->
        Fs.lookup (fullPath "." "first.md")
          (files (snd (TagManagementTool.renameTag Examples.model "." "old"
                         "old" Examples.taggedVault)))
        = Fs.lookup (fullPath "." "first.md") (files Examples.taggedVault)).
Proof.
  eapply (X18_rename_to_itself Examples.model "." "old" Examples.taggedVault
            _ (TagManagementTool.mkTagStats "old" 2 ["first.md"; "sub/second.md"])).
  - apply DocFacts.deps_roundTrip.
  - apply FsFacts.distinct_NoDup. vm_compute. reflexivity.
  - vm_compute. reflexivity.
  - vm_compute. tauto.
Defined.

(** X19: the agent never throws: a task ends with a result.  The result
    is a success exactly when the task was understood, planned and every
    step of the plan ran: a success comes from such a run, and such a
    run ends with the success [Task completed successfully].  A success
    holds one answer for each step of the plan, every step named a tool
    of the agent, and no error is reported; a failure holds no data and
    the error that ended the task. *)
Theorem X19_agent_never_throws (Params Res : Type)
  (tools : list (Types.Tool Params Res))
  (understandTask : string -> M BaseAgent.TaskUnderstanding)
  (createExecutionPlan :
     BaseAgent.TaskUnderstanding -> list (Types.Tool Params Res)
     -> M (list (BaseAgent.Step Params)))
  (task : string) (w : world) :
  let run := BaseAgent.execute tools understandTask createExecutionPlan task w in
  (forall e, fst run <> Err e)
  /\ (forall result w', run = (Ok result, w') ->
        if Types.success result then
          exists tu w0 plan w1 results,
            understandTask task w = (Ok tu, w0)
            /\ createExecutionPlan tu (BaseAgent.selectTools tools tu) w0
               = (Ok plan, w1)
            /\ BaseAgent.executePlan tools plan w1 = (Ok results, w')
            /\ Types.data result = Some results
            /\ List.length results = List.length plan
            /\ Forall (fun step => exists tool,
                         In tool tools
                         /\ Types.name tool = BaseAgent.toolName step) plan
            /\ Types.error result = None
        else
          Types.data result = None
          /\ Types.message result = "Task execution failed"
          /\ exists e, Types.error result = Some e)
  /\ (forall tu w0 plan w1 results w',
        understandTask task w = (Ok tu, w0) ->
        createExecutionPlan tu (BaseAgent.selectTools tools tu) w0
        = (Ok plan, w1) ->
        BaseAgent.executePlan tools plan w1 = (Ok results, w') ->
        run
        = (Ok (Types.mkResult true "Task completed successfully"
                 (Some results) None),
           w')).
Proof.
  cbv zeta.
  destruct (AgentFacts.execute_cases tools understandTask createExecutionPlan
              task w) as [Hnever Hcases].
  split; [exact Hnever |]. split; [exact Hcases |].
  intros tu w0 plan w1 results w' Hu Hp Hr.
  unfold BaseAgent.execute, tryCatch, bind.
  now rewrite Hu, Hp, Hr.
Qed.

(** X20: the plan is not undone: when a step fails, the steps before it
    have had their effect and the world stays as the failing step left
    it, the steps after it are not run, and the answers of the steps that
    ran are not part of the result. *)
Theorem X20_plan_is_not_undone (Params Res : Type)
  (tools : list (Types.Tool Params Res))
  (understandTask : string -> M BaseAgent.TaskUnderstanding)
  (createExecutionPlan :
     BaseAgent.TaskUnderstanding -> list (Types.Tool Params Res)
     -> M (list (BaseAgent.Step Params)))
  (task : string) (tu : BaseAgent.TaskUnderstanding)
  (before after : list (BaseAgent.Step Params)) (step : BaseAgent.Step Params)
  (results : list Res) (e : exn) (w w0 w1 w2 w3 : world) :
  understandTask task w = (Ok tu, w0) ->
  createExecutionPlan tu (BaseAgent.selectTools tools tu) w0
  = (Ok (before ++ step :: after)%list, w1) ->
  BaseAgent.executePlan tools before w1 = (Ok results, w2) ->
  BaseAgent.executeStep tools step w2 = (Err e, w3) ->
  BaseAgent.execute tools understandTask createExecutionPlan task w
  = (Ok (Types.mkResult false "Task execution failed" None (Some e)), w3).
Proof.
  intros Hu Hp Hbefore Hstep.
  pose proof (AgentFacts.executePlan_stops tools before after step e
                w1 w2 w3 results Hbefore Hstep) as Hrun.
  unfold BaseAgent.execute, tryCatch, bind.
  now rewrite Hu, Hp, Hrun.
Qed.

Lemma X20_plan_is_not_undone_witness :
  exists w3,
    BaseAgent.execute Desk.tools Desk.understood Desk.planned "plan and tidy"
      Examples.ideasVault
    = (Ok (Types.mkResult false "Task execution failed" None
             (Some (NoteNotFound "missing.md"))),
       w3)
    /\ World.textAt "/vault/plans.md" w3 <> None
    /\ World.textAt "/vault/plans.md" Examples.ideasVault = None
    /\ World.textAt "/vault/ideas.md" w3 <> None.
Proof.
  eexists. split.
  - eapply (X20_plan_is_not_undone Desk.Call Desk.Answer Desk.tools
              Desk.understood Desk.planned "plan and tidy"
              (BaseAgent.mkUnderstanding "create"
                 (Some ["note_creation"; "note_deletion"]) [])
              [BaseAgent.mkStep "note_creation"
                 (Desk.Create (NoteCreationTool.mkParams "Plans" (Some "to do")
                                 None None None None))]
              [BaseAgent.mkStep "note_deletion" (Desk.Delete "ideas.md")]
              (BaseAgent.mkStep "note_deletion" (Desk.Delete "missing.md"))).
    + reflexivity.
    + reflexivity.
    + vm_compute. reflexivity.
    + vm_compute. reflexivity.
  - vm_compute. repeat split; discriminate.
Defined.

(** X21: the note management agent never throws: a task, with or
    without an uploaded file, ends with a result; a success holds data and
    no error, a failure holds the error and no data. *)
Theorem X21_manager_never_throws (Params Res : Type) (d : Deps)
  (tools : list (Types.Tool Params Res))
  (ofCreation : NoteCreationTool.NoteCreationParams -> Params)
  (understandTask : string -> M (BaseAgent.TaskUnderstanding * Params))
  (createExecutionPlan :
     BaseAgent.TaskUnderstanding -> list (Types.Tool Params Res)
     -> M (list (BaseAgent.Step Params)))
  (task : string) (uploadedFile : option UploadedFile) (w : world) :
  let run := execute d tools ofCreation understandTask createExecutionPlan
               task uploadedFile w in
  (forall e, fst run <> Err e)
  /\ (forall result w', run = (Ok result, w') ->
        if success result
        then error result = None /\ data result <> None
        else data result = None /\ exists e, error result = Some e).
Proof.
  cbv zeta.
  assert (H : forall o w',
            execute d tools ofCreation understandTask createExecutionPlan
              task uploadedFile w = (o, w') ->
            match o with
            | Ok r => if success r
                      then error r = None /\ data r <> None
                      else data r = None /\ exists e, error r = Some e
            | Err _ => False
            | Beyond => True
            end).
  { intros o w' H. unfold execute, tryCatch in H.
    match type of H with
    | (match ?m w with _ => _ end) = _ =>
        destruct (m w) as [[r|e|] w1] eqn:E
    end.
    - injection H as <- <-.
      unfold bind at 1 in E.
      match type of E with
      | (match ?m w with _ => _ end) = _ =>
          destruct (m w) as [[u|e|] w2]; try discriminate E
      end.
      unfold bind at 1 in E.
      destruct (understandTask task w2) as [[[tu params]|e|] w3];
        try discriminate E.
      cbn [fst snd] in E.
      repeat match type of E with
             | (if ?b then _ else _) _ = _ => destruct b
             end;
        first [ exact (ManageFacts2.useTool_shape _ _ _ _ _ _ _ _ _ E)
              | exact (ManageFacts2.superExecute_shape _ _ _ _ _ _ _ E) ].
    - unfold ret in H. injection H as <- <-. cbn.
      split; [reflexivity | now exists e].
    - injection H as <- <-. exact I. }
  split.
  - intros e He. specialize (H _ _ (surjective_pairing _)).
    rewrite He in H. exact H.
  - intros result w' E. exact (H _ _ E).
Qed.

(** X22: an uploaded file is recorded before the task is looked at:
    the agent first calls the creation tool with the note of the upload;
    when that call fails the task is not analysed and ends as a failure
    that wraps the error of the tool; when it succeeds the task goes on,
    from the world the creation has left, as a task without upload. *)
Theorem X22_upload_first (Params Res : Type) (d : Deps)
  (tools : list (Types.Tool Params Res))
  (ofCreation : NoteCreationTool.NoteCreationParams -> Params)
  (understandTask : string -> M (BaseAgent.TaskUnderstanding * Params))
  (createExecutionPlan :
     BaseAgent.TaskUnderstanding -> list (Types.Tool Params Res)
     -> M (list (BaseAgent.Step Params)))
  (task : string) (file : UploadedFile) (tool : Types.Tool Params Res)
  (w : world) :
  find (fun t => String.eqb (Types.name t) "note_creation") tools = Some tool ->
  let params := ofCreation (uploadNote file (clock d (clockReads w))) in
  let w0 := mkWorld (files w) (written w) (console w) (S (clockReads w)) in
  (forall e w1,
      Types.execute tool params w0 = (Err e, w1) ->
      execute d tools ofCreation understandTask createExecutionPlan task
        (Some file) w
      = (Ok (mkResult false "Failed to execute task" None
               (Some (Failed "Failed to create note for uploaded file" e))),
         w1))
  /\ (forall r w1,
        Types.execute tool params w0 = (Ok r, w1) ->
        execute d tools ofCreation understandTask createExecutionPlan task
          (Some file) w
        = execute d tools ofCreation understandTask createExecutionPlan task
            None w1).
Proof.
  intros Hfind params w0. split.
  - intros e w1 Hrun.
    unfold execute, tryCatch at 1, bind at 1, bind at 1, now.
    fold params. fold w0.
    unfold bind at 1, createNote, useTool, tryCatch at 1.
    rewrite Hfind. unfold bind at 1. rewrite Hrun. reflexivity.
  - intros r w1 Hrun.
    unfold execute, tryCatch. unfold bind at 1. unfold bind at 1.
    unfold now. fold params. fold w0.
    unfold bind at 1, createNote at 1, useTool at 1, tryCatch at 1.
    rewrite Hfind. unfold bind at 1. rewrite Hrun. reflexivity.
Qed.

Lemma X22_upload_first_witness :
  execute Examples.model Desk.tools Desk.Create Uploads.understood
    Desk.planned "delete the report" (Some Uploads.report) Uploads.blocked
  = (Ok (mkResult false "Failed to execute task" None
           (Some (Failed "Failed to create note for uploaded file"
                    (Failed "Failed to create note"
                       (FsError EACCES "/vault/report-final.md"))))),
     mkWorld (files Uploads.blocked) [] [] 3).
Proof.
  apply (proj1 (X22_upload_first Desk.Call Desk.Answer Examples.model
                  Desk.tools Desk.Create Uploads.understood Desk.planned
                  "delete the report" Uploads.report
                  (Desk.creation Examples.model "/vault") Uploads.blocked
                  eq_refl)).
  vm_compute. reflexivity.
Defined.

(** X23: the title of the note of an uploaded file is the name of the
    file without its last extension (a dot and what follows it, when that
    holds no dot and no slash and is not empty); a name without a dot is
    the title as it is, and a name that is only an extension (a hidden
    file) gives the empty title. *)
Theorem X23_upload_title (file : UploadedFile) (uploadDate : string) :
  (forall base ext,
      ext <> "" ->
      Str.forallb (fun x => negb (Ascii.eqb x "/") && negb (Ascii.eqb x ".")) ext
      = true ->
      name file = base ++ "." ++ ext ->
      NoteCreationTool.title (uploadNote file uploadDate) = base)
  /\ (Str.forallb (fun x => negb (Ascii.eqb x ".")) (name file) = true ->
      NoteCreationTool.title (uploadNote file uploadDate) = name file)
  /\ NoteCreationTool.tags (uploadNote file uploadDate) = Some ["uploaded-file"]
  /\ Fm.get "originalFile"
       (match NoteCreationTool.frontmatter (uploadNote file uploadDate) with
        | Some f => f | None => [] end)
     = VStr (name file).
Proof.
  unfold uploadNote, replaceOnce. cbn [NoteCreationTool.title].
  split; [| split; [| split; reflexivity]].
  - intros base ext Hne Hext ->.
    now apply ManageFacts2.replaceOnceFrom_extension.
  - now apply ManageFacts2.replaceOnceFrom_noDot.
Qed.



Section Folders.
Import Disk Census FolderOps.

(** X25: [getFolderStats] counts what is below a folder: the notes are
    the regular files at any depth whose name ends in [.md], in either
    case, and the subfolders are the directories at any depth; nothing
    is written or warned.  A create operation for a folder that is
    there gives the same answer and changes nothing. *)
Theorem X25_folder_counts (vaultPath : string)
  (fsRename updateLinksInVault : string -> string -> DM unit)
  (fuel : nat) (folderPath : string) (destinationPath : option string)
  (es : list (string * node)) (d : disk) :
  noDotDot vaultPath = true ->
  noDotDot folderPath = true ->
  get (segments (Path.join [vaultPath; folderPath])) (root d)
  = Some (Folder es) ->
  sound (Folder es) = true ->
  depth (Folder es) <= fuel ->
  let stats := mkStats folderPath (notes (Folder es)) (folders (Folder es)) in
  getFolderStats vaultPath fuel folderPath d = (Ok stats, d)
  /\ execute vaultPath fsRename updateLinksInVault fuel
       (mkOp create folderPath destinationPath) d
     = (Ok stats, d).
Proof.
  intros Hv Hf Hget Hs Hd stats.
  pose proof (FolderFacts.getFolderStats_run vaultPath Hv fuel folderPath es d
                Hf Hget Hs Hd) as Hrun.
  split; [exact Hrun |].
  unfold execute, Disk.tryCatch. cbn [type sourcePath].
  unfold createFolder, Disk.bind, mkdir.
  rewrite (TreeFacts.mkdirp_same _ _ _ Hget).
  destruct d as [r w]. cbn [root warned] in *.
  now rewrite Hrun.
Qed.

Lemma X25_folder_counts_witness :
  getFolderStats "/vault" 3 "" Shelf.shelf
  = (Ok (mkStats "" 2 2), Shelf.shelf)
  /\ execute "/vault" Shelf.noSource Shelf.noLinks 3
       (mkOp create "" None) Shelf.shelf
     = (Ok (mkStats "" 2 2), Shelf.shelf).
Proof.
  assert (Hget : get (segments (Path.join ["/vault"; ""])) (root Shelf.shelf)
                 = Some (Folder Shelf.vault)) by (vm_compute; reflexivity).
  assert (Hs : sound (Folder Shelf.vault) = true) by (vm_compute; reflexivity).
  assert (Hd : depth (Folder Shelf.vault) <= 3) by (vm_compute; lia).
  exact (X25_folder_counts "/vault" Shelf.noSource Shelf.noLinks 3 "" None
           Shelf.vault Shelf.shelf eq_refl eq_refl Hget Hs Hd).
Defined.

(** X26: [getFolderStats] never throws, whatever is or is not at the
    path of the folder, and never changes the tree. *)
Theorem X26_stats_never_throw (vaultPath : string) (fuel : nat)
  (folderPath : string) (d : disk) :
  (forall e, fst (getFolderStats vaultPath fuel folderPath d) <> Err e)
  /\ root (snd (getFolderStats vaultPath fuel folderPath d)) = root d.
Proof.
  destruct (FolderFacts.getFolderStats_quiet vaultPath fuel folderPath d)
    as [H1 H2].
  split; [exact H2 | exact H1].
Qed.

(** X27: a delete operation on a folder answers with the counts the
    folder had and removes it with all it holds: afterwards nothing is
    at its path.  Nothing is warned. *)
Theorem X27_delete_folder (vaultPath : string)
  (fsRename updateLinksInVault : string -> string -> DM unit)
  (fuel : nat) (folderPath : string) (destinationPath : option string)
  (es : list (string * node)) (d : disk) :
  noDotDot vaultPath = true ->
  noDotDot folderPath = true ->
  segments (Path.join [vaultPath; folderPath]) <> [] ->
  get (segments (Path.join [vaultPath; folderPath])) (root d)
  = Some (Folder es) ->
  sound (Folder es) = true ->
  depth (Folder es) <= fuel ->
  exists d',
    execute vaultPath fsRename updateLinksInVault fuel
      (mkOp delete folderPath destinationPath) d
    = (Ok (mkStats folderPath (notes (Folder es)) (folders (Folder es))), d')
    /\ get (segments (Path.join [vaultPath; folderPath])) (root d') = None
    /\ warned d' = warned d.
Proof.
  intros Hv Hf Hne Hget Hs Hd.
  pose proof (FolderFacts.getFolderStats_run vaultPath Hv fuel folderPath es d
                Hf Hget Hs Hd) as Hrun.
  pose proof (TreeFacts.get_not_blocked _ _ _ Hget) as Hb.
  unfold execute, Disk.tryCatch. cbn [type sourcePath].
  unfold deleteFolder, Disk.bind. rewrite Hrun. unfold rm.
  destruct (segments (Path.join [vaultPath; folderPath])) as [|seg segs];
    [congruence |].
  rewrite Hb. eexists. split; [reflexivity |].
  cbn [root warned]. split; [apply TreeFacts.get_prune | reflexivity].
Qed.

Lemma X27_delete_folder_witness :
  exists d',
    execute "/vault" Shelf.noSource Shelf.noLinks 2
      (mkOp delete "Projects" None) Shelf.shelf
    = (Ok (mkStats "Projects" 1 1), d')
    /\ get (segments (Path.join ["/vault"; "Projects"])) (root d') = None
    /\ warned d' = warned Shelf.shelf.
Proof.
  assert (Hne : segments (Path.join ["/vault"; "Projects"]) <> [])
    by (vm_compute; discriminate).
  assert (Hget : get (segments (Path.join ["/vault"; "Projects"]))
                   (root Shelf.shelf)
                 = Some (Folder
                           [("plan.MD", File (Examples.note "second"));
                            ("todo.txt", File (Examples.note "no note"));
                            ("Old", Folder [])]))
    by (vm_compute; reflexivity).
  assert (Hs : sound (Folder
                        [("plan.MD", File (Examples.note "second"));
                         ("todo.txt", File (Examples.note "no note"));
                         ("Old", Folder [])]) = true)
    by (vm_compute; reflexivity).
  assert (Hd : depth (Folder
                        [("plan.MD", File (Examples.note "second"));
                         ("todo.txt", File (Examples.note "no note"));
                         ("Old", Folder [])]) <= 2)
    by (vm_compute; lia).
  exact (X27_delete_folder "/vault" Shelf.noSource Shelf.noLinks 2 "Projects"
           None _ Shelf.shelf eq_refl eq_refl Hne Hget Hs Hd).
Defined.

(** X28: a delete operation for a path at which no directory is still
    succeeds: it answers with zero counts, leaves the warning of
    [getFolderStats], and removes what is at the path, so a note that
    the path names is deleted. *)
Theorem X28_delete_what_is_no_folder (vaultPath : string)
  (fsRename updateLinksInVault : string -> string -> DM unit)
  (fuel : nat) (folderPath : string) (destinationPath : option string)
  (d : disk) :
  0 < fuel ->
  segments (Path.join [vaultPath; folderPath]) <> [] ->
  blocked (segments (Path.join [vaultPath; folderPath])) (root d) = false ->
  (forall es,
     get (segments (Path.join [vaultPath; folderPath])) (root d)
     <> Some (Folder es)) ->
  exists code d',
    execute vaultPath fsRename updateLinksInVault fuel
      (mkOp delete folderPath destinationPath) d
    = (Ok (mkStats folderPath 0 0), d')
    /\ get (segments (Path.join [vaultPath; folderPath])) (root d') = None
    /\ warned d'
       = (folderPath, FsError code (Path.join [vaultPath; folderPath]))
         :: warned d.
Proof.
  intros Hfuel Hne Hb Hnone. destruct fuel as [|fuel]; [lia |].
  destruct (FolderFacts.getFolderStats_none vaultPath fuel folderPath d Hnone)
    as [code Hrun].
  exists code.
  unfold execute, Disk.tryCatch. cbn [type sourcePath].
  unfold deleteFolder, Disk.bind. rewrite Hrun. unfold rm.
  destruct (segments (Path.join [vaultPath; folderPath])) as [|seg segs];
    [congruence |].
  cbn [root]. rewrite Hb. eexists. split; [reflexivity |].
  cbn [root warned]. split; [apply TreeFacts.get_prune | reflexivity].
Qed.

Lemma X28_delete_what_is_no_folder_witness :
  exists code d',
    execute "/vault" Shelf.noSource Shelf.noLinks 1
      (mkOp delete "a.md" None) Shelf.shelf
    = (Ok (mkStats "a.md" 0 0), d')
    /\ get (segments (Path.join ["/vault"; "a.md"])) (root d') = None
    /\ warned d'
       = ("a.md", FsError code (Path.join ["/vault"; "a.md"]))
         :: warned Shelf.shelf.
Proof.
  assert (Hne : segments (Path.join ["/vault"; "a.md"]) <> [])
    by (vm_compute; discriminate).
  assert (Hb : blocked (segments (Path.join ["/vault"; "a.md"]))
                 (root Shelf.shelf) = false) by (vm_compute; reflexivity).
  assert (Hnone : forall es,
            get (segments (Path.join ["/vault"; "a.md"])) (root Shelf.shelf)
            <> Some (Folder es)) by (intros es; vm_compute; discriminate).
  exact (X28_delete_what_is_no_folder "/vault" Shelf.noSource Shelf.noLinks 1
           "a.md" None Shelf.shelf (le_n 1) Hne Hb Hnone).
Defined.

(** X29: a create operation for a path at which nothing is makes an
    empty directory there, with the directories that lead to it, and
    answers with zero counts; nothing is warned. *)
Theorem X29_create_folder (vaultPath : string)
  (fsRename updateLinksInVault : string -> string -> DM unit)
  (fuel : nat) (folderPath : string) (destinationPath : option string)
  (es0 : list (string * node)) (d : disk) :
  0 < fuel ->
  root d = Folder es0 ->
  get (segments (Path.join [vaultPath; folderPath])) (root d) = None ->
  blocked (segments (Path.join [vaultPath; folderPath])) (root d) = false ->
  exists d',
    execute vaultPath fsRename updateLinksInVault fuel
      (mkOp create folderPath destinationPath) d
    = (Ok (mkStats folderPath 0 0), d')
    /\ get (segments (Path.join [vaultPath; folderPath])) (root d')
       = Some (Folder [])
    /\ warned d' = warned d.
Proof.
  intros Hfuel Hroot Hget Hb. destruct fuel as [|fuel]; [lia |].
  rewrite Hroot in Hget, Hb.
  destruct (TreeFacts.mkdirp_new _ _ Hget Hb) as [es' [Hmk Hnew]].
  unfold execute, Disk.tryCatch. cbn [type sourcePath].
  unfold createFolder, Disk.bind, mkdir. rewrite Hroot, Hmk.
  rewrite FolderFacts.getFolderStats_step. cbv zeta. cbn [root].
  rewrite Hnew. cbn [countEntries]. unfold Disk.ret. cbn [fst snd].
  eexists. split; [reflexivity |]. cbn [root warned]. now split.
Qed.

Lemma X29_create_folder_witness :
  exists d',
    execute "/vault" Shelf.noSource Shelf.noLinks 1
      (mkOp create "Archive/2024" None) Shelf.shelf
    = (Ok (mkStats "Archive/2024" 0 0), d')
    /\ get (segments (Path.join ["/vault"; "Archive/2024"])) (root d')
       = Some (Folder [])
    /\ warned d' = warned Shelf.shelf.
Proof.
  assert (Hget : get (segments (Path.join ["/vault"; "Archive/2024"]))
                   (root Shelf.shelf) = None) by (vm_compute; reflexivity).
  assert (Hb : blocked (segments (Path.join ["/vault"; "Archive/2024"]))
                 (root Shelf.shelf) = false) by (vm_compute; reflexivity).
  exact (X29_create_folder "/vault" Shelf.noSource Shelf.noLinks 1
           "Archive/2024" None _ Shelf.shelf (le_n 1) eq_refl Hget Hb).
Defined.

(** X30: a rename or move operation whose [fs.rename] fails, fails
    with that error, but the directories it made on the way to the
    destination stay: the parent directory of the destination is there
    afterwards, empty.  The links are not updated. *)
Theorem X30_failed_move_leaves_folders (vaultPath : string)
  (fsRename updateLinksInVault : string -> string -> DM unit)
  (fuel : nat) (operation : FolderOperation) (dest : string)
  (es0 : list (string * node)) (e : exn) (d : disk) :
  type operation = rename \/ type operation = move ->
  destinationPath operation = Some dest ->
  dest <> "" ->
  root d = Folder es0 ->
  get (segments (Path.dirname (Path.join [vaultPath; dest]))) (root d) = None ->
  blocked (segments (Path.dirname (Path.join [vaultPath; dest]))) (root d)
  = false ->
  (forall s,
     fsRename (Path.join [vaultPath; sourcePath operation])
       (Path.join [vaultPath; dest]) s = (Err e, s)) ->
  exists d',
    execute vaultPath fsRename updateLinksInVault fuel operation d
    = (Err (Failed "Failed to perform folder operation" e), d')
    /\ get (segments (Path.dirname (Path.join [vaultPath; dest]))) (root d')
       = Some (Folder [])
    /\ warned d' = warned d.
Proof.
  intros Htype Hdest Hne Hroot Hget Hb Hren.
  rewrite Hroot in Hget, Hb.
  destruct (TreeFacts.mkdirp_new _ _ Hget Hb) as [es' [Hmk Hnew]].
  assert (Hg : Fm.given (destinationPath operation) = true).
  { rewrite Hdest. cbn. apply negb_true_iff. now apply String.eqb_neq. }
  unfold execute, Disk.tryCatch.
  destruct Htype as [-> | ->]; rewrite Hg, Hdest;
    unfold moveFolder, Disk.bind, mkdir; rewrite Hroot, Hmk, Hren;
    (eexists; split; [reflexivity |]); cbn [root warned]; now split.
Qed.

Lemma X30_failed_move_leaves_folders_witness :
  exists d',
    execute "/vault" Shelf.noSource Shelf.noLinks 2
      (mkOp move "Missing" (Some "Archive/2024/Missing")) Shelf.shelf
    = (Err (Failed "Failed to perform folder operation"
              (FsError ENOENT "/vault/Missing")), d')
    /\ get (segments
              (Path.dirname (Path.join ["/vault"; "Archive/2024/Missing"])))
         (root d')
       = Some (Folder [])
    /\ warned d' = warned Shelf.shelf.
Proof.
  assert (Hne : "Archive/2024/Missing" <> "") by discriminate.
  assert (Hget : get (segments
                        (Path.dirname
                           (Path.join ["/vault"; "Archive/2024/Missing"])))
                   (root Shelf.shelf) = None) by (vm_compute; reflexivity).
  assert (Hb : blocked (segments
                          (Path.dirname
                             (Path.join ["/vault"; "Archive/2024/Missing"])))
                 (root Shelf.shelf) = false) by (vm_compute; reflexivity).
  exact (X30_failed_move_leaves_folders "/vault" Shelf.noSource Shelf.noLinks 2
           (mkOp move "Missing" (Some "Archive/2024/Missing"))
           "Archive/2024/Missing" _ (FsError ENOENT "/vault/Missing")
           Shelf.shelf (or_intror eq_refl) eq_refl Hne eq_refl Hget Hb
           (fun s => eq_refl)).
Defined.

End Folders.

End Further.
